(** * CSR-Scanner: a shallow embedding of the detection core

    The development follows the Python sources file by file:
    [models.py], [error_handler.py], [retry_manager.py],
    [performance_optimizer.py] and [website_renderer.py].

    Conventions.
    - Python [int] is [Z]; lists are [list]; dictionaries are [gmap].
    - The CSR score is a sum of binary64 constants compared against binary64
      thresholds, so it is modelled with Rocq's primitive floats, which are
      IEEE-754 binary64 with round-to-nearest-even, exactly as CPython's.
    - Wall-clock times and back-off delays are Python floats as well; where
      the code only adds, compares and passes them on they are idealised as
      exact rationals [Q].  The back-off delay is computed with [**], that
      is with the platform's [pow]: besides its idealisation in [Q] it is
      given in binary64, with [pow] as a parameter, and the law of the
      delay is stated on that reading.
    - Strings are ASCII strings; [str.lower] is the ASCII lowering.
    - A Python call that may raise returns [Res]; code that mutates the
      object graph threads the state explicitly ([Py]). *)

From Stdlib Require Import ZArith QArith Qpower Qabs Qminmax Lia Bool Ascii String.
From Stdlib Require Import PrimFloat FloatOps SpecFloat FloatAxioms.
From stdpp Require Import base option list strings gmap pretty.

Set Warnings "-inexact-float,-register-all".
Local Open Scope Z_scope.

(* ===================================================================== *)
(** * Python preliminaries                                                *)
(* ===================================================================== *)

Module Python.

(** The classes that the [isinstance] tests of [error_handler.py] name.
    [socket.error] is an alias of [OSError]; [HTTPError] and
    [requests.HTTPError] are the same class. *)
Inductive ExcClass :=
  | socket_gaierror
  | ssl_SSLError
  | RequestsSSLError
  | Urllib3SSLError
  | Timeout
  | TimeoutException
  | socket_timeout
  | WebDriverException
  | NoSuchElementException
  | ElementNotInteractableException
  | InvalidSessionIdException
  | SessionNotCreatedException
  | UnexpectedAlertPresentException
  | HTTPError
  | ValueError
  | UnicodeError
  | UnicodeDecodeError
  | ConnectionError
  | socket_error
  | RuntimeError
  | ZeroDivisionError
  | TypeError.

#[global] Instance ExcClass_eq_dec : EqDecision ExcClass.
Proof. solve_decision. Defined.

(** What the code observes of a [requests.Response]. *)
Record Response := {
  status_code : Z;
  reason : string;
  resp_url : string;
  resp_text : string
}.

(** An exception value, that is an instance of [Exception] (what an
    [except Exception] clause catches): the name of its class
    ([type(e).__name__]), the classes above that it is an instance of (its
    own class and its bases), its [str(e)], and the [response] attribute
    when it carries one. *)
Record Exception := {
  exc_type_name : string;
  exc_classes : list ExcClass;
  exc_str : string;
  exc_response : option Response
}.

(** [isinstance(e, (c1, ..., cn))] *)
Definition isinstance (e : Exception) (cs : list ExcClass) : bool :=
  existsb (fun c => bool_decide (c ∈ exc_classes e)) cs.

(** The result of a Python call: a value, or a raised exception. *)
Inductive Res (A : Type) :=
  | Ok (a : A)
  | Raise (e : Exception).
Arguments Ok {A} a.
Arguments Raise {A} e.

(** Code that reads and mutates a state [S] and may raise.  A raised
    exception keeps the mutations made before it, as in Python. *)
Definition Py (S A : Type) : Type := S -> Res A * S.

Definition ret {S A} (a : A) : Py S A := fun s => (Ok a, s).

Definition bind {S A B} (m : Py S A) (k : A -> Py S B) : Py S B :=
  fun s => match m s with
           | (Ok a, s') => k a s'
           | (Raise e, s') => (Raise e, s')
           end.

Definition raise {S A} (e : Exception) : Py S A := fun s => (Raise e, s).

(** [try: m except Exception as e: h e] *)
Definition try_except {S A} (m : Py S A) (h : Exception -> Py S A) : Py S A :=
  fun s => match m s with
           | (Ok a, s') => (Ok a, s')
           | (Raise e, s') => h e s'
           end.

Definition get {S} : Py S S := fun s => (Ok s, s).
Definition put {S} (s : S) : Py S unit := fun _ => (Ok tt, s).
Definition modify {S} (f : S -> S) : Py S unit := fun s => (Ok tt, f s).

(** Run a computation on a component of the state. *)
Definition zoom {S T A} (proj : S -> T) (upd : T -> S -> S) (m : Py T A) : Py S A :=
  fun s => let '(r, t) := m (proj s) in (r, upd t s).

(** Dynamically typed values, as far as the public entry point inspects
    its argument. *)
Inductive PyVal :=
  | PyNone
  | PyBool (b : bool)
  | PyInt (z : Z)
  | PyFloat (f : float)
  | PyStr (s : string)
  | PyList (l : list PyVal).

(** [bool(v)] *)
Definition truthy (v : PyVal) : bool :=
  match v with
  | PyNone => false
  | PyBool b => b
  | PyInt z => negb (z =? 0)
  | PyFloat f => negb (PrimFloat.eqb f 0%float)
  | PyStr s => negb (String.eqb s "")
  | PyList l => match l with [] => false | _ => true end
  end.

Definition is_str (v : PyVal) : bool :=
  match v with PyStr _ => true | _ => false end.

(** [str.lower] on ASCII text. *)
Definition lower_ascii (c : ascii) : ascii :=
  let n := nat_of_ascii c in
  if (65 <=? n)%nat && (n <=? 90)%nat then ascii_of_nat (n + 32) else c.

Fixpoint lower (s : string) : string :=
  match s with
  | EmptyString => EmptyString
  | String c t => String (lower_ascii c) (lower t)
  end.

(** [needle in hay] for strings. *)
Fixpoint contains (needle hay : string) : bool :=
  String.prefix needle hay ||
  match hay with
  | EmptyString => false
  | String _ t => contains needle t
  end.

(** [s.startswith(p)] *)
Definition startswith (s p : string) : bool := String.prefix p s.

(** [len(s)] *)
Definition len (s : string) : Z := Z.of_nat (String.length s).

End Python.
Import Python.

Declare Scope py_scope.
Delimit Scope py_scope with py.
Notation "x <- m ;; k" := (bind m (fun x => k))
  (at level 100, m at next level, right associativity) : py_scope.
Notation "m ;;; k" := (bind m (fun _ => k))
  (at level 100, right associativity) : py_scope.

(* ===================================================================== *)
(** * models.py                                                           *)
(* ===================================================================== *)

Inductive ErrorCategory :=
  | TIMEOUT_ERROR
  | HTTP_ERROR
  | SSL_ERROR
  | NETWORK_ERROR
  | BROWSER_ERROR
  | PARSE_ERROR
  | DNS_ERROR
  | UNKNOWN_ERROR.

#[global] Instance ErrorCategory_eq_dec : EqDecision ErrorCategory.
Proof. solve_decision. Defined.

Definition ErrorCategory_value (c : ErrorCategory) : string :=
  match c with
  | TIMEOUT_ERROR => "TimeoutError"
  | HTTP_ERROR => "HTTPError"
  | SSL_ERROR => "SSLError"
  | NETWORK_ERROR => "NetworkError"
  | BROWSER_ERROR => "BrowserError"
  | PARSE_ERROR => "ParseError"
  | DNS_ERROR => "DNSError"
  | UNKNOWN_ERROR => "UnknownError"
  end.

Inductive RenderingType :=
  | SERVER_SIDE_RENDERED
  | CLIENT_SIDE_RENDERED
  | NOT_ACCESSIBLE.

Definition RenderingType_value (r : RenderingType) : string :=
  match r with
  | SERVER_SIDE_RENDERED => "Server-Side Rendered"
  | CLIENT_SIDE_RENDERED => "Client-Side Rendered"
  | NOT_ACCESSIBLE => "Not Accessible"
  end.

Inductive ProcessingStatus :=
  | SUCCESS
  | FAILED
  | RETRYING.

Definition ProcessingStatus_value (s : ProcessingStatus) : string :=
  match s with
  | SUCCESS => "Success"
  | FAILED => "Failed"
  | RETRYING => "Retrying"
  end.

(** [ProcessingResult]: the enum-valued fields hold the enum's [.value];
    [url] echoes the caller's argument, which need not be a string. *)
Record ProcessingResult := {
  url : PyVal;
  final_url : PyVal;
  rendering_type : string;
  status : string;
  processing_time_sec : Q;
  timestamp : string;
  frameworks : list string;
  error_category : option string;
  error_message : option string;
  retry_count : Z;
  http_status_code : option Z
}.

Definition set_retry_count (n : Z) (r : ProcessingResult) : ProcessingResult :=
  {| url := url r; final_url := final_url r; rendering_type := rendering_type r;
     status := status r; processing_time_sec := processing_time_sec r;
     timestamp := timestamp r; frameworks := frameworks r;
     error_category := error_category r; error_message := error_message r;
     retry_count := n; http_status_code := http_status_code r |}.

Record DetectionMetrics := {
  content_size_difference : Z;
  framework_indicators : list string;
  dynamic_content_detected : bool;
  javascript_execution_time : Q;
  dom_mutation_count : Z;
  http_response_time : Q;
  browser_load_time : Q
}.

(** [DetectionMetrics(content_size_difference=d)] with the dataclass defaults. *)
Definition DetectionMetrics_init (d : Z) : DetectionMetrics :=
  {| content_size_difference := d; framework_indicators := [];
     dynamic_content_detected := false; javascript_execution_time := 0%Q;
     dom_mutation_count := 0; http_response_time := 0%Q;
     browser_load_time := 0%Q |}.

Record RetryConfig := {
  max_attempts : Z;
  backoff_base : Q;
  backoff_multiplier : Q;
  non_retryable_errors : list ErrorCategory
}.

(** The dataclass defaults of [RetryConfig]. *)
Definition RetryConfig_default : RetryConfig :=
  {| max_attempts := 3; backoff_base := 1%Q; backoff_multiplier := 2%Q;
     non_retryable_errors := [DNS_ERROR; SSL_ERROR] |}.

Definition mk_exception (name : string) (cs : list ExcClass) (msg : string) : Exception :=
  {| exc_type_name := name; exc_classes := cs; exc_str := msg; exc_response := None |}.

(** [x ** n] for a float [x] and an int [n]: a zero base with a negative
    exponent raises [ZeroDivisionError]. *)
Definition py_pow (x : Q) (n : Z) : Res Q :=
  if (n <? 0) && Qeq_bool x 0
  then Raise (mk_exception "ZeroDivisionError" [ZeroDivisionError]
                "0.0 cannot be raised to a negative power")
  else Ok (x ^ n)%Q.

(** [RetryConfig.get_backoff_delay] *)
Definition RetryConfig_get_backoff_delay (self : RetryConfig) (attempt : Z) : Res Q :=
  match py_pow (backoff_multiplier self) (attempt - 1) with
  | Ok p => Ok (backoff_base self * p)%Q
  | Raise e => Raise e
  end.

(* ===================================================================== *)
(** * error_handler.py                                                    *)
(* ===================================================================== *)

Inductive LogLevel := INFO | WARNING | ERROR.

(** What the handler's logger has been asked to emit. *)
Inductive LogEntry :=
  | LogUnknownType (type_name message : string)
  | LogError (level : LogLevel) (prefix : string) (log_url : string)
             (category : ErrorCategory) (message : string).

(** The optional [details] dictionary of [log_error]. *)
Record LogDetails := {
  d_attempt : option Z;
  d_max_attempts : option Z;
  d_http_status_code : option Z
}.

(** [ErrorHandler]: its logger, and the pattern table built by [__init__]. *)
Record ErrorHandler := {
  logger : list LogEntry;
  non_retryable_patterns : list (ErrorCategory * list string)
}.

Definition ErrorHandler_init : ErrorHandler :=
  {| logger := [];
     non_retryable_patterns :=
       [ (DNS_ERROR, ["Name or service not known"; "nodename nor servname provided";
                      "getaddrinfo failed"; "No address associated with hostname"]);
         (SSL_ERROR, ["certificate verify failed"; "SSL certificate problem";
                      "SSL: CERTIFICATE_VERIFY_FAILED"; "certificate has expired";
                      "hostname doesn't match"]) ] |}.

Definition emit (entry : LogEntry) : Py ErrorHandler unit :=
  modify (fun h => {| logger := logger h ++ [entry];
                      non_retryable_patterns := non_retryable_patterns h |}).

(** [any(indicator in error_message for indicator in indicators)] *)
Definition any_in (indicators : list string) (error_message : string) : bool :=
  existsb (fun indicator => contains indicator error_message) indicators.

Definition is_digit (c : ascii) : bool :=
  let n := nat_of_ascii c in (48 <=? n)%nat && (n <=? 57)%nat.

Definition is_word (c : ascii) : bool :=
  let n := nat_of_ascii c in
  is_digit c || ((65 <=? n)%nat && (n <=? 90)%nat)
             || ((97 <=? n)%nat && (n <=? 122)%nat) || (n =? 95)%nat.

(** [re.search(r'\b[4-5]\d{2}\b', s)]: [prev_word] tells whether the
    character before [s] is a word character. *)
Fixpoint search_status_code (prev_word : bool) (s : string) : bool :=
  match s with
  | EmptyString => false
  | String a t =>
      (negb prev_word
       && (Ascii.eqb a "4" || Ascii.eqb a "5")
       && match t with
          | String b (String c rest) =>
              is_digit b && is_digit c
              && match rest with
                 | EmptyString => true
                 | String d _ => negb (is_word d)
                 end
          | _ => false
          end)
      || search_status_code (is_word a) t
  end.

Definition timeout_indicators : list string :=
  ["timeout"; "timed out"; "read timeout"; "connection timeout";
   "request timeout"; "response timeout"].

Definition _is_timeout_error (exception : Exception) (error_message : string) : bool :=
  isinstance exception [Timeout; TimeoutException; socket_timeout]
  || any_in timeout_indicators error_message.

Definition http_indicators : list string :=
  ["http error"; "status code"; "404"; "403"; "500"; "502"; "503"; "504";
   "bad request"; "unauthorized"; "forbidden"; "not found";
   "internal server error"; "bad gateway"; "service unavailable"].

Definition _is_http_error (exception : Exception) (error_message : string) : bool :=
  isinstance exception [HTTPError; HTTPError]
  || any_in http_indicators error_message
  || search_status_code false error_message.

Definition ssl_indicators : list string :=
  ["ssl"; "certificate"; "tls"; "handshake"; "verify failed";
   "certificate_verify_failed"; "ssl certificate problem";
   "certificate has expired"; "hostname doesn't match"].

Definition _is_ssl_error (exception : Exception) (error_message : string) : bool :=
  isinstance exception [ssl_SSLError; RequestsSSLError; Urllib3SSLError]
  || any_in ssl_indicators error_message.

Definition network_indicators : list string :=
  ["connection error"; "network error"; "connection refused";
   "connection reset"; "connection aborted"; "network unreachable";
   "host unreachable"; "no route to host"].

Definition _is_network_error (exception : Exception) (error_message : string) : bool :=
  isinstance exception [ConnectionError; socket_error]
  || any_in network_indicators error_message.

Definition browser_indicators : list string :=
  ["webdriver"; "selenium"; "chrome"; "browser"; "driver";
   "session not created"; "invalid session"; "element not found";
   "element not interactable"; "unexpected alert"].

Definition _is_browser_error (exception : Exception) (error_message : string) : bool :=
  isinstance exception
    [WebDriverException; NoSuchElementException; ElementNotInteractableException;
     InvalidSessionIdException; SessionNotCreatedException;
     UnexpectedAlertPresentException]
  || any_in browser_indicators error_message.

Definition parse_indicators : list string :=
  ["parse error"; "parsing"; "invalid json"; "decode error";
   "encoding error"; "unicode error"; "malformed"; "failed to parse"].

Definition _is_parse_error (exception : Exception) (error_message : string) : bool :=
  isinstance exception [ValueError; UnicodeError; UnicodeDecodeError]
  || any_in parse_indicators error_message.

Definition dns_indicators : list string :=
  ["name or service not known"; "nodename nor servname provided";
   "getaddrinfo failed"; "no address associated with hostname";
   "dns"; "name resolution"; "hostname"].

Definition _is_dns_error (exception : Exception) (error_message : string) : bool :=
  isinstance exception [socket_gaierror]
  || any_in dns_indicators error_message.

(** [ErrorHandler.categorize_error] *)
Definition categorize_error (exception : Exception) (u : string)
  : Py ErrorHandler ErrorCategory :=
  let error_message := lower (exc_str exception) in
  let exception_type := exc_type_name exception in
  if _is_dns_error exception error_message then ret DNS_ERROR
  else if _is_ssl_error exception error_message then ret SSL_ERROR
  else if _is_timeout_error exception error_message then ret TIMEOUT_ERROR
  else if _is_browser_error exception error_message then ret BROWSER_ERROR
  else if _is_http_error exception error_message then ret HTTP_ERROR
  else if _is_parse_error exception error_message then ret PARSE_ERROR
  else if _is_network_error exception error_message then ret NETWORK_ERROR
  else (emit (LogUnknownType exception_type error_message) ;;;
        ret UNKNOWN_ERROR)%py.

(** [ErrorHandler.should_retry] *)
Definition ErrorHandler_should_retry (error_category : ErrorCategory) : bool :=
  let non_retryable := [DNS_ERROR; SSL_ERROR; PARSE_ERROR] in
  negb (bool_decide (error_category ∈ non_retryable)).

(** [ErrorHandler.log_error] *)
Definition log_error (u : string) (error_category : ErrorCategory)
    (error_message : string) (details : option LogDetails) : Py ErrorHandler unit :=
  if bool_decide (error_category ∈ [DNS_ERROR; SSL_ERROR]) then
    emit (LogError WARNING "Non-retryable error: " u error_category error_message)
  else if bool_decide (error_category = TIMEOUT_ERROR) then
    emit (LogError WARNING "Timeout error (retryable): " u error_category error_message)
  else if bool_decide (error_category = HTTP_ERROR) then
    let status_code := match details with
                       | Some d => d_http_status_code d
                       | None => None
                       end in
    match status_code with
    | Some c =>
        if negb (c =? 0) && (400 <=? c) && (c <? 500)
        then emit (LogError INFO "Client error (non-retryable): " u error_category error_message)
        else emit (LogError WARNING "Server error (retryable): " u error_category error_message)
    | None => emit (LogError WARNING "Server error (retryable): " u error_category error_message)
    end
  else emit (LogError ERROR "Error occurred: " u error_category error_message).

(** The entries of the dictionary built by [get_error_details] that the
    callers read. *)
Record ErrorDetails := {
  exception_type : string;
  exception_message : string;
  details_url : string;
  details_http_status_code : option Z
}.

(** [bool(response)] is [response.ok]: no 4xx or 5xx status. *)
Definition Response_ok (r : Response) : bool :=
  negb ((400 <=? status_code r) && (status_code r <? 600)).

(** [ErrorHandler.get_error_details] *)
Definition get_error_details (exception : Exception) (u : string) : ErrorDetails :=
  {| exception_type := exc_type_name exception;
     exception_message := exc_str exception;
     details_url := u;
     details_http_status_code :=
       match exc_response exception with
       | Some r => if Response_ok r then Some (status_code r) else None
       | None => None
       end |}.

(** [ErrorHandler.is_retryable_http_status] *)
Definition is_retryable_http_status (code : Z) : bool :=
  if (500 <=? code) && (code <? 600) then true
  else if code =? 429 then true
  else if code =? 408 then true
  else if (400 <=? code) && (code <? 500) then false
  else false.

(** [s[:n]] for [0 <= n]. *)
Definition take_str (n : nat) (s : string) : string := String.substring 0 n s.

(** [ErrorHandler.format_error_for_output] *)
Definition format_error_for_output (error_category : ErrorCategory)
    (error_message : string) (details : option ErrorDetails) : string :=
  let formatted := (ErrorCategory_value error_category +:+ ": " +:+ error_message)%string in
  let formatted :=
    match details with
    | Some d =>
        let formatted :=
          match details_http_status_code d with
          | Some c => (formatted +:+ " (HTTP " +:+ pretty c +:+ ")")%string
          | None => formatted
          end in
        (formatted +:+ " [" +:+ exception_type d +:+ "]")%string
    | None => formatted
    end in
  if 200 <? len formatted then (take_str 197 formatted +:+ "...")%string
  else formatted.

(* ===================================================================== *)
(** * retry_manager.py                                                    *)
(* ===================================================================== *)

(** The clock, as the retry loop uses it: [datetime.now()] / [time.time()]
    and [time.sleep].  Both act on the outside world [X]. *)
Class Clock (X : Type) := {
  time_time : X -> Q * X;
  time_sleep : Q -> X -> X
}.

Record RetryAttempt := {
  attempt_number : Z;
  attempt_timestamp : Q;
  attempt_error_category : ErrorCategory;
  attempt_error_message : string;
  delay_before_attempt : Q
}.

Record RetryHistory := {
  history_url : string;
  total_attempts : Z;
  success : bool;
  final_error : option string;
  attempts : list RetryAttempt;
  total_retry_time : Q
}.

(** [RetryHistory(url=url, total_attempts=0, success=False)] *)
Definition RetryHistory_init (u : string) : RetryHistory :=
  {| history_url := u; total_attempts := 0; success := false;
     final_error := None; attempts := []; total_retry_time := 0%Q |}.

Definition set_total_attempts (n : Z) (h : RetryHistory) : RetryHistory :=
  {| history_url := history_url h; total_attempts := n; success := success h;
     final_error := final_error h; attempts := attempts h;
     total_retry_time := total_retry_time h |}.

Definition set_success (b : bool) (h : RetryHistory) : RetryHistory :=
  {| history_url := history_url h; total_attempts := total_attempts h; success := b;
     final_error := final_error h; attempts := attempts h;
     total_retry_time := total_retry_time h |}.

Definition set_final_error (e : string) (h : RetryHistory) : RetryHistory :=
  {| history_url := history_url h; total_attempts := total_attempts h;
     success := success h; final_error := Some e; attempts := attempts h;
     total_retry_time := total_retry_time h |}.

(** [RetryHistory.add_attempt] *)
Definition add_attempt (attempt : RetryAttempt) (h : RetryHistory) : RetryHistory :=
  {| history_url := history_url h; total_attempts := total_attempts h;
     success := success h; final_error := final_error h;
     attempts := attempts h ++ [attempt];
     total_retry_time := (total_retry_time h + delay_before_attempt attempt)%Q |}.

Definition set_delay (d : Q) (a : RetryAttempt) : RetryAttempt :=
  {| attempt_number := attempt_number a; attempt_timestamp := attempt_timestamp a;
     attempt_error_category := attempt_error_category a;
     attempt_error_message := attempt_error_message a;
     delay_before_attempt := d |}.

(** [RetryManager]: the error handler it was given is shared with its
    creator, so it lives in the enclosing state, not in this record. *)
Record RetryManager := {
  config : RetryConfig;
  retry_histories : gmap string RetryHistory
}.

(** [RetryManager(config, error_handler)] *)
Definition RetryManager_init (cfg : RetryConfig) : RetryManager :=
  {| config := cfg; retry_histories := ∅ |}.

(** [RetryManager.get_backoff_delay] *)
Definition get_backoff_delay (self : RetryManager) (attempt : Z) : Res Q :=
  if attempt <=? 0 then Ok 0%Q
  else RetryConfig_get_backoff_delay (config self) attempt.

(** [RetryManager.should_retry] *)
Definition should_retry (self : RetryManager) (error_category : ErrorCategory)
    (attempt : Z) : bool :=
  if max_attempts (config self) <=? attempt then false
  else if bool_decide (error_category ∈ non_retryable_errors (config self)) then false
  else ErrorHandler_should_retry error_category.

(** [RetryManager.get_retry_history] *)
Definition get_retry_history (self : RetryManager) (u : string) : option RetryHistory :=
  retry_histories self !! u.

(** The state the retry loop runs in: the manager, the error handler it
    shares with its creator, and the world [X] of the operation. *)
Abbreviation RState X := (RetryManager * (ErrorHandler * X))%type.

Section execute_with_retry.
Context {X A : Type} `{Clock X}.

(** The operation [func] applied to its arguments.  It can read the retry manager
    (the detection pipeline looks its own history up), log through the
    shared error handler and act on the world. *)
Variable func : RetryManager -> Py (ErrorHandler * X) A.

Definition call_func : Py (RState X) A :=
  fun s => let '(r, w) := func (fst s) (snd s) in (r, (fst s, w)).

Definition on_handler {B} (m : Py ErrorHandler B) : Py (RState X) B :=
  zoom (fun s : RState X => fst (snd s))
       (fun h s => (fst s, (h, snd (snd s)))) m.

Definition now : Py (RState X) Q :=
  fun s => let '(t, x) := time_time (snd (snd s)) in
           (Ok t, (fst s, (fst (snd s), x))).

Definition sleep (d : Q) : Py (RState X) unit :=
  modify (fun s : RState X => (fst s, (fst (snd s), time_sleep d (snd (snd s))))).

(** The [history] object is also held by [self.retry_histories[url]]:
    every mutation of it is visible there. *)
Definition store (key : string) (history : RetryHistory) : Py (RState X) unit :=
  modify (fun s : RState X =>
            ({| config := config (fst s);
                retry_histories := <[key := history]> (retry_histories (fst s)) |},
             snd s)).

Definition lift_res {B} (r : Res B) : Py (RState X) B := fun s => (r, s).

(** The statements after the [for] loop. *)
Definition after_loop (key : string) (last_exception : option Exception) : Py (RState X) A :=
  match last_exception with
  | Some e => raise e
  | None => raise (mk_exception "RuntimeError" [RuntimeError]
                     ("Unexpected error in retry logic for " +:+ key))
  end.

(** [for attempt in range(1, self.config.max_attempts + 1)]: [remaining]
    counts the iterations left, [attempt] is the loop variable. *)
Fixpoint retry_loop (remaining : nat) (attempt : Z) (key : string)
    (history : RetryHistory) (last_exception : option Exception) : Py (RState X) A :=
  match remaining with
  | O => after_loop key last_exception
  | S remaining' =>
      let history := set_total_attempts attempt history in
      (store key history ;;;
       try_except
         (result <- call_func ;;
          store key (set_success true history) ;;;
          ret result)
         (fun e =>
            error_category <- on_handler (categorize_error e key) ;;
            let error_message := exc_str e in
            self <- get ;;
            on_handler (log_error key error_category error_message
                          (Some {| d_attempt := Some attempt;
                                   d_max_attempts := Some (max_attempts (config (fst self)));
                                   d_http_status_code := None |})) ;;;
            t <- now ;;
            let retry_attempt :=
              {| attempt_number := attempt; attempt_timestamp := t;
                 attempt_error_category := error_category;
                 attempt_error_message := error_message;
                 delay_before_attempt := 0%Q |} in
            let final := (ErrorCategory_value error_category +:+ ": " +:+ error_message)%string in
            if negb (should_retry (fst self) error_category attempt) then
              store key (set_final_error final (add_attempt retry_attempt history)) ;;;
              after_loop key (Some e)
            else if max_attempts (config (fst self)) <=? attempt then
              store key (set_final_error final (add_attempt retry_attempt history)) ;;;
              after_loop key (Some e)
            else
              delay <- lift_res (get_backoff_delay (fst self) attempt) ;;
              let retry_attempt := set_delay delay retry_attempt in
              let history := add_attempt retry_attempt history in
              store key history ;;;
              (if Qlt_le_dec 0 delay then sleep delay else ret tt) ;;;
              retry_loop remaining' (attempt + 1) key history (Some e)))%py
  end.

(** [RetryManager.execute_with_retry]: [arg0] is [args[0]] when it is a
    string. *)
Definition execute_with_retry (arg0 : option string) : Py (RState X) A :=
  let key := match arg0 with Some u => u | None => "unknown" end in
  let history := RetryHistory_init key in
  (store key history ;;;
   self <- get ;;
   retry_loop (Z.to_nat (max_attempts (config (fst self)))) 1 key history None)%py.

End execute_with_retry.

(* ===================================================================== *)
(** * performance_optimizer.py                                            *)
(* ===================================================================== *)

(** A browser object, identified as the code identifies it: by [id(browser)].
    The model allocates identities from a counter, so that a new browser is
    never confused with one still tracked. *)
Definition handle : Type := nat.

(** The rendering engine and the process monitor, as the pool uses them. *)
Class Browsers (X : Type) := {
  (** [uc.Chrome(...)] and the set-up calls of [_create_optimized_browser] *)
  chrome_start : handle -> string -> X -> Res unit * X;
  (** [browser.current_url] *)
  browser_current_url : handle -> X -> Res string * X;
  (** [browser.quit()] *)
  browser_quit : handle -> X -> Res unit * X;
  (** [psutil.Process().memory_info().rss] *)
  memory_rss : X -> Z * X
}.

Record PoolMetrics := {
  browsers_created : Z;
  browsers_reused : Z;
  browsers_restarted : Z;
  memory_cleanups : Z;
  total_requests : Z
}.

Record PerformanceOptimizer := {
  _browser_pool : list handle;
  _browser_usage_count : gmap nat Z;
  _browser_creation_time : gmap nat Q;
  _max_memory_threshold : Z;
  _browser_restart_threshold : Z;
  _browser_max_age : Q;
  _metrics : PoolMetrics;
  _max_workers : Z;
  next_browser_id : nat
}.

(** [PerformanceOptimizer(config)], given [config.max_workers]. *)
Definition PerformanceOptimizer_init (max_workers : Z) : PerformanceOptimizer :=
  {| _browser_pool := [];
     _browser_usage_count := ∅;
     _browser_creation_time := ∅;
     _max_memory_threshold := 2 * 1024 * 1024 * 1024;
     _browser_restart_threshold := 50;
     _browser_max_age := 3600%Q;
     _metrics := {| browsers_created := 0; browsers_reused := 0;
                    browsers_restarted := 0; memory_cleanups := 0;
                    total_requests := 0 |};
     _max_workers := Z.min max_workers 20;
     next_browser_id := O |}.

Definition with_pool (pool : list handle) (usage : gmap nat Z) (ctime : gmap nat Q)
    (self : PerformanceOptimizer) : PerformanceOptimizer :=
  {| _browser_pool := pool; _browser_usage_count := usage;
     _browser_creation_time := ctime;
     _max_memory_threshold := _max_memory_threshold self;
     _browser_restart_threshold := _browser_restart_threshold self;
     _browser_max_age := _browser_max_age self;
     _metrics := _metrics self; _max_workers := _max_workers self;
     next_browser_id := next_browser_id self |}.

Definition with_metrics (m : PoolMetrics) (self : PerformanceOptimizer)
  : PerformanceOptimizer :=
  {| _browser_pool := _browser_pool self;
     _browser_usage_count := _browser_usage_count self;
     _browser_creation_time := _browser_creation_time self;
     _max_memory_threshold := _max_memory_threshold self;
     _browser_restart_threshold := _browser_restart_threshold self;
     _browser_max_age := _browser_max_age self;
     _metrics := m; _max_workers := _max_workers self;
     next_browser_id := next_browser_id self |}.

Definition with_next_id (n : nat) (self : PerformanceOptimizer) : PerformanceOptimizer :=
  {| _browser_pool := _browser_pool self;
     _browser_usage_count := _browser_usage_count self;
     _browser_creation_time := _browser_creation_time self;
     _max_memory_threshold := _max_memory_threshold self;
     _browser_restart_threshold := _browser_restart_threshold self;
     _browser_max_age := _browser_max_age self;
     _metrics := _metrics self; _max_workers := _max_workers self;
     next_browser_id := n |}.

(** [list.remove(x)]: drops the first occurrence. *)
Fixpoint list_remove (x : handle) (l : list handle) : list handle :=
  match l with
  | [] => []
  | y :: t => if bool_decide (x = y) then t else y :: list_remove x t
  end.

(** The state the pool's methods run in. *)
Abbreviation PState X := (PerformanceOptimizer * X)%type.

Section pool.
Context {X : Type} `{Clock X} `{Browsers X}.

Definition on_self {B} (f : PerformanceOptimizer -> B) : Py (PState X) B :=
  fun s => (Ok (f (fst s)), s).

Definition update_self (f : PerformanceOptimizer -> PerformanceOptimizer) : Py (PState X) unit :=
  modify (fun s : PState X => (f (fst s), snd s)).

Definition on_world {B} (f : X -> Res B * X) : Py (PState X) B :=
  fun s => let '(r, x) := f (snd s) in (r, (fst s, x)).

Definition pool_time : Py (PState X) Q :=
  on_world (fun x => let '(t, x') := time_time x in (Ok t, x')).

(** [PerformanceOptimizer._remove_browser_from_pool]: the whole body is in
    a [try] that swallows every exception, and so is the [quit]. *)
Definition _remove_browser_from_pool (browser : handle) : Py (PState X) unit :=
  (update_self (fun self =>
     with_pool (if bool_decide (browser ∈ _browser_pool self)
                then list_remove browser (_browser_pool self)
                else _browser_pool self)
               (delete browser (_browser_usage_count self))
               (delete browser (_browser_creation_time self)) self) ;;;
   try_except (on_world (browser_quit browser)) (fun _ => ret tt))%py.

(** The loop of [_get_reusable_browser] over the copy [self._browser_pool[:]]. *)
Fixpoint reusable_scan (snapshot : list handle) (current_time : Q)
  : Py (PState X) (option handle) :=
  match snapshot with
  | [] => ret None
  | browser :: rest =>
      (alive <- try_except (on_world (browser_current_url browser) ;;; ret true)
                           (fun _ => ret false) ;;
       if negb alive then
         _remove_browser_from_pool browser ;;;
         reusable_scan rest current_time
       else
         self <- on_self id ;;
         let usage_count := default 0 (_browser_usage_count self !! browser) in
         let creation_time := default current_time (_browser_creation_time self !! browser) in
         let age := (current_time - creation_time)%Q in
         if (_browser_restart_threshold self <=? usage_count)
            || Qle_bool (_browser_max_age self) age
         then
           _remove_browser_from_pool browser ;;;
           reusable_scan rest current_time
         else
           update_self (fun self =>
             with_pool (_browser_pool self)
                       (<[browser := usage_count + 1]> (_browser_usage_count self))
                       (_browser_creation_time self) self) ;;;
           ret (Some browser))%py
  end.

(** [PerformanceOptimizer._get_reusable_browser] *)
Definition _get_reusable_browser : Py (PState X) (option handle) :=
  (current_time <- pool_time ;;
   self <- on_self id ;;
   reusable_scan (_browser_pool self) current_time)%py.

(** [PerformanceOptimizer._create_optimized_browser] *)
Definition _create_optimized_browser (u : string) : Py (PState X) handle :=
  (self <- on_self id ;;
   let browser := next_browser_id self in
   update_self (with_next_id (S browser)) ;;;
   try_except
     (on_world (chrome_start browser u) ;;; ret browser)
     (fun e => raise (mk_exception "RuntimeError" [RuntimeError]
                        ("Failed to create optimized browser: " +:+ exc_str e))))%py.

Definition bump_total_requests (m : PoolMetrics) : PoolMetrics :=
  {| browsers_created := browsers_created m; browsers_reused := browsers_reused m;
     browsers_restarted := browsers_restarted m; memory_cleanups := memory_cleanups m;
     total_requests := total_requests m + 1 |}.

Definition bump_reused (m : PoolMetrics) : PoolMetrics :=
  {| browsers_created := browsers_created m; browsers_reused := browsers_reused m + 1;
     browsers_restarted := browsers_restarted m; memory_cleanups := memory_cleanups m;
     total_requests := total_requests m |}.

Definition bump_created (m : PoolMetrics) : PoolMetrics :=
  {| browsers_created := browsers_created m + 1; browsers_reused := browsers_reused m;
     browsers_restarted := browsers_restarted m; memory_cleanups := memory_cleanups m;
     total_requests := total_requests m |}.

Definition bump_restarted (m : PoolMetrics) : PoolMetrics :=
  {| browsers_created := browsers_created m; browsers_reused := browsers_reused m;
     browsers_restarted := browsers_restarted m + 1; memory_cleanups := memory_cleanups m;
     total_requests := total_requests m |}.

Definition bump_cleanups (m : PoolMetrics) : PoolMetrics :=
  {| browsers_created := browsers_created m; browsers_reused := browsers_reused m;
     browsers_restarted := browsers_restarted m; memory_cleanups := memory_cleanups m + 1;
     total_requests := total_requests m |}.

(** [PerformanceOptimizer.get_optimized_browser] (the lock is held
    throughout; calls are taken one at a time). *)
Definition get_optimized_browser (u : string) : Py (PState X) handle :=
  (update_self (fun self => with_metrics (bump_total_requests (_metrics self)) self) ;;;
   reusable <- _get_reusable_browser ;;
   match reusable with
   | Some browser =>
       update_self (fun self => with_metrics (bump_reused (_metrics self)) self) ;;;
       ret browser
   | None =>
       browser <- _create_optimized_browser u ;;
       update_self (fun self => with_metrics (bump_created (_metrics self)) self) ;;;
       t <- pool_time ;;
       update_self (fun self =>
         with_pool (_browser_pool self ++ [browser])
                   (<[browser := 0]> (_browser_usage_count self))
                   (<[browser := t]> (_browser_creation_time self)) self) ;;;
       ret browser
   end)%py.

End pool.

Section pool_maintenance.
Context {X : Type} `{Clock X} `{Browsers X}.

(** Whether [browser] is overused or too old at [current_time]. *)
Definition worn_out (self : PerformanceOptimizer) (current_time : Q) (browser : handle) : bool :=
  let usage_count := default 0 (_browser_usage_count self !! browser) in
  let creation_time := default current_time (_browser_creation_time self !! browser) in
  let age := (current_time - creation_time)%Q in
  (_browser_restart_threshold self <=? usage_count)
  || Qle_bool (_browser_max_age self) age.

(** [sorted(l, key=key)]: a stable insertion sort. *)
Fixpoint insert_by (key : handle -> Q) (x : handle) (l : list handle) : list handle :=
  match l with
  | [] => [x]
  | y :: t => if Qle_bool (key y) (key x) then y :: insert_by key x t else x :: y :: t
  end.

Definition sorted_by (key : handle -> Q) (l : list handle) : list handle :=
  foldr (fun x acc => insert_by key x acc) [] l.

Fixpoint remove_each (l : list handle) : Py (PState X) unit :=
  match l with
  | [] => ret tt
  | b :: t => (_remove_browser_from_pool b ;;; remove_each t)%py
  end.

(** [PerformanceOptimizer._cleanup_old_browsers].  The final loop runs over
    [set(browsers_to_remove)]; the model takes its elements in list order. *)
Definition _cleanup_old_browsers : Py (PState X) unit :=
  (current_time <- pool_time ;;
   self <- on_self id ;;
   let pool := _browser_pool self in
   let too_many := _max_workers self <? Z.of_nat (length pool) in
   let browsers_to_remove :=
     filter (fun b => Is_true (worn_out self current_time b || too_many)) pool in
   let browsers_to_remove :=
     if too_many then
       let sorted_browsers :=
         sorted_by (fun b => default current_time (_browser_creation_time self !! b)) pool in
       let excess_count := Z.of_nat (length pool) - _max_workers self in
       browsers_to_remove ++ take (Z.to_nat excess_count) sorted_browsers
     else browsers_to_remove in
   remove_each (remove_dups browsers_to_remove))%py.

Fixpoint restart_each (l : list handle) : Py (PState X) unit :=
  match l with
  | [] => ret tt
  | b :: t =>
      (_remove_browser_from_pool b ;;;
       update_self (fun self => with_metrics (bump_restarted (_metrics self)) self) ;;;
       restart_each t)%py
  end.

(** [PerformanceOptimizer.restart_browser_if_needed] *)
Definition restart_browser_if_needed : Py (PState X) unit :=
  (current_memory <- on_world (fun x => let '(m, x') := memory_rss x in (Ok m, x')) ;;
   self <- on_self id ;;
   (if _max_memory_threshold self <? current_memory then
      _cleanup_old_browsers ;;;
      update_self (fun self => with_metrics (bump_cleanups (_metrics self)) self)
    else ret tt) ;;;
   current_time <- pool_time ;;
   self <- on_self id ;;
   let browsers_to_restart :=
     filter (fun b => Is_true (worn_out self current_time b)) (_browser_pool self) in
   restart_each browsers_to_restart)%py.

End pool_maintenance.

(* ===================================================================== *)
(** * website_renderer.py                                                 *)
(* ===================================================================== *)

(** The network, the rendering engine's page and the HTML parser, as the
    detector uses them.  Scripts are named by a short tag. *)
Class Web (X : Type) := {
  (** [requests.get(url, ...)] *)
  requests_get : string -> X -> Res Response * X;
  (** the file and cookie calls inside the [try] of [load_cookies] *)
  cookies_io : handle -> string -> X -> Res unit * X;
  (** [set_page_load_timeout], [set_script_timeout], [driver.get(final_url)],
      the short sleep and [driver.page_source] *)
  driver_load : handle -> string -> X -> Res string * X;
  (** [driver.execute_script], by the type of what the script returns *)
  execute_script_flag : handle -> string -> X -> Res bool * X;
  execute_script_text : handle -> string -> X -> Res string * X;
  execute_script_count : handle -> string -> X -> Res Z * X;
  (** [datetime.now().isoformat()] *)
  datetime_now_isoformat : X -> string * X;
  (** [BeautifulSoup(html, 'html.parser')]: the number of content elements
      (div, p, span, article, section) and of script tags *)
  soup_counts : string -> Res (Z * Z)
}.

Record PerformanceMetrics := {
  pm_total_processing_time : Q;
  pm_total_requests : Z;
  pm_successful_requests : Z;
  pm_failed_requests : Z;
  pm_average_processing_time : Q;
  pm_requests_per_second : Q
}.

(** The attributes of [WebsiteRendererDetector] besides [retry_manager] and
    [error_handler], which the retry manager shares. *)
Record Detector := {
  performance_optimizer : PerformanceOptimizer;
  performance_metrics : PerformanceMetrics;
  driver : option handle
}.

(** [WebsiteRendererDetector._compare_content] *)
Definition framework_patterns : list string :=
  ["data-react"; "data-vue"; "ng-"; "data-next"; "data-nuxt"].

Definition _compare_content `{Web X} (http_content browser_content : string)
  : DetectionMetrics :=
  let metrics := DetectionMetrics_init (len browser_content - len http_content) in
  match soup_counts http_content, soup_counts browser_content with
  | Ok (http_elements, http_scripts), Ok (browser_elements, browser_scripts) =>
      let element_increase := browser_elements - http_elements in
      let dynamic := (10 <? element_increase) || (http_scripts + 2 <? browser_scripts) in
      {| content_size_difference := content_size_difference metrics;
         framework_indicators :=
           List.filter (fun pattern => contains pattern (lower browser_content))
                       framework_patterns;
         dynamic_content_detected := dynamic;
         javascript_execution_time := javascript_execution_time metrics;
         dom_mutation_count := dom_mutation_count metrics;
         http_response_time := http_response_time metrics;
         browser_load_time := browser_load_time metrics |}
  | _, _ => metrics
  end.

Definition modern_frameworks : list string := ["React"; "Vue"; "Next.js"; "Nuxt.js"].

(** [any(fw in modern_frameworks for fw in frameworks)] *)
Definition any_modern (frameworks : list string) : bool :=
  existsb (fun fw => bool_decide (fw ∈ modern_frameworks)) frameworks.

(** Truth value of a list. *)
Definition nonempty {A} (l : list A) : bool :=
  match l with [] => false | _ => true end.

(** [min(a, b)] on floats. *)
Definition py_min (a b : float) : float := if (b <? a)%float then b else a.

(** [WebsiteRendererDetector._calculate_weighted_score] *)
Definition _calculate_weighted_score (metrics : DetectionMetrics)
    (frameworks : list string) (dynamic_detected : bool) (mutation_count : Z) : float :=
  let score := 0.0%float in
  let score :=
    if nonempty frameworks then
      let score := (score + 0.4)%float in
      if any_modern frameworks then (score + 0.1)%float else score
    else score in
  let size_diff := content_size_difference metrics in
  let score :=
    if 2000 <? size_diff then (score + 0.3)%float
    else if 1000 <? size_diff then (score + 0.2)%float
    else if 500 <? size_diff then (score + 0.1)%float
    else score in
  let score := if dynamic_detected then (score + 0.2)%float else score in
  let score :=
    if 20 <? mutation_count then (score + 0.2)%float
    else if 10 <? mutation_count then (score + 0.1)%float
    else if 5 <? mutation_count then (score + 0.05)%float
    else score in
  let score :=
    if nonempty (framework_indicators metrics) then (score + 0.1)%float else score in
  py_min score 1.0%float.

Definition set_dynamic (dynamic_detected : bool) (mutation_count : Z)
    (m : DetectionMetrics) : DetectionMetrics :=
  {| content_size_difference := content_size_difference m;
     framework_indicators := framework_indicators m;
     dynamic_content_detected := dynamic_detected;
     javascript_execution_time := javascript_execution_time m;
     dom_mutation_count := mutation_count;
     http_response_time := http_response_time m;
     browser_load_time := browser_load_time m |}.

Definition CSR_THRESHOLD : float := 0.6%float.
Definition SSR_THRESHOLD : float := 0.3%float.

(** The state the detection of one URL runs in, below the retry manager. *)
Abbreviation IState X := (ErrorHandler * (Detector * X))%type.

(** The state of a [WebsiteRendererDetector] and of the world around it:
    [self.retry_manager], [self.error_handler], the other attributes. *)
Abbreviation DState X := (RetryManager * IState X)%type.

Section classify.
Context {X : Type}.

Definition i_handler {B} (m : Py ErrorHandler B) : Py (IState X) B :=
  zoom (fun s : IState X => fst s) (fun h s => (h, snd s)) m.

(** The two methods that [_classify_rendering_type] calls on [self]; the
    classification is stated for whatever they do, raising included. *)
Variable compare_content : string -> string -> Py (IState X) DetectionMetrics.
Variable analyze_dynamic_content : handle -> Py (IState X) (bool * Z).

(** [WebsiteRendererDetector._classify_rendering_type] *)
Definition _classify_rendering_type (html_requests html_selenium : string)
    (frameworks : list string) (drv : handle) : Py (IState X) string :=
  try_except
    (metrics <- compare_content html_requests html_selenium ;;
     probe <- analyze_dynamic_content drv ;;
     let dynamic_detected := fst probe in
     let mutation_count := snd probe in
     let metrics := set_dynamic dynamic_detected mutation_count metrics in
     let csr_score :=
       _calculate_weighted_score metrics frameworks dynamic_detected mutation_count in
     if (CSR_THRESHOLD <=? csr_score)%float then
       ret (RenderingType_value CLIENT_SIDE_RENDERED)
     else if (csr_score <=? SSR_THRESHOLD)%float then
       ret (RenderingType_value SERVER_SIDE_RENDERED)
     else if any_modern frameworks then
       ret (RenderingType_value CLIENT_SIDE_RENDERED)
     else if 1000 <? content_size_difference metrics then
       ret (RenderingType_value CLIENT_SIDE_RENDERED)
     else if 15 <? mutation_count then
       ret (RenderingType_value CLIENT_SIDE_RENDERED)
     else
       ret (RenderingType_value SERVER_SIDE_RENDERED))%py
    (fun e =>
       (i_handler (log_error "enhanced_classification" PARSE_ERROR
                     ("Enhanced classification error: " +:+ exc_str e) None) ;;;
        ret (RenderingType_value SERVER_SIDE_RENDERED))%py).

End classify.

Section detector.
Context {X : Type} `{Clock X} `{Browsers X} `{Web X}.

Definition i_world {B} (f : X -> Res B * X) : Py (IState X) B :=
  fun s => let '(r, x) := f (snd (snd s)) in (r, (fst s, (fst (snd s), x))).

Definition i_detector (f : Detector -> Detector) : Py (IState X) unit :=
  modify (fun s : IState X => (fst s, (f (fst (snd s)), snd (snd s)))).

(** Run a method of [self.performance_optimizer]. *)
Definition i_pool {B} (m : Py (PState X) B) : Py (IState X) B :=
  fun s =>
    let d := fst (snd s) in
    let '(r, p) := m (performance_optimizer d, snd (snd s)) in
    (r, (fst s, ({| performance_optimizer := fst p;
                    performance_metrics := performance_metrics d;
                    driver := driver d |}, snd p))).

(** [WebsiteRendererDetector.load_cookies] *)
Definition load_cookies (drv : handle) (u : string) : Py (IState X) unit :=
  try_except (i_world (cookies_io drv u))
    (fun e => i_handler (log_error u PARSE_ERROR
                           ("Cookie load failed: " +:+ exc_str e) None)).

(** [WebsiteRendererDetector.get_webdriver] *)
Definition get_webdriver (u : string) : Py (IState X) handle :=
  try_except
    (drv <- i_pool (get_optimized_browser u) ;;
     load_cookies drv u ;;;
     i_detector (fun d => {| performance_optimizer := performance_optimizer d;
                             performance_metrics := performance_metrics d;
                             driver := Some drv |}) ;;;
     ret drv)%py
    (fun e =>
       (error_category <- i_handler (categorize_error e u) ;;
        i_handler (log_error u error_category
                     ("Optimized WebDriver initialization failed: " +:+ exc_str e) None) ;;;
        raise e)%py).

Definition react_patterns : list string :=
  ["data-reactroot"; "data-reactid"; "__react"; "react.js"; "react.min.js"; "reactdom"].
Definition vue_patterns : list string :=
  ["data-v-"; "vue.js"; "vue.min.js"; "__vue__"].
Definition angular_patterns : list string :=
  ["ng-app"; "ng-controller"; "angular.js"; "angular.min.js"; "data-ng-"].
Definition nextjs_patterns : list string :=
  ["_next/"; "__next"; "data-next-hide-fouc"; "next.js"].
Definition nuxtjs_patterns : list string :=
  ["__nuxt"; "_nuxt/"; "nuxt.js"].

(** The patterns are literal texts (their only metacharacter is an escaped
    dot), so [re.search(pattern, html_lower)] is a substring test. *)
Definition html_frameworks (html : string) : list string :=
  let html_lower := lower html in
  let found (patterns : list string) (name : string) : list string :=
    if any_in patterns html_lower then [name] else [] in
  found react_patterns "React" ++ found vue_patterns "Vue"
  ++ found angular_patterns "Angular" ++ found nextjs_patterns "Next.js"
  ++ found nuxtjs_patterns "Nuxt.js".

(** One runtime probe of [_detect_frameworks]: a failing script is logged
    and leaves the list as it is. *)
Definition js_probe (drv : handle) (script name : string) (frameworks : list string)
  : Py (IState X) (list string) :=
  try_except
    (found <- i_world (execute_script_flag drv script) ;;
     if found && negb (bool_decide (name ∈ frameworks))
     then ret (frameworks ++ [name]) else ret frameworks)%py
    (fun e =>
       (i_handler (log_error "framework_detection_js" BROWSER_ERROR
                     (name +:+ " JS detection failed: " +:+ exc_str e) None) ;;;
        ret frameworks)%py).

(** [WebsiteRendererDetector._detect_frameworks] *)
Definition _detect_frameworks (html : string) (drv : handle) : Py (IState X) (list string) :=
  (let frameworks := html_frameworks html in
   frameworks <- js_probe drv "has_react" "React" frameworks ;;
   frameworks <- js_probe drv "has_angular" "Angular" frameworks ;;
   frameworks <- js_probe drv "has_vue" "Vue" frameworks ;;
   frameworks <- js_probe drv "has_nextjs" "Next.js" frameworks ;;
   frameworks <- js_probe drv "has_nuxtjs" "Nuxt.js" frameworks ;;
   ret frameworks)%py.

Definition i_sleep (d : Q) : Py (IState X) unit :=
  modify (fun s : IState X => (fst s, (fst (snd s), time_sleep d (snd (snd s))))).

Definition i_time : Py (IState X) Q :=
  i_world (fun x => let '(t, x') := time_time x in (Ok t, x')).

Definition i_isoformat : Py (IState X) string :=
  i_world (fun x => let '(t, x') := datetime_now_isoformat x in (Ok t, x')).

(** [WebsiteRendererDetector._analyze_dynamic_content] *)
Definition _analyze_dynamic_content (drv : handle) : Py (IState X) (bool * Z) :=
  try_except
    (i_world (execute_script_flag drv "install_mutation_observer") ;;;
     initial_html <- i_world (execute_script_text drv "outerHTML") ;;
     initial_text_content <- i_world (execute_script_text drv "textContent") ;;
     i_sleep 1 ;;;
     final_html <- i_world (execute_script_text drv "outerHTML") ;;
     final_text_content <- i_world (execute_script_text drv "textContent") ;;
     mutation_count <- i_world (execute_script_count drv "mutationCount") ;;
     i_world (execute_script_flag drv "disconnect_mutation_observer") ;;;
     let html_changed := negb (len final_html =? len initial_html) in
     let text_changed := negb (len final_text_content =? len initial_text_content) in
     let significant_mutations := 5 <? mutation_count in
     let size_difference := Z.abs (len final_text_content - len initial_text_content) in
     let significant_size_change := 100 <? size_difference in
     let dynamic_detected :=
       html_changed || text_changed || significant_mutations || significant_size_change in
     ret (dynamic_detected, mutation_count))%py
    (fun e =>
       (i_handler (log_error "dynamic_content_analysis" BROWSER_ERROR
                     ("Dynamic content analysis failed: " +:+ exc_str e) None) ;;;
        ret (false, 0))%py).

(** The [requests.HTTPError] that the pipeline raises for a status of 400
    or more; every [requests] exception is an [OSError]. *)
Definition http_error (resp : Response) : Exception :=
  {| exc_type_name := "HTTPError";
     exc_classes := [HTTPError; socket_error];
     exc_str := "HTTP " +:+ pretty (status_code resp) +:+ ": " +:+ reason resp;
     exc_response := Some resp |}.

(** [WebsiteRendererDetector._detect_rendering_type_internal].  The attempt
    number read from the retry history only scales the time-outs, and the
    random user agent only fills a request header; both are handed to the
    network and the browser, whose outcomes the world supplies. *)
Definition _detect_rendering_type_internal (u : string) (start_time : Q)
    (retry_manager : RetryManager) : Py (IState X) ProcessingResult :=
  (let original_url := u in
   resp <- i_world (requests_get u) ;;
   let final_url := resp_url resp in
   if 400 <=? status_code resp then raise (http_error resp)
   else
     let html_requests := resp_text resp in
     drv <- get_webdriver u ;;
     html_selenium <- i_world (driver_load drv final_url) ;;
     frameworks <- try_except (_detect_frameworks html_selenium drv)
                     (fun e =>
                        i_handler (log_error u BROWSER_ERROR
                                     ("Enhanced framework detection failed: " +:+ exc_str e)
                                     None) ;;;
                        ret []) ;;
     rendering <- _classify_rendering_type
                    (fun a b => ret (_compare_content a b)) _analyze_dynamic_content
                    html_requests html_selenium frameworks drv ;;
     t <- i_time ;;
     ts <- i_isoformat ;;
     ret {| url := PyStr original_url;
            final_url := PyStr final_url;
            rendering_type := rendering;
            status := ProcessingStatus_value SUCCESS;
            processing_time_sec := (t - start_time)%Q;
            timestamp := ts;
            frameworks := frameworks;
            error_category := None;
            error_message := None;
            retry_count := 0;
            http_status_code := Some (status_code resp) |})%py.

End detector.

(** The clock seen from the retry loop, whose world holds the detector's
    own attributes next to the outside world. *)
#[global] Instance Clock_detector {X : Type} `{Clock X} : Clock (Detector * X) := {|
  time_time := fun s => let '(t, x) := time_time (snd s) in (t, (fst s, x));
  time_sleep := fun d s => (fst s, time_sleep d (snd s))
|}.

Section detect.
Context {X : Type} `{Clock X} `{Browsers X} `{Web X}.

Definition d_inner {B} (m : Py (IState X) B) : Py (DState X) B :=
  fun s => let '(r, i) := m (snd s) in (r, (fst s, i)).

Definition d_manager (f : RetryManager -> RetryManager) : Py (DState X) unit :=
  modify (fun s : DState X => (f (fst s), snd s)).

(** [max(0, retry_history.total_attempts - 1) if retry_history else 0] *)
Definition retry_count_of (retry_history : option RetryHistory) : Z :=
  match retry_history with
  | Some h => Z.max 0 (total_attempts h - 1)
  | None => 0
  end.

(** [WebsiteRendererDetector._update_performance_metrics] *)
Definition _update_performance_metrics (result : ProcessingResult) (ok : bool)
    (m : PerformanceMetrics) : PerformanceMetrics :=
  let total_requests := pm_total_requests m + 1 in
  let total_processing_time :=
    (pm_total_processing_time m + processing_time_sec result)%Q in
  {| pm_total_processing_time := total_processing_time;
     pm_total_requests := total_requests;
     pm_successful_requests :=
       if ok then pm_successful_requests m + 1 else pm_successful_requests m;
     pm_failed_requests :=
       if ok then pm_failed_requests m else pm_failed_requests m + 1;
     pm_average_processing_time :=
       if 0 <? total_requests
       then (total_processing_time / inject_Z total_requests)%Q
       else pm_average_processing_time m;
     pm_requests_per_second :=
       if Qlt_le_dec 0 total_processing_time
       then (inject_Z total_requests / total_processing_time)%Q
       else pm_requests_per_second m |}.

Definition update_metrics (result : ProcessingResult) (ok : bool) : Py (DState X) unit :=
  d_inner (i_detector (fun d =>
    {| performance_optimizer := performance_optimizer d;
       performance_metrics := _update_performance_metrics result ok (performance_metrics d);
       driver := driver d |})).

(** The text of a value known to be a string. *)
Definition str_of (v : PyVal) : string :=
  match v with PyStr text => text | _ => "" end.

(** [if not url.startswith(('http://', 'https://')): url = 'http://' + url] *)
Definition with_protocol (text : string) : string :=
  if negb (startswith text "http://" || startswith text "https://")
  then ("http://" +:+ text)%string else text.

(** The block of [detect_rendering_type] that installs a new retry manager
    when [max_retries] is given and differs from the current limit. *)
Definition override_max_retries (max_retries : option Z) (text : string)
  : Py (DState X) unit :=
  (self <- get ;;
   match max_retries with
   | Some n =>
       if negb (n =? max_attempts (config (fst self))) then
         d_manager (fun _ =>
           RetryManager_init
             {| max_attempts := n; backoff_base := 1%Q;
                backoff_multiplier := 2%Q;
                non_retryable_errors := [DNS_ERROR; SSL_ERROR] |}) ;;;
         d_manager (fun rm =>
           {| config := config rm;
              retry_histories := delete text (retry_histories rm) |})
       else ret tt
   | None => ret tt
   end)%py.

(** The [try] ... [except Exception] block of [detect_rendering_type]. *)
Definition detect_with_retry (original_url : PyVal) (text : string) (start_time : Q)
  : Py (DState X) ProcessingResult :=
  try_except
    (result <- execute_with_retry
                 (_detect_rendering_type_internal text start_time) (Some text) ;;
     self <- get ;;
     let retry_count := retry_count_of (get_retry_history (fst self) text) in
     let result := set_retry_count retry_count result in
     update_metrics result true ;;;
     d_inner (i_pool restart_browser_if_needed) ;;;
     ret result)%py
    (fun e =>
       (error_category <- d_inner (i_handler (categorize_error e text)) ;;
        let error_details := get_error_details e text in
        let formatted_error :=
          format_error_for_output error_category (exc_str e) (Some error_details) in
        self <- get ;;
        let retry_count := retry_count_of (get_retry_history (fst self) text) in
        t <- d_inner i_time ;;
        ts <- d_inner i_isoformat ;;
        let result :=
          {| url := original_url; final_url := PyStr text;
             rendering_type := RenderingType_value NOT_ACCESSIBLE;
             status := ProcessingStatus_value FAILED;
             processing_time_sec := (t - start_time)%Q;
             timestamp := ts; frameworks := [];
             error_category := Some (ErrorCategory_value error_category);
             error_message := Some formatted_error;
             retry_count := retry_count;
             http_status_code := details_http_status_code error_details |} in
        update_metrics result false ;;;
        ret result)%py).

(** [WebsiteRendererDetector.detect_rendering_type] *)
Definition detect_rendering_type (u : PyVal) (max_retries : option Z)
  : Py (DState X) ProcessingResult :=
  (start_time <- d_inner i_time ;;
   let original_url := u in
   if negb (truthy u) || negb (is_str u) then
     t <- d_inner i_time ;;
     ts <- d_inner i_isoformat ;;
     ret {| url := original_url; final_url := original_url;
            rendering_type := RenderingType_value NOT_ACCESSIBLE;
            status := ProcessingStatus_value FAILED;
            processing_time_sec := (t - start_time)%Q;
            timestamp := ts; frameworks := [];
            error_category := Some (ErrorCategory_value PARSE_ERROR);
            error_message := Some "Invalid URL format";
            retry_count := 0; http_status_code := None |}
   else
     let text := with_protocol (str_of u) in
     override_max_retries max_retries text ;;;
     detect_with_retry original_url text start_time)%py.

End detect.

(* ===================================================================== *)
(** * Further functions of the same files                                 *)
(* ===================================================================== *)

(** ** models.py *)

(** [ProcessingStats], with its two timestamps as seconds. *)
Record ProcessingStats := {
  total_urls : Z;
  processed_urls : Z;
  successful_urls : Z;
  failed_urls : Z;
  ssr_count : Z;
  csr_count : Z;
  not_accessible_count : Z;
  total_processing_time : Q;
  stats_start_time : option Q;
  stats_end_time : option Q;
  error_breakdown : gmap string Z
}.

(** [ProcessingStats()] with the dataclass defaults. *)
Definition ProcessingStats_init : ProcessingStats :=
  {| total_urls := 0; processed_urls := 0; successful_urls := 0; failed_urls := 0;
     ssr_count := 0; csr_count := 0; not_accessible_count := 0;
     total_processing_time := 0%Q; stats_start_time := None; stats_end_time := None;
     error_breakdown := ∅ |}.

(** [ProcessingStats.add_result] *)
Definition add_result (result : ProcessingResult) (self : ProcessingStats)
  : ProcessingStats :=
  let processed_urls' := processed_urls self + 1 in
  let total_processing_time' :=
    (total_processing_time self + processing_time_sec result)%Q in
  if String.eqb (status result) (ProcessingStatus_value SUCCESS) then
    let is_ssr :=
      String.eqb (rendering_type result) (RenderingType_value SERVER_SIDE_RENDERED) in
    let is_csr :=
      String.eqb (rendering_type result) (RenderingType_value CLIENT_SIDE_RENDERED) in
    let is_na :=
      String.eqb (rendering_type result) (RenderingType_value NOT_ACCESSIBLE) in
    {| total_urls := total_urls self;
       processed_urls := processed_urls';
       successful_urls := successful_urls self + 1;
       failed_urls := failed_urls self;
       ssr_count := if is_ssr then ssr_count self + 1 else ssr_count self;
       csr_count :=
         if is_ssr then csr_count self
         else if is_csr then csr_count self + 1 else csr_count self;
       not_accessible_count :=
         if is_ssr then not_accessible_count self
         else if is_csr then not_accessible_count self
         else if is_na then not_accessible_count self + 1
         else not_accessible_count self;
       total_processing_time := total_processing_time';
       stats_start_time := stats_start_time self;
       stats_end_time := stats_end_time self;
       error_breakdown := error_breakdown self |}
  else
    {| total_urls := total_urls self;
       processed_urls := processed_urls';
       successful_urls := successful_urls self;
       failed_urls := failed_urls self + 1;
       ssr_count := ssr_count self;
       csr_count := csr_count self;
       not_accessible_count := not_accessible_count self;
       total_processing_time := total_processing_time';
       stats_start_time := stats_start_time self;
       stats_end_time := stats_end_time self;
       error_breakdown :=
         match error_category result with
         | Some c =>
             if negb (String.eqb c "") then
               <[c := default 0 (error_breakdown self !! c) + 1]> (error_breakdown self)
             else error_breakdown self
         | None => error_breakdown self
         end |}.

(** [ProcessingStats.get_success_rate], the quotient taken exactly. *)
Definition get_success_rate (self : ProcessingStats) : Q :=
  if processed_urls self =? 0 then 0%Q
  else (inject_Z (successful_urls self) / inject_Z (processed_urls self) * 100)%Q.

(** [TimeoutConfig] *)
Record TimeoutConfig := {
  http_request : Z;
  browser_load : Z;
  javascript_wait : Z;
  total_processing : Z
}.

Definition TimeoutConfig_default : TimeoutConfig :=
  {| http_request := 15; browser_load := 20; javascript_wait := 5;
     total_processing := 45 |}.

(** ** retry_manager.py *)

(** [sep.join(l)] *)
Fixpoint join (sep : string) (l : list string) : string :=
  match l with
  | [] => ""
  | [s] => s
  | s :: rest => s +:+ sep +:+ join sep rest
  end.

Section format_retry_summary.

(** The text of a float under the format [.1f]. *)
Variable format_1f : Q -> string.

(** [RetryManager.format_retry_summary]; [final_error] is printed as
    [None] when it is not set. *)
Definition format_retry_summary (self : RetryManager) (u : string) : string :=
  match retry_histories self !! u with
  | None => "No retry history found for " +:+ u
  | Some history =>
      if total_attempts history =? 1 then u +:+ ": Success on first attempt"
      else
        let summary := u +:+ ": " +:+ pretty (total_attempts history) +:+ " attempts" in
        let summary :=
          if success history then summary +:+ " (eventually successful)"
          else summary +:+ " (failed - " +:+ default "None" (final_error history) +:+ ")" in
        let summary :=
          if nonempty (attempts history) then
            let error_types :=
              map (fun attempt => ErrorCategory_value (attempt_error_category attempt))
                  (attempts history) in
            summary +:+ " - Errors: " +:+ join ", " error_types
          else summary in
        if Qlt_le_dec 0 (total_retry_time history) then
          summary +:+ " - Total retry time: " +:+ format_1f (total_retry_time history) +:+ "s"
        else summary
  end.

End format_retry_summary.

(** ** performance_optimizer.py *)

Definition PoolMetrics_zero : PoolMetrics :=
  {| browsers_created := 0; browsers_reused := 0; browsers_restarted := 0;
     memory_cleanups := 0; total_requests := 0 |}.

Section pool_cleanup.
Context {X : Type} `{Clock X} `{Browsers X}.

(** [PerformanceOptimizer.cleanup_resources] (the lock is held throughout) *)
Definition cleanup_resources : Py (PState X) unit :=
  (self <- on_self id ;;
   remove_each (_browser_pool self) ;;;
   update_self (fun self => with_metrics PoolMetrics_zero (with_pool [] ∅ ∅ self)))%py.

End pool_cleanup.

(** The dictionary of the three time-outs that [get_intelligent_timeout]
    works on and returns. *)
Record Timeouts := {
  timeout_http_request : Z;
  timeout_browser_load : Z;
  timeout_javascript_wait : Z
}.

Definition slow_sites : list string :=
  ["facebook.com"; "twitter.com"; "linkedin.com"; "instagram.com"].

Definition fast_sites : list string :=
  ["google.com"; "github.com"; "stackoverflow.com"].

(** [int(x)] for a float [x]: rounding toward zero. *)
Definition py_int (x : Q) : Z := Z.quot (Qnum x) (Z.pos (Qden x)).

Section get_intelligent_timeout.

(** [urlparse(url).netloc], which raises on a malformed URL. *)
Variable urlparse_netloc : string -> Res string.

(** [PerformanceOptimizer.get_intelligent_timeout], given
    [self.config.timeouts]; products are taken exactly. *)
Definition get_intelligent_timeout (timeouts : TimeoutConfig) (u : string)
    (attempt : Z) : Timeouts :=
  let base_timeouts :=
    {| timeout_http_request := http_request timeouts;
       timeout_browser_load := browser_load timeouts;
       timeout_javascript_wait := javascript_wait timeouts |} in
  let base_timeouts :=
    match urlparse_netloc u with
    | Ok netloc =>
        let domain := lower netloc in
        let base_timeouts :=
          if any_in slow_sites domain then
            {| timeout_http_request := timeout_http_request base_timeouts + 10;
               timeout_browser_load := timeout_browser_load base_timeouts + 15;
               timeout_javascript_wait := timeout_javascript_wait base_timeouts + 5 |}
          else base_timeouts in
        if any_in fast_sites domain then
          {| timeout_http_request := Z.max 5 (timeout_http_request base_timeouts - 5);
             timeout_browser_load := Z.max 10 (timeout_browser_load base_timeouts - 5);
             timeout_javascript_wait := timeout_javascript_wait base_timeouts |}
        else base_timeouts
    | Raise _ => base_timeouts
    end in
  if 1 <? attempt then
    let multiplier := (1 + inject_Z (attempt - 1) * (1 # 2))%Q in
    {| timeout_http_request :=
         py_int (inject_Z (timeout_http_request base_timeouts) * multiplier);
       timeout_browser_load :=
         py_int (inject_Z (timeout_browser_load base_timeouts) * multiplier);
       timeout_javascript_wait :=
         py_int (inject_Z (timeout_javascript_wait base_timeouts) * multiplier) |}
  else base_timeouts.

End get_intelligent_timeout.

(** ** The back-off delay in binary64 *)

(** The rational number that a finite double is; [None] for an infinity
    and for NaN. *)
Definition float_value (f : float) : option Q :=
  match Prim2SF f with
  | S754_zero _ => Some 0%Q
  | S754_finite s m e =>
      Some (inject_Z (if s then Z.neg m else Z.pos m) * 2 ^ e)%Q
  | S754_infinity _ | S754_nan => None
  end.





(* ===================================================================== *)
(** * Specification-side definitions                                      *)
(* ===================================================================== *)

(** ** The score, component by component *)

(** The weights of the score as the decimal numbers they are written as,
    added as rational numbers. *)

(** The frameworks that count as modern. *)
Definition modern_names : list string := ["React"; "Vue"; "Next.js"; "Nuxt.js"].

Definition decimal_framework_points (frameworks : list string) : Q :=
  (if bool_decide (frameworks ≠ []) then 4 # 10 else 0)
  + (if bool_decide (Exists (λ fw, fw ∈ modern_names) frameworks) then 1 # 10 else 0).

Definition decimal_size_points (d : Z) : Q :=
  if bool_decide (2000 < d) then 3 # 10
  else if bool_decide (1000 < d) then 2 # 10
  else if bool_decide (500 < d) then 1 # 10 else 0.

Definition decimal_dynamic_points (dyn : bool) : Q := if dyn then 2 # 10 else 0.

Definition decimal_mutation_points (n : Z) : Q :=
  if bool_decide (20 < n) then 2 # 10
  else if bool_decide (10 < n) then 1 # 10
  else if bool_decide (5 < n) then 5 # 100 else 0.

Definition decimal_indicator_points (l : list string) : Q :=
  if bool_decide (l ≠ []) then 1 # 10 else 0.

(** The sum of the components, before the cap. *)
Definition decimal_sum (d : Z) (frameworks : list string) (dyn : bool)
    (mc : Z) (indicators : list string) : Q :=
  decimal_framework_points frameworks + decimal_size_points d
  + decimal_dynamic_points dyn + decimal_mutation_points mc
  + decimal_indicator_points indicators.

(** Where a score lies with respect to the two thresholds. *)
Inductive ScoreRegion (sc : float) : Prop :=
  | region_csr : (0.6 <=? sc)%float = true -> (sc <=? 0.3)%float = false ->
                 (sc <? 0.6)%float = false -> ScoreRegion sc
  | region_ssr : (0.6 <=? sc)%float = false -> (sc <=? 0.3)%float = true ->
                 (0.3 <? sc)%float = false -> ScoreRegion sc
  | region_band : (0.6 <=? sc)%float = false -> (sc <=? 0.3)%float = false ->
                  (0.3 <? sc)%float = true -> (sc <? 0.6)%float = true ->
                  ScoreRegion sc.

(** The tie-breakers of the ambiguous band, in order. *)
Definition tie_break (frameworks : list string) (d mc : Z) : RenderingType :=
  if any_modern frameworks then CLIENT_SIDE_RENDERED
  else if 1000 <? d then CLIENT_SIDE_RENDERED
  else if 15 <? mc then CLIENT_SIDE_RENDERED
  else SERVER_SIDE_RENDERED.

(** ** The classification rules as a table *)

(** A rule: its category, the classes of its structural test, the phrases
    of its substring test and, where the code has one, a further test on
    the lowered message. *)
Record Rule := {
  rule_category : ErrorCategory;
  rule_classes : list ExcClass;
  rule_phrases : list string;
  rule_extra : string -> bool
}.

Definition no_extra (_ : string) : bool := false.

(** The rules in priority order, with the status-code pattern of the HTTP
    rule. *)
Definition rules : list Rule :=
  [ {| rule_category := DNS_ERROR; rule_classes := [socket_gaierror];
       rule_phrases := dns_indicators; rule_extra := no_extra |};
    {| rule_category := SSL_ERROR;
       rule_classes := [ssl_SSLError; RequestsSSLError; Urllib3SSLError];
       rule_phrases := ssl_indicators; rule_extra := no_extra |};
    {| rule_category := TIMEOUT_ERROR;
       rule_classes := [Timeout; TimeoutException; socket_timeout];
       rule_phrases := timeout_indicators; rule_extra := no_extra |};
    {| rule_category := BROWSER_ERROR;
       rule_classes := [WebDriverException; NoSuchElementException;
                        ElementNotInteractableException; InvalidSessionIdException;
                        SessionNotCreatedException; UnexpectedAlertPresentException];
       rule_phrases := browser_indicators; rule_extra := no_extra |};
    {| rule_category := HTTP_ERROR; rule_classes := [HTTPError];
       rule_phrases := http_indicators; rule_extra := search_status_code false |};
    {| rule_category := PARSE_ERROR;
       rule_classes := [ValueError; UnicodeError; UnicodeDecodeError];
       rule_phrases := parse_indicators; rule_extra := no_extra |};
    {| rule_category := NETWORK_ERROR; rule_classes := [ConnectionError; socket_error];
       rule_phrases := network_indicators; rule_extra := no_extra |} ].

(** The structural-type test or the case-insensitive substring test. *)
Definition type_or_phrase (r : Rule) (e : Exception) : bool :=
  isinstance e (rule_classes r) || any_in (rule_phrases r) (lower (exc_str e)).

(** The rule's full test. *)
Definition rule_matches (r : Rule) (e : Exception) : bool :=
  type_or_phrase r e || rule_extra r (lower (exc_str e)).

(** The category of the first rule whose test holds, [UNKNOWN_ERROR] when
    none does. *)
Fixpoint first_match (test : Rule -> Exception -> bool) (rs : list Rule)
    (e : Exception) : ErrorCategory :=
  match rs with
  | [] => UNKNOWN_ERROR
  | r :: rest => if test r e then rule_category r else first_match test rest e
  end.

(** The classifier as the claim words it: type and substring tests only. *)
Definition spec_classify (e : Exception) : ErrorCategory :=
  first_match type_or_phrase rules e.

(** The classifier with every test of the code. *)
Definition category_of (e : Exception) : ErrorCategory :=
  first_match rule_matches rules e.

(** The input passes the validation of the entry point. *)
Definition valid_url (u : PyVal) : bool := truthy u && is_str u.

(** The attempt limit in force during a call of the entry point. *)
Definition effective_max_attempts (max_retries : option Z) (rm : RetryManager) : Z :=
  match max_retries with
  | Some n => n
  | None => max_attempts (config rm)
  end.

(** The key under which the orchestrator files an operation. *)
Definition key_of (arg0 : option string) : string :=
  match arg0 with Some u => u | None => "unknown" end.

(** A category on which the orchestrator gives up at once. *)
Definition non_retryable (cfg : RetryConfig) (c : ErrorCategory) : Prop :=
  (c ∈ non_retryable_errors cfg) \/ ErrorHandler_should_retry c = false.

(** A category after which the orchestrator tries again. *)
Definition retryable (cfg : RetryConfig) (c : ErrorCategory) : Prop :=
  (c ∉ non_retryable_errors cfg) /\ ErrorHandler_should_retry c = true.

(** ** Acquisition sequences from the pool *)

(** Whether the acquisition [r] returned the handle [b]. *)
Definition returns (b : handle) (r : Res handle) : bool :=
  match r with Ok b' => Nat.eqb b b' | Raise _ => false end.

(** How many acquisitions of [rs] returned [b]. *)
Definition count_returns (b : handle) (rs : list (Res handle)) : nat :=
  length (List.filter (returns b) rs).

(** The per-handle counts [c] after one more acquisition [r]. *)
Definition bump (c : handle -> nat) (r : Res handle) : handle -> nat :=
  fun b => if returns b r then S (c b) else c b.

(** The optimizer after [_remove_browser_from_pool b]. *)
Definition removed (b : handle) (self : PerformanceOptimizer) : PerformanceOptimizer :=
  with_pool (if bool_decide (b ∈ _browser_pool self)
             then list_remove b (_browser_pool self)
             else _browser_pool self)
            (delete b (_browser_usage_count self))
            (delete b (_browser_creation_time self)) self.

(** What holds of the pool between acquisitions, [c b] being the number of
    acquisitions that returned [b] so far: the pool holds at most one
    handle, older than every identity still to be allocated; a pooled
    handle has been returned once more than its usage count, which is at
    most the threshold; a handle no longer pooled was returned at most
    threshold + 1 times; an identity not yet allocated, never. *)
Record PoolInv (thr : Z) (self : PerformanceOptimizer) (c : handle -> nat) : Prop := {
  inv_threshold : _browser_restart_threshold self = thr;
  inv_nodup : NoDup (_browser_pool self);
  inv_single : (length (_browser_pool self) <= 1)%nat;
  inv_fresh : forall b, b ∈ _browser_pool self -> (b < next_browser_id self)%nat;
  inv_tracked : forall b, b ∈ _browser_pool self ->
    exists k, _browser_usage_count self !! b = Some k
              /\ Z.of_nat (c b) = k + 1 /\ k <= thr;
  inv_retired : forall b, b ∉ _browser_pool self -> Z.of_nat (c b) <= thr + 1;
  inv_unborn : forall b, (next_browser_id self <= b)%nat -> c b = O
}.

Section acquire.
Context {X : Type} `{Clock X} `{Browsers X}.

(** [n] calls of [get_optimized_browser] in a row, and what each returned. *)
Fixpoint acquire_n (u : string) (n : nat) (s : PState X)
  : list (Res handle) * PState X :=
  match n with
  | O => ([], s)
  | S n' =>
      let '(r, s1) := get_optimized_browser u s in
      let '(rs, s2) := acquire_n u n' s1 in
      (r :: rs, s2)
  end.

End acquire.

(** ** Counting the invocations of an operation *)

(** A world that also remembers how many times the operation ran. *)
Abbreviation Counted X := (X * nat)%type (only parsing).

#[global] Instance Clock_counted {X : Type} `{Clock X} : Clock (Counted X) := {|
  time_time := fun s => let '(t, x) := time_time (fst s) in (t, (x, snd s));
  time_sleep := fun d s => (time_sleep d (fst s), snd s)
|}.

(** [op k] is what the operation does when it is invoked for the [k]-th
    time (from 0); [invoke op] is the operation itself. *)
Definition invoke {X A : Type} (op : nat -> RetryManager -> Py (ErrorHandler * X) A)
  : RetryManager -> Py (ErrorHandler * Counted X) A :=
  fun rm s =>
    let '(r, s') := op (snd (snd s)) rm (fst s, fst (snd s)) in
    (r, (fst s', (snd s', S (snd (snd s))))).

Definition invocations {X : Type} (s : RState (Counted X)) : nat :=
  snd (snd (snd s)).

(** ** A small concrete world, for running the model *)

Module TestWorld.

(** The clock stands still unless someone sleeps; the network answers from
    a script and refuses connections when the script is over; browsers
    start unless [chrome_fails] and stay alive until they are quit. *)
Record t := {
  clock : Q;
  responses : list (Res Response);
  requests_made : nat;
  chrome_fails : bool;
  dead : list handle
}.

Definition refused : Exception :=
  mk_exception "ConnectionError" [ConnectionError; socket_error] "connection refused".

Definition gone : Exception :=
  mk_exception "WebDriverException" [WebDriverException] "chrome not reachable".

#[global] Instance clock_ops : Clock t := {|
  time_time := fun w => (clock w, w);
  time_sleep := fun d w =>
    {| clock := (clock w + d)%Q; responses := responses w;
       requests_made := requests_made w; chrome_fails := chrome_fails w;
       dead := dead w |}
|}.

#[global] Instance browser_ops : Browsers t := {|
  chrome_start := fun _ _ w =>
    if chrome_fails w then (Raise gone, w) else (Ok tt, w);
  browser_current_url := fun h w =>
    if bool_decide (h ∈ dead w) then (Raise gone, w) else (Ok "about:blank", w);
  browser_quit := fun h w =>
    (Ok tt, {| clock := clock w; responses := responses w;
               requests_made := requests_made w; chrome_fails := chrome_fails w;
               dead := h :: dead w |});
  memory_rss := fun w => (0, w)
|}.

#[global] Instance web_ops : Web t := {|
  requests_get := fun _ w =>
    let w' rest :=
      {| clock := clock w; responses := rest;
         requests_made := S (requests_made w); chrome_fails := chrome_fails w;
         dead := dead w |} in
    match responses w with
    | [] => (Raise refused, w' [])
    | r :: rest => (r, w' rest)
    end;
  cookies_io := fun _ _ w => (Ok tt, w);
  driver_load := fun h _ w =>
    if bool_decide (h ∈ dead w) then (Raise gone, w) else (Ok "<html></html>", w);
  execute_script_flag := fun _ _ w => (Ok false, w);
  execute_script_text := fun _ _ w => (Ok "", w);
  execute_script_count := fun _ _ w => (Ok 0, w);
  datetime_now_isoformat := fun w => ("2025-01-01T00:00:00", w);
  soup_counts := fun _ => Ok (0, 0)
|}.

Definition start (script : list (Res Response)) : t :=
  {| clock := 0%Q; responses := script; requests_made := O;
     chrome_fails := false; dead := [] |}.

(** [WebsiteRendererDetector(max_retries=n)] in the world [w]. *)
Definition detector (n : Z) (w : t) : DState t :=
  (RetryManager_init
     {| max_attempts := n; backoff_base := 1%Q; backoff_multiplier := 2%Q;
        non_retryable_errors := [DNS_ERROR; SSL_ERROR] |},
   (ErrorHandler_init,
    ({| performance_optimizer := PerformanceOptimizer_init 3;
        performance_metrics :=
          {| pm_total_processing_time := 0%Q; pm_total_requests := 0;
             pm_successful_requests := 0; pm_failed_requests := 0;
             pm_average_processing_time := 0%Q; pm_requests_per_second := 0%Q |};
        driver := None |}, w))).

(** An operation that fails with a refused connection on its first
    invocation and returns 7 from then on. *)
Definition flaky (k : nat) (_ : RetryManager) : Py (ErrorHandler * t) Z :=
  fun w => if (k <? 1)%nat then (Raise refused, w) else (Ok 7, w).

Definition unresolved : Exception :=
  mk_exception "gaierror" [socket_gaierror; socket_error]
    "[Errno -2] Name or service not known".

(** An operation whose every invocation fails to resolve the host. *)
Definition unresolvable (_ : nat) (_ : RetryManager) : Py (ErrorHandler * t) Z :=
  fun w => (Raise unresolved, w).

(** Exceptions that no rule names by type. *)
Definition teapot : Exception := mk_exception "Exception" [] "error 418".
Definition boom_value : Exception := mk_exception "ValueError" [ValueError] "boom".
Definition boom_runtime : Exception := mk_exception "RuntimeError" [RuntimeError] "boom".

Definition ok200 : Res Response :=
  Ok {| status_code := 200; reason := "OK"; resp_url := "http://example.com/";
        resp_text := "<html><body><p>hello</p></body></html>" |}.

End TestWorld.

(** ** Retry histories *)

(** The delay that the back-off policy prescribes after attempt [attempt]. *)
Definition policy_delay (cfg : RetryConfig) (attempt : Z) : Q :=
  (backoff_base cfg * backoff_multiplier cfg ^ (attempt - 1))%Q.

(** The recorded delays, added up in the order of the records. *)
Definition sum_delays (l : list RetryAttempt) : Q :=
  fold_left (fun acc a => (acc + delay_before_attempt a)%Q) l 0%Q.

(** The records [l] are those of the failures [errs], in order, each of
    them retryable and followed by the delay of the policy: they are
    numbered from 1 and carry the failure's category and message. *)
Definition retried_records (cfg : RetryConfig) (l : list RetryAttempt)
    (errs : list Exception) : Prop :=
  map attempt_number l = map Z.of_nat (seq 1 (length l))
  /\ map attempt_error_message l = map exc_str errs
  /\ map attempt_error_category l = map category_of errs
  /\ map delay_before_attempt l = map (policy_delay cfg) (map attempt_number l)
  /\ Forall (fun e => retryable cfg (category_of e)) errs.

(** The record of a failure [e] after which the orchestrator gave up. *)
Definition final_record (n : Z) (e : Exception) (a : RetryAttempt) : Prop :=
  attempt_number a = n /\ attempt_error_category a = category_of e
  /\ attempt_error_message a = exc_str e /\ delay_before_attempt a = 0%Q.

(** [func] can raise [e]. *)
Definition raised_by {X A : Type} (func : RetryManager -> Py (ErrorHandler * X) A)
    (e : Exception) : Prop :=
  exists rm w w', func rm w = (Raise e, w').


Section run_outcome.
Context {X A : Type}.
Variable func : RetryManager -> Py (ErrorHandler * X) A.

(** What the history [h] says after a run that ended with [r], [errs]
    being the failures of the operation in the order they occurred. *)
Definition run_outcome (cfg : RetryConfig) (r : Res A) (h : RetryHistory)
    (errs : list Exception) : Prop :=
  match r with
  | Ok v =>
      success h = true /\ final_error h = None
      /\ retried_records cfg (attempts h) errs
      /\ total_attempts h = Z.of_nat (length (attempts h)) + 1
      /\ (exists rm w w', func rm w = (Ok v, w'))
  | Raise e =>
      success h = false
      /\ final_error h
         = Some (ErrorCategory_value (category_of e) +:+ ": " +:+ exc_str e)%string
      /\ (exists l a errs',
            attempts h = l ++ [a] /\ errs = errs' ++ [e]
            /\ retried_records cfg l errs' /\ final_record (total_attempts h) e a)
      /\ total_attempts h = Z.of_nat (length (attempts h))
      /\ (total_attempts h < max_attempts cfg -> non_retryable cfg (category_of e))
  end.
End run_outcome.

(** ** Results of the entry point *)

(** The names that [_detect_frameworks] can report. *)
Definition framework_names : list string :=
  ["React"; "Vue"; "Angular"; "Next.js"; "Nuxt.js"].

(** A result as the pipeline returns it for a page it could load. *)
Definition success_shape (text : string) (r : ProcessingResult) : Prop :=
  status r = ProcessingStatus_value SUCCESS
  /\ url r = PyStr text
  /\ (exists final, final_url r = PyStr final)
  /\ (rendering_type r = RenderingType_value SERVER_SIDE_RENDERED
      \/ rendering_type r = RenderingType_value CLIENT_SIDE_RENDERED)
  /\ error_category r = None /\ error_message r = None
  /\ (exists c, http_status_code r = Some c /\ c < 400)
  /\ NoDup (frameworks r) /\ frameworks r ⊆ framework_names.

(** A result as the entry point builds it after a failure. *)
Definition failure_shape (u : PyVal) (r : ProcessingResult) : Prop :=
  status r = ProcessingStatus_value FAILED
  /\ url r = u
  /\ rendering_type r = RenderingType_value NOT_ACCESSIBLE
  /\ (exists c, error_category r = Some (ErrorCategory_value c))
  /\ (exists m, error_message r = Some m /\ len m <= 200)
  /\ frameworks r = [].

(** The detector's request counters, seen from the pipeline's state. *)
Definition metrics_of {X : Type} (w : IState X) : PerformanceMetrics :=
  performance_metrics (fst (snd w)).

(** ** Calls on the pool *)

(** The calls that a client or the pool itself makes on the pool. *)
Inductive PoolCall :=
  | call_get_optimized_browser (u : string)
  | call_restart_browser_if_needed
  | call_cleanup_old_browsers
  | call_cleanup_resources.

Section pool_calls.
Context {X : Type} `{Clock X} `{Browsers X}.

(** A sequence of calls, and what each acquisition among them returned. *)
Fixpoint run_calls (calls : list PoolCall) (s : PState X)
  : list (Res handle) * PState X :=
  match calls with
  | [] => ([], s)
  | call :: rest =>
      match call with
      | call_get_optimized_browser u =>
          let '(r, s1) := get_optimized_browser u s in
          let '(rs, s2) := run_calls rest s1 in
          (r :: rs, s2)
      | call_restart_browser_if_needed =>
          run_calls rest (snd (restart_browser_if_needed s))
      | call_cleanup_old_browsers =>
          run_calls rest (snd (_cleanup_old_browsers s))
      | call_cleanup_resources =>
          run_calls rest (snd (cleanup_resources s))
      end
  end.

End pool_calls.

(** How many acquisitions of [rs] returned a browser. *)
Definition count_ok (rs : list (Res handle)) : nat :=
  length (List.filter (fun r => match r with Ok _ => true | Raise _ => false end) rs).

(** ** Processing statistics *)

(** The statistics after [add_result] has been called on each result in turn. *)
Definition stats_of (results : list ProcessingResult) : ProcessingStats :=
  fold_left (fun stats result => add_result result stats) results ProcessingStats_init.

(** How many of [results] are failures filed under the category [c]. *)
Definition count_failed_as (c : string) (results : list ProcessingResult) : nat :=
  length (List.filter
            (fun r => negb (String.eqb (status r) (ProcessingStatus_value SUCCESS))
                      && bool_decide (error_category r = Some c)) results).

(** How many of [results] are successes. *)
Definition count_successes (results : list ProcessingResult) : nat :=
  length (List.filter
            (fun r => String.eqb (status r) (ProcessingStatus_value SUCCESS)) results).

(** How many of [results] bear the verdict not-accessible. *)
Definition count_not_accessible (results : list ProcessingResult) : nat :=
  length (List.filter
            (fun r => String.eqb (rendering_type r) (RenderingType_value NOT_ACCESSIBLE))
            results).

(** ** Further concrete worlds and operations *)

(** A world whose server answers every request with 404 Not Found; its
    browsers never fail and only the clock moves. *)
Module Outage.

Record world := { outage_clock : Q }.

Definition not_found (u : string) : Response :=
  {| status_code := 404; reason := "Not Found"; resp_url := u; resp_text := "" |}.

Definition outage_clock_ops : Clock world := {|
  time_time := fun w => (outage_clock w, w);
  time_sleep := fun d w => {| outage_clock := (outage_clock w + d)%Q |}
|}.

Definition outage_browser_ops : Browsers world := {|
  chrome_start := fun _ _ w => (Ok tt, w);
  browser_current_url := fun _ w => (Ok "about:blank", w);
  browser_quit := fun _ w => (Ok tt, w);
  memory_rss := fun w => (0, w)
|}.

Definition outage_web_ops : Web world := {|
  requests_get := fun u w => (Ok (not_found u), w);
  cookies_io := fun _ _ w => (Ok tt, w);
  driver_load := fun _ _ w => (Ok "<html></html>", w);
  execute_script_flag := fun _ _ w => (Ok false, w);
  execute_script_text := fun _ _ w => (Ok "", w);
  execute_script_count := fun _ _ w => (Ok 0, w);
  datetime_now_isoformat := fun w => ("2025-01-01T00:00:00", w);
  soup_counts := fun _ => Ok (0, 0)
|}.

(** [WebsiteRendererDetector(max_retries=n)] at time 0. *)
Definition site_down (n : Z) : DState world :=
  (RetryManager_init
     {| max_attempts := n; backoff_base := 1%Q; backoff_multiplier := 2%Q;
        non_retryable_errors := [DNS_ERROR; SSL_ERROR] |},
   (ErrorHandler_init,
    ({| performance_optimizer := PerformanceOptimizer_init 3;
        performance_metrics :=
          {| pm_total_processing_time := 0%Q; pm_total_requests := 0;
             pm_successful_requests := 0; pm_failed_requests := 0;
             pm_average_processing_time := 0%Q; pm_requests_per_second := 0%Q |};
        driver := None |}, {| outage_clock := 0%Q |}))).

End Outage.

(** The test world with a rendering engine that cannot be started. *)
Definition broken_chrome : TestWorld.t :=
  {| TestWorld.clock := 0%Q; TestWorld.responses := []; TestWorld.requests_made := O;
     TestWorld.chrome_fails := true; TestWorld.dead := [] |}.

(** An operation whose every invocation is refused a connection. *)
Definition refusing (_ : nat) (_ : RetryManager) : Py (ErrorHandler * TestWorld.t) Z :=
  fun w => (Raise TestWorld.refused, w).

(** An operation that cannot resolve its host. *)
Definition lost (_ : RetryManager) : Py (ErrorHandler * TestWorld.t) Z :=
  fun w => (Raise TestWorld.unresolved, w).

(** A certificate error as the TLS layer words it. *)
Definition mismatch : Exception :=
  mk_exception "SSLError" [ssl_SSLError; socket_error]
    "certificate verify failed: hostname doesn't match".

(** A failed result, as the entry point builds it. *)
Definition failed_result : ProcessingResult :=
  {| url := PyStr "example.com"; final_url := PyStr "http://example.com";
     rendering_type := RenderingType_value NOT_ACCESSIBLE;
     status := ProcessingStatus_value FAILED;
     processing_time_sec := 1%Q; timestamp := "2025-01-01T00:00:00";
     frameworks := [];
     error_category := Some (ErrorCategory_value NETWORK_ERROR);
     error_message := Some "NetworkError: connection refused [ConnectionError]";
     retry_count := 2; http_status_code := None |}.

(** ** A correctly rounded power *)





(** ** The scripts of the dynamic-content probe *)

Section probe.
Context {X : Type} `{Clock X} `{Web X}.

(** The world answers every script of the probe, asked in the probe's
    order from the world [x]: the observer is installed, the HTML and the
    text are read ([h0], [t0]), one second passes, they are read again
    ([h1], [t1]), the mutation count [mc] is read and the observer is
    disconnected, which leaves the world [x']. *)
Inductive probe_answers (drv : handle) (x : X)
    (h0 t0 h1 t1 : string) (mc : Z) (x' : X) : Prop :=
  | probe_answered (b0 b1 : bool) (x1 x2 x3 x4 x5 x6 : X) :
      execute_script_flag drv "install_mutation_observer" x = (Ok b0, x1) ->
      execute_script_text drv "outerHTML" x1 = (Ok h0, x2) ->
      execute_script_text drv "textContent" x2 = (Ok t0, x3) ->
      execute_script_text drv "outerHTML" (time_sleep 1 x3) = (Ok h1, x4) ->
      execute_script_text drv "textContent" x4 = (Ok t1, x5) ->
      execute_script_count drv "mutationCount" x5 = (Ok mc, x6) ->
      execute_script_flag drv "disconnect_mutation_observer" x6 = (Ok b1, x') ->
      probe_answers drv x h0 t0 h1 t1 mc x'.

(** One of the scripts, the first that does, raises [e], which leaves the
    world [x']. *)
Inductive probe_fails (drv : handle) (x : X) (e : Exception) (x' : X) : Prop :=
  | fails_install :
      execute_script_flag drv "install_mutation_observer" x = (Raise e, x') ->
      probe_fails drv x e x'
  | fails_initial_html (b0 : bool) (x1 : X) :
      execute_script_flag drv "install_mutation_observer" x = (Ok b0, x1) ->
      execute_script_text drv "outerHTML" x1 = (Raise e, x') ->
      probe_fails drv x e x'
  | fails_initial_text (b0 : bool) (h0 : string) (x1 x2 : X) :
      execute_script_flag drv "install_mutation_observer" x = (Ok b0, x1) ->
      execute_script_text drv "outerHTML" x1 = (Ok h0, x2) ->
      execute_script_text drv "textContent" x2 = (Raise e, x') ->
      probe_fails drv x e x'
  | fails_final_html (b0 : bool) (h0 t0 : string) (x1 x2 x3 : X) :
      execute_script_flag drv "install_mutation_observer" x = (Ok b0, x1) ->
      execute_script_text drv "outerHTML" x1 = (Ok h0, x2) ->
      execute_script_text drv "textContent" x2 = (Ok t0, x3) ->
      execute_script_text drv "outerHTML" (time_sleep 1 x3) = (Raise e, x') ->
      probe_fails drv x e x'
  | fails_final_text (b0 : bool) (h0 t0 h1 : string) (x1 x2 x3 x4 : X) :
      execute_script_flag drv "install_mutation_observer" x = (Ok b0, x1) ->
      execute_script_text drv "outerHTML" x1 = (Ok h0, x2) ->
      execute_script_text drv "textContent" x2 = (Ok t0, x3) ->
      execute_script_text drv "outerHTML" (time_sleep 1 x3) = (Ok h1, x4) ->
      execute_script_text drv "textContent" x4 = (Raise e, x') ->
      probe_fails drv x e x'
  | fails_count (b0 : bool) (h0 t0 h1 t1 : string) (x1 x2 x3 x4 x5 : X) :
      execute_script_flag drv "install_mutation_observer" x = (Ok b0, x1) ->
      execute_script_text drv "outerHTML" x1 = (Ok h0, x2) ->
      execute_script_text drv "textContent" x2 = (Ok t0, x3) ->
      execute_script_text drv "outerHTML" (time_sleep 1 x3) = (Ok h1, x4) ->
      execute_script_text drv "textContent" x4 = (Ok t1, x5) ->
      execute_script_count drv "mutationCount" x5 = (Raise e, x') ->
      probe_fails drv x e x'
  | fails_disconnect (b0 : bool) (h0 t0 h1 t1 : string) (mc : Z)
      (x1 x2 x3 x4 x5 x6 : X) :
      execute_script_flag drv "install_mutation_observer" x = (Ok b0, x1) ->
      execute_script_text drv "outerHTML" x1 = (Ok h0, x2) ->
      execute_script_text drv "textContent" x2 = (Ok t0, x3) ->
      execute_script_text drv "outerHTML" (time_sleep 1 x3) = (Ok h1, x4) ->
      execute_script_text drv "textContent" x4 = (Ok t1, x5) ->
      execute_script_count drv "mutationCount" x5 = (Ok mc, x6) ->
      execute_script_flag drv "disconnect_mutation_observer" x6 = (Raise e, x') ->
      probe_fails drv x e x'.

End probe.

(** ** The clock reading of a restart check *)

Section sweep.
Context {X : Type} `{Clock X} `{Browsers X}.

(** The reading that [restart_browser_if_needed] takes of the clock for its
    sweep when it is called in the state [s]: the clock is read after the
    memory has been read and, when the memory is above the threshold, after
    [_cleanup_old_browsers] has run. *)
Definition sweep_time (s : PState X) : Q :=
  let '(current_memory, x1) := memory_rss (snd s) in
  let x2 :=
    if _max_memory_threshold (fst s) <? current_memory
    then snd (snd (_cleanup_old_browsers (fst s, x1)))
    else x1 in
  fst (time_time x2).

(** The age of [browser] at [current_time], counted as the source counts
    it: from the recorded creation time, or from [current_time] itself when
    none is recorded. *)
Definition age_at (self : PerformanceOptimizer) (current_time : Q) (browser : handle) : Q :=
  (current_time - default current_time (_browser_creation_time self !! browser))%Q.

End sweep.

(* ===================================================================== *)
(** * Theorems                                                            *)
(* ===================================================================== *)

Local Open Scope py_scope.

(** ** The weighted score *)

Lemma any_modern_nil : any_modern [] = false.
Proof. reflexivity. Qed.

Lemma bool_decide_nonempty {A} (l : list A) : bool_decide (l ≠ []) = nonempty l.
Proof. destruct l; reflexivity. Qed.

Lemma bool_decide_any_modern (fws : list string) :
  bool_decide (Exists (λ fw, fw ∈ modern_names) fws) = any_modern fws.
Proof.
  unfold any_modern. induction fws as [|fw fws IH]; [reflexivity|].
  cbn [existsb]. rewrite <- IH.
  destruct (bool_decide (fw ∈ modern_frameworks)) eqn:E.
  - apply bool_decide_eq_true in E. apply bool_decide_eq_true. left. exact E.
  - apply bool_decide_eq_false in E. cbn [orb].
    apply bool_decide_ext. split.
    + intros H. inversion H; subst; [contradiction | assumption].
    + intros H. right. exact H.
Qed.

Lemma bool_decide_Zlt (a b : Z) : bool_decide (a < b) = (a <? b).
Proof.
  destruct (a <? b) eqn:E.
  - apply bool_decide_eq_true. apply Z.ltb_lt. exact E.
  - apply bool_decide_eq_false. apply Z.ltb_ge in E. lia.
Qed.

(** C2.  For all detection signals the weighted CSR score is a finite
    double between 0 and 1 that lies within 2^-52 of the decimal sum
    capped at 1: the sum, as rational numbers, of 0.4 for any framework,
    0.1 more for a modern one, 0.3, 0.2 or 0.1 for a size difference above
    2000, 1000 or 500 (the highest bracket only), 0.2 for dynamic content,
    0.2, 0.1 or 0.05 for a mutation count above 20, 10 or 5, and 0.1 for
    structural framework indicators.  When the decimal sum exceeds 1 the
    score is exactly 1.0.  A size difference of 2500 with nothing else
    gives exactly the double 0.3, the one nearest to 3/10. *)
Theorem weighted_score_near_decimal_sum (m : DetectionMetrics) (fws : list string)
    (dyn : bool) (mc : Z) :
  (exists v : Q,
     float_value (_calculate_weighted_score m fws dyn mc) = Some v
     /\ (0 <= v)%Q /\ (v <= 1)%Q
     /\ (Qabs (v - Qmin (decimal_sum (content_size_difference m) fws dyn mc
                           (framework_indicators m)) 1) <= 1 # 2 ^ 52)%Q
     /\ ((1 < decimal_sum (content_size_difference m) fws dyn mc
                (framework_indicators m))%Q ->
         _calculate_weighted_score m fws dyn mc = 1.0%float))
  /\ _calculate_weighted_score (DetectionMetrics_init 2500) [] false 0 = 0.3%float
  /\ (exists v : Q, float_value 0.3%float = Some v
                    /\ (Qabs (v - (3 # 10)) <= 1 # 2 ^ 55)%Q).
Proof.
  split; [|split; [reflexivity|]].
  2:{ eexists. split; [vm_compute; reflexivity|].
      apply Qle_bool_imp_le. vm_compute. reflexivity. }
  unfold decimal_sum, decimal_framework_points, decimal_size_points,
    decimal_dynamic_points, decimal_mutation_points, decimal_indicator_points,
    _calculate_weighted_score.
  rewrite !bool_decide_nonempty, bool_decide_any_modern, !bool_decide_Zlt.
  destruct fws as [|fw fws]; [rewrite any_modern_nil|]; cbn [nonempty];
    destruct (framework_indicators m); cbn [nonempty].
  all: destruct dyn.
  all: try destruct (any_modern (fw :: fws)).
  all: destruct (2000 <? content_size_difference m);
    [|destruct (1000 <? content_size_difference m);
      [|destruct (500 <? content_size_difference m)]].
  all: destruct (20 <? mc); [|destruct (10 <? mc); [|destruct (5 <? mc)]].
  all: eexists; split; [vm_compute; reflexivity|];
    split; [apply Qle_bool_imp_le; vm_compute; reflexivity|];
    split; [apply Qle_bool_imp_le; vm_compute; reflexivity|];
    split; [apply Qle_bool_imp_le; vm_compute; reflexivity|];
    first [ intros _; reflexivity
          | intros H; exfalso; apply (Qlt_not_le _ _ H);
            apply Qle_bool_imp_le; vm_compute; reflexivity ].
Qed.

(** The score is not always the decimal sum: for a size difference of 1500
    and 12 mutations the decimal sum is 0.2 + 0.1 = 3/10, while the score
    is the double just above 0.3, which is more than 3/10, is not the
    double 0.3 and is above the lower threshold. *)
Lemma weighted_score_off_decimal_sum :
  (decimal_sum 1500 [] false 12 [] == 3 # 10)%Q
  /\ float_value (_calculate_weighted_score (DetectionMetrics_init 1500) [] false 12)
     = Some (5404319552844596 # 18014398509481984)
  /\ (3 # 10 < 5404319552844596 # 18014398509481984)%Q
  /\ _calculate_weighted_score (DetectionMetrics_init 1500) [] false 12 <> 0.3%float
  /\ (_calculate_weighted_score (DetectionMetrics_init 1500) [] false 12
        <=? SSR_THRESHOLD)%float = false.
Proof.
  split; [reflexivity|]. split; [vm_compute; reflexivity|].
  split; [reflexivity|]. split; [|reflexivity].
  intros H.
  assert (E : (_calculate_weighted_score (DetectionMetrics_init 1500) [] false 12
                 <=? 0.3)%float = false) by reflexivity.
  rewrite H in E. vm_compute in E. discriminate E.
Qed.

(** Every score the code can compute lies in exactly one of the three
    regions cut out by the thresholds. *)
Lemma score_region (m : DetectionMetrics) (fws : list string) (dyn : bool) (mc : Z) :
  ScoreRegion (_calculate_weighted_score m fws dyn mc).
Proof.
  unfold _calculate_weighted_score.
  destruct fws as [|fw fws]; [|destruct (any_modern (fw :: fws))]; cbn [nonempty];
    destruct (framework_indicators m); cbn [nonempty].
  all: destruct dyn.
  all: destruct (2000 <? content_size_difference m);
    [|destruct (1000 <? content_size_difference m);
      [|destruct (500 <? content_size_difference m)]].
  all: destruct (20 <? mc); [|destruct (10 <? mc); [|destruct (5 <? mc)]].
  all: first [ apply region_csr; reflexivity
             | apply region_ssr; reflexivity
             | apply region_band; reflexivity ].
Qed.

(** In binary64 the sum 0.2 + 0.1 is the float just above 0.3: a size
    difference of 1500 with 12 mutations scores above the lower threshold. *)
Example rounding_above_lower_threshold :
  (_calculate_weighted_score (DetectionMetrics_init 1500) [] false 12 <=? 0.3)%float = false
  /\ (0.3 <? _calculate_weighted_score (DetectionMetrics_init 1500) [] false 12)%float = true.
Proof. split; reflexivity. Qed.

(** C1.  Whatever the comparison and the dynamic-content probe do, the
    classification returns a verdict and never raises.  When either of them
    raises, the verdict is server-rendered.  Otherwise a score of at least
    0.6 gives client-rendered, a score of at most 0.3 gives
    server-rendered, and a score strictly in between is settled by the
    tie-breakers in order: a modern framework, a size difference above
    1000, more than 15 mutations, each giving client-rendered, else
    server-rendered. *)
Theorem classify_rendering_type_decision {X : Type}
    (compare : string -> string -> Py (IState X) DetectionMetrics)
    (analyze : handle -> Py (IState X) (bool * Z))
    (html_requests html_selenium : string) (fws : list string) (drv : handle)
    (s : IState X) :
  exists verdict s',
    _classify_rendering_type compare analyze html_requests html_selenium fws drv s
      = (Ok (RenderingType_value verdict), s')
    /\ (forall e s1, compare html_requests html_selenium s = (Raise e, s1) ->
          verdict = SERVER_SIDE_RENDERED)
    /\ (forall m s1 e s2, compare html_requests html_selenium s = (Ok m, s1) ->
          analyze drv s1 = (Raise e, s2) -> verdict = SERVER_SIDE_RENDERED)
    /\ (forall m s1 dyn mc s2, compare html_requests html_selenium s = (Ok m, s1) ->
          analyze drv s1 = (Ok (dyn, mc), s2) ->
          let score := _calculate_weighted_score (set_dynamic dyn mc m) fws dyn mc in
          ((0.6 <=? score)%float = true -> verdict = CLIENT_SIDE_RENDERED)
          /\ ((score <=? 0.3)%float = true -> verdict = SERVER_SIDE_RENDERED)
          /\ ((0.3 <? score)%float = true -> (score <? 0.6)%float = true ->
              verdict = tie_break fws (content_size_difference m) mc)).
Proof.
  unfold _classify_rendering_type, try_except, bind.
  destruct (compare html_requests html_selenium s) as [[m|e] s1] eqn:Hc.
  2:{ eexists SERVER_SIDE_RENDERED, _. split; [reflexivity|].
      repeat split; intros; congruence. }
  destruct (analyze drv s1) as [[[dyn mc]|e] s2] eqn:Ha.
  2:{ eexists SERVER_SIDE_RENDERED, _. split; [reflexivity|].
      repeat split; intros; congruence. }
  cbn [fst snd]. unfold CSR_THRESHOLD, SSR_THRESHOLD.
  destruct (score_region (set_dynamic dyn mc m) fws dyn mc)
    as [H1 H2 H3|H1 H2 H3|H1 H2 H3 H4]; rewrite H1; [| rewrite H2 | rewrite H2].
  - eexists CLIENT_SIDE_RENDERED, _. split; [reflexivity|].
    split; [congruence|]. split; [intros; congruence|].
    intros m' s1' dyn' mc' s2' E1 E2. inversion E1; subst.
    rewrite Ha in E2. inversion E2; subst. cbn zeta.
    repeat split; intros; congruence.
  - eexists SERVER_SIDE_RENDERED, _. split; [reflexivity|].
    split; [congruence|]. split; [intros; congruence|].
    intros m' s1' dyn' mc' s2' E1 E2. inversion E1; subst.
    rewrite Ha in E2. inversion E2; subst. cbn zeta.
    repeat split; intros; congruence.
  - exists (tie_break fws (content_size_difference m) mc). eexists. split.
    { unfold tie_break. cbn [content_size_difference set_dynamic].
      destruct (any_modern fws); [reflexivity|].
      destruct (1000 <? content_size_difference m); [reflexivity|].
      destruct (15 <? mc); reflexivity. }
    split; [congruence|]. split; [intros; congruence|].
    intros m' s1' dyn' mc' s2' E1 E2. inversion E1; subst.
    rewrite Ha in E2. inversion E2; subst. cbn zeta.
    repeat split; intros; congruence.
Qed.

(** A comparison that raises is caught: the verdict is server-rendered. *)
Example classification_survives_exception :
  fst (_classify_rendering_type
         (fun _ _ => raise (mk_exception "TypeError" [TypeError] "object has no len()"))
         (fun _ => ret (false, 0)) "" "" ["React"] O
         (snd (TestWorld.detector 3 (TestWorld.start []))))
  = Ok (RenderingType_value SERVER_SIDE_RENDERED).
Proof. reflexivity. Qed.

(** One modern framework and nothing else scores 0.5, in the ambiguous
    band, and the first tie-breaker decides. *)
Example modern_framework_breaks_tie :
  _calculate_weighted_score (DetectionMetrics_init 0) ["React"] false 0 = 0.5%float
  /\ fst (_classify_rendering_type
            (fun a b => ret (_compare_content a b)) _analyze_dynamic_content
            "<html></html>" "<html></html>" ["React"] O
            (snd (TestWorld.detector 3 (TestWorld.start []))))
     = Ok (RenderingType_value CLIENT_SIDE_RENDERED).
Proof. split; reflexivity. Qed.

(** ** The failure classifier *)

Lemma isinstance_dup (e : Exception) (c : ExcClass) :
  isinstance e [c; c] = isinstance e [c].
Proof.
  unfold isinstance. cbn. destruct (bool_decide (c ∈ exc_classes e)); reflexivity.
Qed.

(** The table read top to bottom is the cascade of the code. *)
Lemma category_of_unfold (e : Exception) :
  category_of e =
  let error_message := lower (exc_str e) in
  if _is_dns_error e error_message then DNS_ERROR
  else if _is_ssl_error e error_message then SSL_ERROR
  else if _is_timeout_error e error_message then TIMEOUT_ERROR
  else if _is_browser_error e error_message then BROWSER_ERROR
  else if _is_http_error e error_message then HTTP_ERROR
  else if _is_parse_error e error_message then PARSE_ERROR
  else if _is_network_error e error_message then NETWORK_ERROR
  else UNKNOWN_ERROR.
Proof.
  unfold category_of, rules, first_match, rule_matches, type_or_phrase,
    _is_dns_error, _is_ssl_error, _is_timeout_error, _is_browser_error,
    _is_http_error, _is_parse_error, _is_network_error, no_extra.
  cbn [rule_category rule_classes rule_phrases rule_extra].
  rewrite isinstance_dup, !orb_false_r. reflexivity.
Qed.

(** The classifier always returns, and what it returns depends on the
    exception only; the handler state changes by a log line at most. *)
Lemma categorize_error_run (e : Exception) (u : string) (h : ErrorHandler) :
  exists h', categorize_error e u h = (Ok (category_of e), h').
Proof.
  rewrite category_of_unfold. unfold categorize_error. cbn zeta.
  destruct (_is_dns_error _ _); [eexists; reflexivity|].
  destruct (_is_ssl_error _ _); [eexists; reflexivity|].
  destruct (_is_timeout_error _ _); [eexists; reflexivity|].
  destruct (_is_browser_error _ _); [eexists; reflexivity|].
  destruct (_is_http_error _ _); [eexists; reflexivity|].
  destruct (_is_parse_error _ _); [eexists; reflexivity|].
  destruct (_is_network_error _ _); eexists; reflexivity.
Qed.

Lemma first_match_spec (test : Rule -> Exception -> bool) (rs : list Rule)
    (e : Exception) :
  (first_match test rs e = UNKNOWN_ERROR /\ Forall (fun r => test r e = false) rs)
  \/ exists before r after,
       rs = before ++ r :: after /\ first_match test rs e = rule_category r
       /\ test r e = true /\ Forall (fun r' => test r' e = false) before.
Proof.
  induction rs as [|r rs IH]; cbn [first_match].
  - left. split; [reflexivity | constructor].
  - destruct (test r e) eqn:Ht.
    + right. exists [], r, rs. repeat split; auto.
    + destruct IH as [[Hu Hall]|(before & r' & after & -> & Hc & Hm & Hb)].
      * left. split; [assumption|]. constructor; assumption.
      * right. exists (r :: before), r', after. repeat split; auto.
Qed.

(** C6, as the claim words it, fails: the message "error 418" matches no
    structural test and no phrase of any rule, yet the code classifies it
    as an HTTP error, through the status-code pattern of its HTTP rule. *)
Lemma status_code_pattern_beyond_phrases :
  fst (categorize_error TestWorld.teapot "" ErrorHandler_init) = Ok HTTP_ERROR
  /\ spec_classify TestWorld.teapot = UNKNOWN_ERROR
  /\ fst (categorize_error TestWorld.teapot "" ErrorHandler_init)
     <> Ok (spec_classify TestWorld.teapot).
Proof.
  split; [vm_compute; reflexivity|]. split; [vm_compute; reflexivity|].
  vm_compute. discriminate.
Qed.

(** C6, amended.  The classifier is total: for every exception, URL and
    handler state it returns a category.  The rules are tried in the order
    DNS, SSL, timeout, browser, HTTP, parse, network, and the category
    returned is that of the first rule whose test holds, where a rule's test
    is its structural-type test, its case-insensitive phrase test or, for
    the HTTP rule, the three-digit 4xx/5xx status-code pattern; it is
    unknown exactly when no rule's test holds. *)
Theorem categorize_error_first_match (e : Exception) (u : string) (h : ErrorHandler) :
  (exists h', categorize_error e u h = (Ok (category_of e), h'))
  /\ map rule_category rules
     = [DNS_ERROR; SSL_ERROR; TIMEOUT_ERROR; BROWSER_ERROR; HTTP_ERROR;
        PARSE_ERROR; NETWORK_ERROR]
  /\ ((category_of e = UNKNOWN_ERROR /\ Forall (fun r => rule_matches r e = false) rules)
      \/ exists before r after,
           rules = before ++ r :: after /\ category_of e = rule_category r
           /\ rule_matches r e = true
           /\ Forall (fun r' => rule_matches r' e = false) before).
Proof.
  split; [apply categorize_error_run|]. split; [reflexivity|].
  apply first_match_spec.
Qed.

Lemma isinstance_ext (e1 e2 : Exception) (cs : list ExcClass) :
  (forall c, c ∈ exc_classes e1 <-> c ∈ exc_classes e2) ->
  isinstance e1 cs = isinstance e2 cs.
Proof.
  intros Hc. unfold isinstance. induction cs as [|c cs IH]; [reflexivity|].
  cbn [existsb]. rewrite IH. f_equal. apply bool_decide_ext, Hc.
Qed.

Lemma category_of_ext (e1 e2 : Exception) :
  (forall c, c ∈ exc_classes e1 <-> c ∈ exc_classes e2) ->
  exc_str e1 = exc_str e2 -> category_of e1 = category_of e2.
Proof.
  intros Hc Hs. unfold category_of.
  induction rules as [|r rs IH]; [reflexivity|].
  cbn [first_match]. rewrite IH.
  unfold rule_matches, type_or_phrase. rewrite Hs, (isinstance_ext e1 e2 _ Hc).
  reflexivity.
Qed.

(** C9, as the claim words it, fails: a [ValueError] and a [RuntimeError]
    carrying the same message are classified differently, the first by
    the structural test of the parse rule. *)
Lemma same_message_different_category :
  exc_str TestWorld.boom_value = exc_str TestWorld.boom_runtime
  /\ fst (categorize_error TestWorld.boom_value "" ErrorHandler_init)
     <> fst (categorize_error TestWorld.boom_runtime "" ErrorHandler_init).
Proof. split; [reflexivity|]. vm_compute. discriminate. Qed.

(** C9, amended.  For every two exceptions that are instances of the same
    classes and carry the same message, classified for any URLs and in any
    handler states (so after any history of prior calls, in any order),
    [categorize_error] returns the same category, and the retryability
    predicate gives the same answer on it. *)
Theorem categorize_error_deterministic (e1 e2 : Exception) (u1 u2 : string)
    (h1 h2 : ErrorHandler) :
  (forall c, c ∈ exc_classes e1 <-> c ∈ exc_classes e2) ->
  exc_str e1 = exc_str e2 ->
  fst (categorize_error e1 u1 h1) = fst (categorize_error e2 u2 h2)
  /\ fst (categorize_error e1 u1 h1) = Ok (category_of e1)
  /\ ErrorHandler_should_retry (category_of e1)
     = ErrorHandler_should_retry (category_of e2).
Proof.
  intros Hc Hs.
  destruct (categorize_error_run e1 u1 h1) as [h1' ->].
  destruct (categorize_error_run e2 u2 h2) as [h2' ->].
  cbn [fst]. rewrite (category_of_ext e1 e2 Hc Hs). auto.
Qed.

Lemma categorize_error_deterministic_witness :
  fst (categorize_error TestWorld.boom_value "a" ErrorHandler_init)
  = fst (categorize_error TestWorld.boom_value "b"
           (snd (categorize_error TestWorld.teapot "" ErrorHandler_init)))
  /\ fst (categorize_error TestWorld.boom_value "a" ErrorHandler_init)
     = Ok (category_of TestWorld.boom_value)
  /\ ErrorHandler_should_retry (category_of TestWorld.boom_value)
     = ErrorHandler_should_retry (category_of TestWorld.boom_value).
Proof.
  apply (categorize_error_deterministic TestWorld.boom_value TestWorld.boom_value).
  - intros c. reflexivity.
  - reflexivity.
Defined.

(** ** The back-off policy *)

Lemma py_pow_nonneg (x : Q) (n : Z) : 0 <= n -> py_pow x n = Ok (x ^ n)%Q.
Proof.
  intros Hn. unfold py_pow.
  destruct (n <? 0) eqn:E; [apply Z.ltb_lt in E; lia | reflexivity].
Qed.

Lemma py_pow_ge_one (x : Q) (n : Z) : (1 <= x)%Q -> py_pow x n = Ok (x ^ n)%Q.
Proof.
  intros Hx. unfold py_pow.
  destruct (Qeq_bool x 0) eqn:E; [|rewrite andb_false_r; reflexivity].
  apply Qeq_bool_eq in E. rewrite E in Hx. exfalso. apply Hx. reflexivity.
Qed.

Lemma get_backoff_delay_from_one (self : RetryManager) (attempt : Z) :
  1 <= attempt ->
  get_backoff_delay self attempt
  = Ok (backoff_base (config self) * backoff_multiplier (config self) ^ (attempt - 1))%Q.
Proof.
  intros Ha. unfold get_backoff_delay, RetryConfig_get_backoff_delay.
  destruct (attempt <=? 0) eqn:E; [apply Z.leb_le in E; lia|].
  rewrite py_pow_nonneg by lia. reflexivity.
Qed.

Lemma get_backoff_delay_total (self : RetryManager) (attempt : Z) :
  (1 <= backoff_multiplier (config self))%Q ->
  get_backoff_delay self attempt
  = Ok (if attempt <=? 0 then 0
        else backoff_base (config self) * backoff_multiplier (config self) ^ (attempt - 1))%Q.
Proof.
  intros Hm. unfold get_backoff_delay, RetryConfig_get_backoff_delay.
  destruct (attempt <=? 0); [reflexivity|].
  rewrite py_pow_ge_one by assumption. reflexivity.
Qed.

Lemma get_backoff_delay_ok (rm : RetryManager) (attempt : Z) :
  1 <= attempt -> exists d, get_backoff_delay rm attempt = Ok d.
Proof.
  intros Ha. rewrite get_backoff_delay_from_one by assumption. eexists; reflexivity.
Qed.

(** The delay in exact arithmetic, without rounding and without overflow:
    for every attempt number of at least 1 it is the base times the
    multiplier to the power attempt - 1; it is 0 for an attempt number of 0
    or less; the delay of attempt 1 is the base; and for a base of at least
    0 and a multiplier of at least 1 the delay never decreases as the
    attempt number grows. *)
Lemma backoff_delay_law (self : RetryManager) :
  (forall attempt, 1 <= attempt ->
     get_backoff_delay self attempt
     = Ok (backoff_base (config self)
           * backoff_multiplier (config self) ^ (attempt - 1))%Q)
  /\ (forall attempt, attempt <= 0 -> get_backoff_delay self attempt = Ok 0%Q)
  /\ get_backoff_delay self 1 = Ok (backoff_base (config self))
  /\ ((0 <= backoff_base (config self))%Q ->
      (1 <= backoff_multiplier (config self))%Q ->
      forall a b, a <= b ->
        exists da db, get_backoff_delay self a = Ok da
                      /\ get_backoff_delay self b = Ok db /\ (da <= db)%Q).
Proof.
  split; [apply get_backoff_delay_from_one|]. split; [|split].
  - intros attempt Ha. unfold get_backoff_delay.
    destruct (attempt <=? 0) eqn:E; [reflexivity | apply Z.leb_gt in E; lia].
  - rewrite get_backoff_delay_from_one by lia. cbn.
    destruct (backoff_base (config self)) as [n d]. unfold Qmult. cbn.
    rewrite Z.mul_1_r, Pos.mul_1_r. reflexivity.
  - intros Hb Hm a b Hab.
    rewrite !get_backoff_delay_total by assumption.
    do 2 eexists. split; [reflexivity|]. split; [reflexivity|].
    destruct (a <=? 0) eqn:Ea, (b <=? 0) eqn:Eb.
    + apply Qle_refl.
    + apply Qmult_le_0_compat; [assumption|].
      apply Qpower_0_le. eapply Qle_trans; [|exact Hm]. discriminate.
    + apply Z.leb_gt in Ea. apply Z.leb_le in Eb. lia.
    + apply Qmult_le_compat_nonneg.
      * split; [assumption | apply Qle_refl].
      * split; [apply Qpower_0_le; eapply Qle_trans; [|exact Hm]; discriminate|].
        apply Qpower_le_compat_l; [lia | assumption].
Qed.

Lemma backoff_delay_law_witness :
  get_backoff_delay (RetryManager_init RetryConfig_default) 3 = Ok (1 * 2 ^ 2)%Q
  /\ get_backoff_delay (RetryManager_init RetryConfig_default) 0 = Ok 0%Q
  /\ get_backoff_delay (RetryManager_init RetryConfig_default) 1 = Ok 1%Q
  /\ exists da db,
       get_backoff_delay (RetryManager_init RetryConfig_default) 2 = Ok da
       /\ get_backoff_delay (RetryManager_init RetryConfig_default) 3 = Ok db
       /\ (da <= db)%Q.
Proof.
  destruct (backoff_delay_law (RetryManager_init RetryConfig_default))
    as (H1 & H2 & H3 & H4).
  split; [apply (H1 3); lia|]. split; [apply (H2 0); lia|]. split; [exact H3|].
  apply (H4 ltac:(discriminate) ltac:(discriminate) 2 3). lia.
Defined.

(** *** The delay in binary64 *)






Section binary64_backoff.

(** The platform's [pow], of which two things are assumed: it is exact on
    the powers of 2.0 that are doubles, and it overflows on the others. *)
Variable pow : float -> Z -> float.
Hypothesis pow_two_exact : forall k, 1 <= k <= 1023 -> pow 2.0 k = Z.ldexp 1 k.
Hypothesis pow_two_overflow : forall k, 1024 <= k -> pow 2.0 k = infinity.






End binary64_backoff.



(** ** The retry orchestrator *)

Lemma log_error_run (u : string) (c : ErrorCategory) (m : string)
    (d : option LogDetails) (h : ErrorHandler) :
  exists h', log_error u c m d h = (Ok tt, h').
Proof.
  unfold log_error.
  repeat match goal with
         | |- context [if ?b then _ else _] => destruct b
         | |- context [match ?o with Some _ => _ | None => _ end] => destruct o
         end; eexists; reflexivity.
Qed.

Lemma should_retry_false (cfg : RetryConfig) (hs : gmap string RetryHistory)
    (c : ErrorCategory) (attempt : Z) :
  non_retryable cfg c ->
  should_retry {| config := cfg; retry_histories := hs |} c attempt = false.
Proof.
  intros [Hin|Hs]; unfold should_retry; cbn [config].
  - destruct (_ <=? _); [reflexivity|].
    rewrite bool_decide_eq_true_2 by assumption. reflexivity.
  - destruct (_ <=? _); [reflexivity|].
    destruct (bool_decide _); [reflexivity | assumption].
Qed.

Lemma should_retry_true (cfg : RetryConfig) (hs : gmap string RetryHistory)
    (c : ErrorCategory) (attempt : Z) :
  retryable cfg c -> attempt < max_attempts cfg ->
  should_retry {| config := cfg; retry_histories := hs |} c attempt = true.
Proof.
  intros [Hin Hs] Hlt. unfold should_retry; cbn [config].
  destruct (_ <=? _) eqn:E; [apply Z.leb_le in E; lia|].
  rewrite bool_decide_eq_false_2 by assumption. assumption.
Qed.

Lemma call_func_invoke {X A : Type} (op : nat -> RetryManager -> Py (ErrorHandler * X) A)
    (rm : RetryManager) (eh : ErrorHandler) (x : X) (k : nat) :
  call_func (invoke op) (rm, (eh, (x, k)))
  = (fst (op k rm (eh, x)),
     (rm, (fst (snd (op k rm (eh, x))), (snd (snd (op k rm (eh, x))), S k)))).
Proof.
  unfold call_func, invoke. cbn [fst snd].
  destruct (op k rm (eh, x)) as [r [eh' x']]. reflexivity.
Qed.

Section single_attempt.
Context {X A : Type} `{Clock X}.
Variable op : nat -> RetryManager -> Py (ErrorHandler * X) A.

(** C5.  For every operation whose first failure classifies into a
    category that the fixed rule rejects (DNS, SSL, parse) or that is in the
    configured non-retryable set, and for every attempt limit of at least
    1, [execute_with_retry] invokes the operation exactly once and raises
    that very failure; the history records one attempt, one failed-attempt
    record and the final error. *)
Theorem non_retryable_failure_single_attempt (arg0 : option string) (rm : RetryManager) (eh : ErrorHandler)
    (x : X) (n0 : nat) (e : Exception) :
  1 <= max_attempts (config rm) ->
  (forall rm' w, fst (op n0 rm' w) = Raise e) ->
  non_retryable (config rm) (category_of e) ->
  exists s' h,
    execute_with_retry (invoke op) arg0 (rm, (eh, (x, n0))) = (Raise e, s')
    /\ invocations s' = S n0
    /\ retry_histories (fst s') !! key_of arg0 = Some h
    /\ total_attempts h = 1
    /\ length (attempts h) = 1%nat
    /\ success h = false
    /\ final_error h
       = Some (ErrorCategory_value (category_of e) +:+ ": " +:+ exc_str e)%string.
Proof.
  intros Hmax Hop Hnr.
  unfold execute_with_retry. fold (key_of arg0). set (key := key_of arg0).
  destruct (Z.to_nat (max_attempts (config rm))) as [|rem] eqn:Hrem; [lia|].
  destruct rm as [cfg hs]. cbn [config] in *.
  unfold bind, store, modify, get. cbn [fst snd config retry_histories].
  rewrite Hrem. cbn [retry_loop].
  unfold bind, try_except, store, modify, get.
  cbn [fst snd config retry_histories]. rewrite call_func_invoke.
  match goal with |- context [op n0 ?r ?w] =>
    specialize (Hop r w); destruct (op n0 r w) as [res [eh1 x1]] end.
  cbn [fst] in Hop. subst res. cbn [fst snd].
  unfold on_handler, zoom. cbn [fst snd].
  destruct (categorize_error_run e key eh1) as [eh2 ->].
  match goal with |- context [log_error ?a ?b ?c ?d ?h] =>
    destruct (log_error_run a b c d h) as [eh3 ->] end.
  unfold now. cbn [fst snd time_time Clock_counted].
  destruct (time_time x1) as [t x2].
  rewrite should_retry_false by assumption. cbn [negb].
  unfold bind, store, modify, after_loop, raise. cbn [fst snd config retry_histories].
  do 2 eexists. split; [reflexivity|].
  cbn [fst snd invocations config retry_histories].
  split; [reflexivity|]. split; [apply lookup_insert_eq|].
  cbn. repeat split.
Qed.
End single_attempt.

Section fail_then_succeed.
Context {X A : Type} `{Clock X}.
Variable op : nat -> RetryManager -> Py (ErrorHandler * X) A.

Lemma retry_loop_succeeds (cfg : RetryConfig) (key : string) (N : nat) (v : A) :
  (1 <= N)%nat -> Z.of_nat N <= max_attempts cfg ->
  (forall k rm' w, (k < N - 1)%nat ->
     exists e, fst (op k rm' w) = Raise e /\ retryable cfg (category_of e)) ->
  (forall rm' w, fst (op (N - 1) rm' w) = Ok v) ->
  forall (j remaining : nat) (attempt : Z) (history : RetryHistory)
         (last_exception : option Exception) (hs : gmap string RetryHistory)
         (eh : ErrorHandler) (x : X) (k : nat),
    (k + j = N - 1)%nat -> attempt = Z.of_nat k + 1 -> (j < remaining)%nat ->
    length (attempts history) = k ->
    exists s' h,
      retry_loop (invoke op) remaining attempt key history last_exception
        ({| config := cfg; retry_histories := hs |}, (eh, (x, k))) = (Ok v, s')
      /\ invocations s' = N
      /\ retry_histories (fst s') !! key = Some h
      /\ total_attempts h = Z.of_nat N
      /\ success h = true
      /\ length (attempts h) = (N - 1)%nat.
Proof.
  intros HN Hmax Hfail Hok.
  induction j as [|j IH]; intros remaining attempt history last_exception hs eh x k
    Hk Hatt Hrem Hlen;
    (destruct remaining as [|remaining]; [lia|]); cbn [retry_loop];
    unfold bind, try_except, store, modify, get;
    cbn [fst snd config retry_histories]; rewrite call_func_invoke.
  - (* the successful invocation *)
    assert (k = (N - 1)%nat) as -> by lia.
    match goal with |- context [op (N - 1)%nat ?r ?w] =>
      pose proof (Hok r w) as Hr; destruct (op (N - 1)%nat r w) as [res [eh1 x1]] end.
    cbn [fst] in Hr. subst res. cbn [fst snd].
    unfold ret. do 2 eexists. split; [reflexivity|].
    cbn [fst snd invocations config retry_histories].
    split; [lia|]. split; [apply lookup_insert_eq|].
    cbn [total_attempts success attempts set_success set_total_attempts].
    repeat split; lia.
  - (* a failing invocation that is retried *)
    match goal with |- context [op k ?r ?w] =>
      destruct (Hfail k r w ltac:(lia)) as (e & Hr & Hretry);
      destruct (op k r w) as [res [eh1 x1]] end.
    cbn [fst] in Hr. subst res. cbn [fst snd].
    unfold on_handler, zoom. cbn [fst snd].
    destruct (categorize_error_run e key eh1) as [eh2 ->].
    match goal with |- context [log_error ?a ?b ?c ?d ?h] =>
      destruct (log_error_run a b c d h) as [eh3 ->] end.
    unfold now. cbn [fst snd time_time Clock_counted].
    destruct (time_time x1) as [t x2].
    rewrite should_retry_true by (assumption || lia).
    cbn [negb fst snd config retry_histories].
    destruct (max_attempts cfg <=? attempt) eqn:E; [apply Z.leb_le in E; lia|].
    unfold bind, lift_res.
    match goal with |- context [get_backoff_delay ?r attempt] =>
      destruct (get_backoff_delay_ok r attempt ltac:(lia)) as [d ->] end.
    unfold store, modify, sleep. cbn [fst snd config retry_histories].
    destruct (Qlt_le_dec 0 d); unfold modify, ret; cbn [fst snd time_sleep Clock_counted];
      apply IH; try lia; cbn [attempts add_attempt set_total_attempts];
      rewrite length_app; cbn [length]; lia.
Qed.

(** C4, amended.  For every operation that fails on each of its first
    N - 1 invocations with retryable failures and succeeds on the N-th,
    under an attempt limit of at least N, [execute_with_retry] returns the
    success value after exactly N invocations; the history filed under the
    operation's key has [total_attempts] = N and is marked successful, the
    retry count derived from it is N - 1, and it holds N - 1 attempt
    records, one per failed attempt. *)
Theorem fail_then_succeed_retry (arg0 : option string) (rm : RetryManager) (eh : ErrorHandler)
    (x : X) (N : nat) (v : A) :
  (1 <= N)%nat -> Z.of_nat N <= max_attempts (config rm) ->
  (forall k rm' w, (k < N - 1)%nat ->
     exists e, fst (op k rm' w) = Raise e /\ retryable (config rm) (category_of e)) ->
  (forall rm' w, fst (op (N - 1) rm' w) = Ok v) ->
  exists s' h,
    execute_with_retry (invoke op) arg0 (rm, (eh, (x, O))) = (Ok v, s')
    /\ invocations s' = N
    /\ retry_histories (fst s') !! key_of arg0 = Some h
    /\ total_attempts h = Z.of_nat N
    /\ success h = true
    /\ length (attempts h) = (N - 1)%nat
    /\ retry_count_of (Some h) = Z.of_nat N - 1.
Proof.
  intros HN Hmax Hfail Hok.
  unfold execute_with_retry. fold (key_of arg0).
  destruct rm as [cfg hs]. cbn [config] in *.
  unfold bind, store, modify, get. cbn [fst snd config retry_histories].
  destruct (retry_loop_succeeds cfg (key_of arg0) N v HN Hmax Hfail Hok
              (N - 1) (Z.to_nat (max_attempts cfg)) 1 (RetryHistory_init (key_of arg0))
              None (<[key_of arg0 := RetryHistory_init (key_of arg0)]> hs) eh x O)
    as (s' & h & Hrun & Hinv & Hlook & Htot & Hsucc & Hlen); try lia; [reflexivity|].
  exists s', h. repeat split; try assumption.
  unfold retry_count_of. rewrite Htot. lia.
Qed.
End fail_then_succeed.

Section any_operation.
Context {X A : Type} `{Clock X}.
Variable func : RetryManager -> Py (ErrorHandler * X) A.

Lemma retry_loop_bounds (cfg : RetryConfig) (key : string) :
  forall (remaining : nat) (attempt : Z) (history : RetryHistory)
         (last_exception : option Exception) (hs : gmap string RetryHistory)
         (w : ErrorHandler * X),
    1 <= attempt ->
    attempt + Z.of_nat remaining = max_attempts cfg + 1 ->
    total_attempts history = attempt - 1 ->
    hs !! key = Some history ->
    exists r s' h,
      retry_loop func remaining attempt key history last_exception
        ({| config := cfg; retry_histories := hs |}, w) = (r, s')
      /\ config (fst s') = cfg
      /\ retry_histories (fst s') !! key = Some h
      /\ (remaining = O -> total_attempts h = attempt - 1)
      /\ (remaining <> O -> attempt <= total_attempts h <= max_attempts cfg)
      /\ (forall v, r = Ok v -> exists rm' w0 w1, func rm' w0 = (Ok v, w1)).
Proof.
  induction remaining as [|remaining IH];
    intros attempt history last_exception hs w Ha Hsum Htot Hlook.
  - cbn [retry_loop]. unfold after_loop, raise.
    destruct last_exception; do 3 eexists; (split; [reflexivity|]);
      cbn [fst config retry_histories];
      (split; [reflexivity|]); (split; [exact Hlook|]);
      (split; [auto|]); (split; [congruence | discriminate]).
  - cbn [retry_loop].
    unfold bind, try_except, store, modify, get, call_func.
    cbn [fst snd config retry_histories].
    match goal with |- context [func ?r w] =>
      destruct (func r w) as [[v|e] [eh1 x1]] eqn:Hf end; cbn [fst snd].
    + unfold ret. do 3 eexists. split; [reflexivity|].
      cbn [fst snd config retry_histories].
      split; [reflexivity|]. split; [apply lookup_insert_eq|].
      cbn [total_attempts set_success set_total_attempts].
      split; [discriminate|]. split; [lia|].
      intros v' Hv. inversion Hv; subst. eauto.
    + unfold on_handler, zoom. cbn [fst snd].
      destruct (categorize_error_run e key eh1) as [eh2 ->].
      match goal with |- context [log_error ?a ?b ?c ?d ?h] =>
        destruct (log_error_run a b c d h) as [eh3 ->] end.
      unfold now. cbn [fst snd].
      destruct (time_time x1) as [t x2].
      cbn [fst snd config retry_histories].
      match goal with |- context [negb ?b] => destruct b end; cbn [negb].
      2:{ unfold bind, store, modify, after_loop, raise.
          cbn [fst snd config retry_histories].
          do 3 eexists. split; [reflexivity|].
          cbn [fst snd config retry_histories].
          split; [reflexivity|]. split; [apply lookup_insert_eq|].
          cbn [total_attempts set_final_error add_attempt set_total_attempts].
          split; [discriminate|]. split; [lia | discriminate]. }
      destruct (max_attempts cfg <=? attempt) eqn:E.
      { unfold bind, store, modify, after_loop, raise.
        cbn [fst snd config retry_histories].
        do 3 eexists. split; [reflexivity|].
        cbn [fst snd config retry_histories].
        split; [reflexivity|]. split; [apply lookup_insert_eq|].
        cbn [total_attempts set_final_error add_attempt set_total_attempts].
        split; [discriminate|]. split; [lia | discriminate]. }
      apply Z.leb_gt in E.
      unfold bind, lift_res.
      match goal with |- context [get_backoff_delay ?r attempt] =>
        destruct (get_backoff_delay_ok r attempt ltac:(lia)) as [d ->] end.
      unfold store, modify, sleep. cbn [fst snd config retry_histories].
      destruct (Qlt_le_dec 0 d); unfold modify, ret; cbn [fst snd config retry_histories];
        match goal with
        | |- context [retry_loop func remaining (attempt + 1) key ?h' ?l
                        ({| config := cfg; retry_histories := ?hs' |}, ?w')] =>
            destruct (IH (attempt + 1) h' l hs' w')
              as (r & s' & h & Hrun & Hcfg & Hlk & H0 & H1 & Hv);
            [lia | lia | cbn; lia | apply lookup_insert_eq |]
        end;
        rewrite Hrun; exists r, s', h; (split; [reflexivity|]);
        (split; [assumption|]); (split; [assumption|]);
        (split; [discriminate|]); (split; [|assumption]);
        intros _; (destruct remaining;
                   [specialize (H0 eq_refl) | specialize (H1 ltac:(discriminate))]); lia.
Qed.

Lemma execute_with_retry_bounds (arg0 : option string) (rm : RetryManager)
    (w : ErrorHandler * X) :
  exists r s' h,
    execute_with_retry func arg0 (rm, w) = (r, s')
    /\ config (fst s') = config rm
    /\ retry_histories (fst s') !! key_of arg0 = Some h
    /\ 0 <= total_attempts h
    /\ (1 <= max_attempts (config rm) ->
        1 <= total_attempts h <= max_attempts (config rm))
    /\ (forall v, r = Ok v -> exists rm' w0 w1, func rm' w0 = (Ok v, w1)).
Proof.
  unfold execute_with_retry. fold (key_of arg0).
  destruct rm as [cfg hs]. unfold bind, store, modify, get.
  cbn [fst snd config retry_histories].
  destruct (Z_le_gt_dec (max_attempts cfg) 0) as [Hle|Hgt].
  - replace (Z.to_nat (max_attempts cfg)) with O by lia.
    cbn [retry_loop]. unfold after_loop, raise.
    do 3 eexists. split; [reflexivity|]. cbn [fst snd config retry_histories].
    split; [reflexivity|]. split; [apply lookup_insert_eq|].
    cbn. split; [lia|]. split; [lia | discriminate].
  - destruct (retry_loop_bounds cfg (key_of arg0) (Z.to_nat (max_attempts cfg)) 1
                (RetryHistory_init (key_of arg0)) None
                (<[key_of arg0 := RetryHistory_init (key_of arg0)]> hs) w)
      as (r & s' & h & Hrun & Hcfg & Hlk & H0 & H1 & Hv);
      [lia | lia | reflexivity | apply lookup_insert_eq |].
    rewrite Hrun. exists r, s', h. split; [reflexivity|].
    split; [assumption|]. split; [assumption|].
    assert (Z.to_nat (max_attempts cfg) <> O) as Hne by lia.
    specialize (H1 Hne). split; [lia|]. split; [intros; lia | assumption].
Qed.
End any_operation.

Section counted_operation.
Context {X A : Type} `{Clock X}.
Variable op : nat -> RetryManager -> Py (ErrorHandler * X) A.

Lemma retry_loop_counts (cfg : RetryConfig) (key : string) :
  forall (remaining : nat) (attempt : Z) (history : RetryHistory)
         (last_exception : option Exception) (hs : gmap string RetryHistory)
         (eh : ErrorHandler) (x : X) (k : nat),
    attempt = Z.of_nat k + 1 ->
    total_attempts history = Z.of_nat k ->
    hs !! key = Some history ->
    exists r s' h,
      retry_loop (invoke op) remaining attempt key history last_exception
        ({| config := cfg; retry_histories := hs |}, (eh, (x, k))) = (r, s')
      /\ retry_histories (fst s') !! key = Some h
      /\ total_attempts h = Z.of_nat (invocations s').
Proof.
  induction remaining as [|remaining IH];
    intros attempt history last_exception hs eh x k Ha Htot Hlook.
  - cbn [retry_loop]. unfold after_loop, raise.
    destruct last_exception; do 3 eexists; (split; [reflexivity|]);
      cbn [fst snd invocations config retry_histories]; (split; [exact Hlook | exact Htot]).
  - cbn [retry_loop].
    unfold bind, try_except, store, modify, get.
    cbn [fst snd config retry_histories]. rewrite call_func_invoke.
    match goal with |- context [op k ?r ?w] =>
      destruct (op k r w) as [[v|e] [eh1 x1]] end; cbn [fst snd].
    + unfold ret. do 3 eexists. split; [reflexivity|].
      cbn [fst snd invocations config retry_histories].
      split; [apply lookup_insert_eq|]. cbn. lia.
    + unfold on_handler, zoom. cbn [fst snd].
      destruct (categorize_error_run e key eh1) as [eh2 ->].
      match goal with |- context [log_error ?a ?b ?c ?d ?h] =>
        destruct (log_error_run a b c d h) as [eh3 ->] end.
      unfold now. cbn [fst snd time_time Clock_counted].
      destruct (time_time x1) as [t x2].
      cbn [fst snd config retry_histories].
      match goal with |- context [negb ?b] => destruct b end; cbn [negb].
      2:{ unfold bind, store, modify, after_loop, raise.
          cbn [fst snd config retry_histories].
          do 3 eexists. split; [reflexivity|].
          cbn [fst snd invocations config retry_histories].
          split; [apply lookup_insert_eq|]. cbn. lia. }
      destruct (max_attempts cfg <=? attempt) eqn:E.
      { unfold bind, store, modify, after_loop, raise.
        cbn [fst snd config retry_histories].
        do 3 eexists. split; [reflexivity|].
        cbn [fst snd invocations config retry_histories].
        split; [apply lookup_insert_eq|]. cbn. lia. }
      unfold bind, lift_res.
      match goal with |- context [get_backoff_delay ?r attempt] =>
        destruct (get_backoff_delay_ok r attempt ltac:(lia)) as [d ->] end.
      unfold store, modify, sleep. cbn [fst snd config retry_histories].
      destruct (Qlt_le_dec 0 d); unfold modify, ret;
        cbn [fst snd config retry_histories time_sleep Clock_counted];
        apply IH; try lia; cbn; try lia; apply lookup_insert_eq.
Qed.

(** Whatever the operation does and however the loop ends, the
    [total_attempts] that the orchestrator records is the number of times
    it invoked the operation. *)
Theorem recorded_attempts_are_invocations (arg0 : option string) (rm : RetryManager)
    (eh : ErrorHandler) (x : X) :
  exists r s' h,
    execute_with_retry (invoke op) arg0 (rm, (eh, (x, O))) = (r, s')
    /\ retry_histories (fst s') !! key_of arg0 = Some h
    /\ total_attempts h = Z.of_nat (invocations s').
Proof.
  unfold execute_with_retry. fold (key_of arg0).
  destruct rm as [cfg hs]. unfold bind, store, modify, get.
  cbn [fst snd config retry_histories].
  apply retry_loop_counts; [reflexivity | reflexivity | apply lookup_insert_eq].
Qed.
End counted_operation.

Lemma not_in_default_non_retryable (c : ErrorCategory) :
  c <> DNS_ERROR -> c <> SSL_ERROR -> c ∉ [DNS_ERROR; SSL_ERROR].
Proof.
  intros H1 H2 Hin. apply elem_of_cons in Hin as [->|Hin]; [congruence|].
  apply elem_of_cons in Hin as [->|Hin]; [congruence|].
  apply elem_of_nil in Hin. contradiction.
Qed.

Lemma non_retryable_failure_single_attempt_witness :
  exists s' h,
    execute_with_retry (invoke TestWorld.unresolvable) (Some "http://nowhere.invalid")
      (RetryManager_init RetryConfig_default,
       (ErrorHandler_init, (TestWorld.start [], O)))
    = (Raise TestWorld.unresolved, s')
    /\ invocations s' = 1%nat
    /\ retry_histories (fst s') !! "http://nowhere.invalid" = Some h
    /\ total_attempts h = 1
    /\ length (attempts h) = 1%nat
    /\ success h = false
    /\ final_error h
       = Some (ErrorCategory_value (category_of TestWorld.unresolved) +:+ ": "
               +:+ exc_str TestWorld.unresolved)%string.
Proof.
  apply (non_retryable_failure_single_attempt TestWorld.unresolvable
           (Some "http://nowhere.invalid")).
  - cbn. lia.
  - intros rm' w. reflexivity.
  - left. vm_compute. apply list_elem_of_here.
Defined.

(** C4, as the claim words it, fails: after one refused connection and a
    success, the history filed under the key holds one attempt record, not
    two; it is [total_attempts] that is 2. *)
Lemma history_records_failed_attempts_only :
  fst (execute_with_retry (invoke TestWorld.flaky) (Some "http://example.com")
         (RetryManager_init RetryConfig_default,
          (ErrorHandler_init, (TestWorld.start [], O)))) = Ok 7
  /\ (attempts <$> (retry_histories
        (fst (snd (execute_with_retry (invoke TestWorld.flaky) (Some "http://example.com")
                     (RetryManager_init RetryConfig_default,
                      (ErrorHandler_init, (TestWorld.start [], O))))))
        !! "http://example.com"))
     = Some [ {| attempt_number := 1; attempt_timestamp := 0%Q;
                 attempt_error_category := NETWORK_ERROR;
                 attempt_error_message := "connection refused";
                 delay_before_attempt := (1 * 2 ^ 0)%Q |} ]
  /\ length [ {| attempt_number := 1; attempt_timestamp := 0%Q;
                 attempt_error_category := NETWORK_ERROR;
                 attempt_error_message := "connection refused";
                 delay_before_attempt := (1 * 2 ^ 0)%Q |} ] <> 2%nat.
Proof.
  split; [vm_compute; reflexivity|]. split; [vm_compute; reflexivity|].
  cbn. discriminate.
Qed.

Lemma fail_then_succeed_retry_witness :
  exists s' h,
    execute_with_retry (invoke TestWorld.flaky) (Some "http://example.com")
      (RetryManager_init RetryConfig_default,
       (ErrorHandler_init, (TestWorld.start [], O)))
    = (Ok 7, s')
    /\ invocations s' = 2%nat
    /\ retry_histories (fst s') !! "http://example.com" = Some h
    /\ total_attempts h = 2
    /\ success h = true
    /\ length (attempts h) = 1%nat
    /\ retry_count_of (Some h) = 1.
Proof.
  apply (fail_then_succeed_retry TestWorld.flaky (Some "http://example.com")
           (RetryManager_init RetryConfig_default) ErrorHandler_init
           (TestWorld.start []) 2 7).
  - lia.
  - cbn. lia.
  - intros k rm' w Hk. assert (k = O) as -> by lia.
    exists TestWorld.refused. split; [reflexivity|].
    split; [|reflexivity].
    apply not_in_default_non_retryable; vm_compute; discriminate.
  - intros rm' w. reflexivity.
Defined.

(** ** The entry point *)

Section pool_never_raises.
Context {X : Type} `{Clock X} `{Browsers X}.

Lemma remove_browser_ok (b : handle) (s : PState X) :
  exists s', _remove_browser_from_pool b s = (Ok tt, s').
Proof.
  unfold _remove_browser_from_pool, bind, update_self, modify, try_except, on_world, ret.
  cbn [fst snd].
  destruct (browser_quit b (snd s)) as [[[]|e] x']; eexists; reflexivity.
Qed.

Lemma remove_each_ok (l : list handle) :
  forall s : PState X, exists s', remove_each l s = (Ok tt, s').
Proof.
  induction l as [|b l IH]; intros s; cbn [remove_each].
  - eexists; reflexivity.
  - unfold bind. destruct (remove_browser_ok b s) as [s1 ->]. apply IH.
Qed.

Lemma restart_each_ok (l : list handle) :
  forall s : PState X, exists s', restart_each l s = (Ok tt, s').
Proof.
  induction l as [|b l IH]; intros s; cbn [restart_each].
  - eexists; reflexivity.
  - unfold bind. destruct (remove_browser_ok b s) as [s1 ->].
    unfold update_self, modify. apply IH.
Qed.

Lemma cleanup_old_browsers_ok (s : PState X) :
  exists s', _cleanup_old_browsers s = (Ok tt, s').
Proof.
  unfold _cleanup_old_browsers, bind, pool_time, on_world, on_self.
  destruct (time_time (snd s)) as [t x']. cbn [fst snd].
  apply remove_each_ok.
Qed.

Lemma restart_sweep_ok (s : PState X) :
  exists s',
    (current_time <- pool_time ;;
     self <- on_self id ;;
     restart_each
       (filter (fun b => Is_true (worn_out self current_time b)) (_browser_pool self)))%py s
    = (Ok tt, s').
Proof.
  unfold bind, pool_time, on_world, on_self.
  destruct (time_time (snd s)) as [t x2]. cbn [fst snd].
  apply restart_each_ok.
Qed.

Lemma restart_browser_if_needed_ok (s : PState X) :
  exists s', restart_browser_if_needed s = (Ok tt, s').
Proof.
  unfold restart_browser_if_needed.
  unfold bind at 1. unfold on_world.
  destruct (memory_rss (snd s)) as [m x1]. cbn [fst snd].
  unfold bind at 1. unfold on_self at 1. cbn [fst snd].
  unfold bind at 1.
  destruct (_ <? _).
  - unfold bind at 1.
    destruct (cleanup_old_browsers_ok (fst s, x1)) as [s2 ->].
    unfold update_self at 1, modify. apply restart_sweep_ok.
  - unfold ret at 1. apply restart_sweep_ok.
Qed.
End pool_never_raises.

Section invalid_input.
Context {X : Type} `{Clock X} `{Browsers X} `{Web X}.

Lemma d_time_run (rm : RetryManager) (eh : ErrorHandler) (d : Detector) (x : X) :
  d_inner i_time (rm, (eh, (d, x)))
  = (Ok (fst (time_time x)), (rm, (eh, (d, snd (time_time x))))).
Proof.
  unfold d_inner, i_time, i_world. cbn [fst snd].
  destruct (time_time x). reflexivity.
Qed.

Lemma d_isoformat_run (rm : RetryManager) (eh : ErrorHandler) (d : Detector) (x : X) :
  d_inner i_isoformat (rm, (eh, (d, x)))
  = (Ok (fst (datetime_now_isoformat x)), (rm, (eh, (d, snd (datetime_now_isoformat x))))).
Proof.
  unfold d_inner, i_isoformat, i_world. cbn [fst snd].
  destruct (datetime_now_isoformat x). reflexivity.
Qed.

(** C10.  For every input that is the empty string, [None] or not a
    string, [detect_rendering_type] returns without raising a result that
    echoes the input, with verdict not-accessible, status failed, category
    parse error, message "Invalid URL format", retry count 0, no
    frameworks and no HTTP status; the retry manager, the error handler
    and the detector's own attributes (the browser pool among them) are
    left as they were, and the world has only been asked the time. *)
Theorem invalid_url_rejected_immediately (u : PyVal) (max_retries : option Z) (rm : RetryManager)
    (eh : ErrorHandler) (d : Detector) (x : X) :
  u = PyStr "" \/ u = PyNone \/ is_str u = false ->
  exists r x',
    detect_rendering_type u max_retries (rm, (eh, (d, x))) = (Ok r, (rm, (eh, (d, x'))))
    /\ x' = snd (datetime_now_isoformat (snd (time_time (snd (time_time x)))))
    /\ url r = u
    /\ rendering_type r = RenderingType_value NOT_ACCESSIBLE
    /\ status r = ProcessingStatus_value FAILED
    /\ error_category r = Some (ErrorCategory_value PARSE_ERROR)
    /\ error_message r = Some "Invalid URL format"
    /\ retry_count r = 0
    /\ frameworks r = []
    /\ http_status_code r = None.
Proof.
  intros Hu.
  assert (negb (truthy u) || negb (is_str u) = true) as Hinv.
  { destruct Hu as [->|[->|Hs]]; [reflexivity | reflexivity |].
    rewrite Hs. apply orb_true_r. }
  unfold detect_rendering_type, bind.
  rewrite d_time_run, Hinv, d_time_run, d_isoformat_run. unfold ret.
  do 2 eexists. split; [reflexivity|]. cbn. repeat split.
Qed.
End invalid_input.

Section result_invariants.
Context {X : Type} `{Clock X} `{Browsers X} `{Web X}.

Lemma internal_ok_shape (u : string) (start_time : Q) (rm : RetryManager)
    (w w' : IState X) (r : ProcessingResult) :
  _detect_rendering_type_internal u start_time rm w = (Ok r, w') ->
  status r = ProcessingStatus_value SUCCESS /\ error_category r = None.
Proof.
  unfold _detect_rendering_type_internal, bind, ret, raise. intros Hrun.
  repeat match type of Hrun with
         | context [let (_, _) := ?m in _] => destruct m as [[?|?] ?]
         | context [if ?b then _ else _] => destruct b
         end; try discriminate.
  inversion Hrun; subst. split; reflexivity.
Qed.

Lemma update_metrics_run (result : ProcessingResult) (ok : bool) (rm : RetryManager)
    (eh : ErrorHandler) (d : Detector) (x : X) :
  exists d', update_metrics result ok (rm, (eh, (d, x))) = (Ok tt, (rm, (eh, (d', x)))).
Proof. eexists. reflexivity. Qed.

Lemma d_restart_run (rm : RetryManager) (eh : ErrorHandler) (d : Detector) (x : X) :
  exists d' x', d_inner (i_pool restart_browser_if_needed) (rm, (eh, (d, x)))
                = (Ok tt, (rm, (eh, (d', x')))).
Proof.
  unfold d_inner, i_pool. cbn [fst snd].
  destruct (restart_browser_if_needed_ok (performance_optimizer d, x)) as [[p x'] ->].
  do 2 eexists. reflexivity.
Qed.

Lemma d_categorize_run (e : Exception) (u : string) (rm : RetryManager)
    (eh : ErrorHandler) (d : Detector) (x : X) :
  exists eh', d_inner (i_handler (categorize_error e u)) (rm, (eh, (d, x)))
              = (Ok (category_of e), (rm, (eh', (d, x)))).
Proof.
  unfold d_inner, i_handler, zoom. cbn [fst snd].
  destruct (categorize_error_run e u eh) as [eh' ->]. eexists. reflexivity.
Qed.

Lemma detect_with_retry_shape (u : PyVal) (text : string) (start_time : Q)
    (rm : RetryManager) (w : IState X) :
  exists r s' h,
    detect_with_retry u text start_time (rm, w)
    = (Ok r, s')
    /\ config (fst s') = config rm
    /\ retry_histories (fst s') !! text = Some h
    /\ retry_count r = Z.max 0 (total_attempts h - 1)
    /\ 0 <= total_attempts h
    /\ (1 <= max_attempts (config rm) -> 1 <= total_attempts h <= max_attempts (config rm))
    /\ (status r = ProcessingStatus_value FAILED <-> is_Some (error_category r))
    /\ (status r = ProcessingStatus_value FAILED -> frameworks r = []).
Proof.
  unfold detect_with_retry, try_except. unfold bind at 1.
  destruct (execute_with_retry_bounds (_detect_rendering_type_internal text start_time)
              (Some text) rm w)
    as (r0 & [rm1 [eh1 [d1 x1]]] & h & Hrun & Hcfg & Hlk & Hnn & Hb & Hok).
  cbn [key_of fst] in *. rewrite Hrun.
  destruct r0 as [result|e].
  - destruct (Hok result eq_refl) as (rm' & w0 & w1 & Hint).
    apply internal_ok_shape in Hint as [Hst Hcat].
    unfold bind, get. cbn [fst snd]. unfold get_retry_history. rewrite Hlk.
    cbn [retry_count_of].
    match goal with |- context [update_metrics ?r true _] =>
      destruct (update_metrics_run r true rm1 eh1 d1 x1) as [d2 ->] end.
    destruct (d_restart_run rm1 eh1 d2 x1) as (d3 & x3 & ->).
    unfold ret. do 3 eexists. split; [reflexivity|].
    cbn [fst retry_count set_retry_count status error_category frameworks].
    rewrite Hst, Hcat.
    split; [assumption|]. split; [eassumption|]. split; [reflexivity|].
    split; [assumption|]. split; [assumption|].
    split; [split; [discriminate | intros [? ?]; discriminate] | discriminate].
  - unfold bind at 1.
    destruct (d_categorize_run e text rm1 eh1 d1 x1) as [eh2 ->].
    unfold bind, get. cbn [fst snd]. unfold get_retry_history. rewrite Hlk.
    cbn [retry_count_of].
    rewrite d_time_run, d_isoformat_run.
    match goal with |- context [update_metrics ?r false (?a, (?b, (?c, ?d)))] =>
      destruct (update_metrics_run r false a b c d) as [d2 ->] end.
    unfold ret. do 3 eexists. split; [reflexivity|].
    cbn [fst retry_count status error_category frameworks].
    split; [assumption|]. split; [eassumption|]. split; [reflexivity|].
    split; [assumption|]. split; [assumption|].
    split; [split; [eauto | reflexivity] | reflexivity].
Qed.

(** C3, amended.  [detect_rendering_type] always returns a result, and
    every result has status failed if and only if an error category is
    present, has no frameworks when failed, and has a retry count that is
    at least 0 and, for an attempt limit of at least 1, below that limit.
    For an input that passes validation (and a limit of at least 1) the
    retry count is the recorded total of attempts minus 1, that total being
    at least 1; for an input that fails validation no attempt is made, the
    retry manager is untouched and the retry count is 0. *)
Theorem detect_result_invariants (u : PyVal) (max_retries : option Z) (s : DState X) :
  exists r s',
    detect_rendering_type u max_retries s = (Ok r, s')
    /\ (status r = ProcessingStatus_value FAILED <-> is_Some (error_category r))
    /\ (status r = ProcessingStatus_value FAILED -> frameworks r = [])
    /\ 0 <= retry_count r
    /\ (1 <= effective_max_attempts max_retries (fst s) ->
        retry_count r < effective_max_attempts max_retries (fst s))
    /\ (valid_url u = true -> 1 <= effective_max_attempts max_retries (fst s) ->
        exists h, retry_histories (fst s') !! with_protocol (str_of u) = Some h
                  /\ 1 <= total_attempts h
                  /\ retry_count r = total_attempts h - 1)
    /\ (valid_url u = false -> retry_count r = 0 /\ fst s' = fst s).
Proof.
  destruct s as [rm [eh [d x]]]. cbn [fst].
  unfold detect_rendering_type. unfold bind at 1. rewrite d_time_run.
  unfold valid_url.
  destruct (truthy u && is_str u) eqn:Hv.
  - replace (negb (truthy u) || negb (is_str u)) with false
      by (destruct (truthy u), (is_str u); auto; discriminate).
    set (text := with_protocol (str_of u)).
    unfold bind at 1.
    assert (exists rm2,
      override_max_retries max_retries text (rm, (eh, (d, snd (time_time x))))
      = (Ok tt, (rm2, (eh, (d, snd (time_time x)))))
      /\ max_attempts (config rm2) = effective_max_attempts max_retries rm)
      as (rm2 & -> & Hmax).
    { unfold override_max_retries, bind, get. cbn [fst].
      destruct max_retries as [n|]; cbn [effective_max_attempts].
      - destruct (n =? max_attempts (config rm)) eqn:E; cbn [negb].
        + eexists. split; [reflexivity|]. apply Z.eqb_eq in E. congruence.
        + eexists. split; [reflexivity|]. reflexivity.
      - eexists. split; reflexivity. }
    destruct (detect_with_retry_shape u text (fst (time_time x)) rm2
                (eh, (d, snd (time_time x))))
      as (r & s' & h & Hrun & Hcfg & Hlk & Hrc & Hnn & Hb & Hst & Hfw).
    rewrite Hrun. exists r, s'. split; [reflexivity|].
    split; [assumption|]. split; [assumption|].
    rewrite Hmax in Hb.
    split; [lia|]. split; [intros Hm; specialize (Hb Hm); lia|].
    split; [|discriminate].
    intros _ Hm. specialize (Hb Hm). exists h. split; [assumption|]. lia.
  - replace (negb (truthy u) || negb (is_str u)) with true
      by (destruct (truthy u), (is_str u); auto; discriminate).
    unfold bind. rewrite d_time_run, d_isoformat_run. unfold ret.
    do 2 eexists. split; [reflexivity|].
    cbn [status error_category frameworks retry_count fst].
    split; [split; [eauto | reflexivity]|]. split; [reflexivity|].
    split; [lia|]. split; [lia|]. split; [discriminate|]. auto.
Qed.
End result_invariants.

Lemma invalid_url_rejected_immediately_witness :
  exists r x',
    detect_rendering_type PyNone (Some 5) (TestWorld.detector 3 (TestWorld.start []))
    = (Ok r, (fst (TestWorld.detector 3 (TestWorld.start [])),
              (ErrorHandler_init,
               (fst (snd (snd (TestWorld.detector 3 (TestWorld.start [])))), x'))))
    /\ x' = TestWorld.start []
    /\ url r = PyNone
    /\ rendering_type r = RenderingType_value NOT_ACCESSIBLE
    /\ status r = ProcessingStatus_value FAILED
    /\ error_category r = Some (ErrorCategory_value PARSE_ERROR)
    /\ error_message r = Some "Invalid URL format"
    /\ retry_count r = 0
    /\ frameworks r = []
    /\ http_status_code r = None.
Proof.
  unfold TestWorld.detector. cbn [fst snd].
  exact (invalid_url_rejected_immediately (X := TestWorld.t) PyNone (Some 5) _ _ _
           (TestWorld.start []) (or_intror (or_introl eq_refl))).
Defined.

(** C3, as the claim words it, fails on an input that is not a URL: no
    request is made and no history is filed, so the total of attempts is
    0, yet the retry count is 0 and not -1. *)
Lemma invalid_url_retry_count_without_attempt :
  match fst (detect_rendering_type PyNone None
               (TestWorld.detector 3 (TestWorld.start []))) with
  | Ok r => retry_count r = 0
  | Raise _ => False
  end
  /\ TestWorld.requests_made
       (snd (snd (snd (snd (detect_rendering_type PyNone None
                             (TestWorld.detector 3 (TestWorld.start []))))))) = O
  /\ retry_histories
       (fst (snd (detect_rendering_type PyNone None
                    (TestWorld.detector 3 (TestWorld.start []))))) = ∅
  /\ 0 <> Z.of_nat 0 - 1.
Proof.
  split; [vm_compute; reflexivity|]. split; [vm_compute; reflexivity|].
  split; [reflexivity | discriminate].
Qed.

Lemma detect_result_invariants_witness :
  exists r h (s' : DState TestWorld.t),
    detect_rendering_type (PyStr "example.com") None
      (TestWorld.detector 3 (TestWorld.start [TestWorld.ok200])) = (Ok r, s')
    /\ retry_histories (fst s') !! "http://example.com" = Some h
    /\ 1 <= total_attempts h
    /\ retry_count r = total_attempts h - 1
    /\ 0 <= retry_count r < 3.
Proof.
  destruct (detect_result_invariants (X := TestWorld.t) (PyStr "example.com") None
              (TestWorld.detector 3 (TestWorld.start [TestWorld.ok200])))
    as (r & s' & Hrun & Hst & Hfw & Hnn & Hlt & Hvalid & Hinvalid).
  destruct (Hvalid eq_refl ltac:(cbn; lia)) as (h & Hlk & H1 & Hrc).
  exists r, h, s'. split; [exact Hrun|]. split; [exact Hlk|].
  split; [exact H1|]. split; [exact Hrc|].
  split; [exact Hnn | apply Hlt; cbn; lia].
Defined.

(** ** The browser pool *)

Section pool_acquisitions.
Context {X : Type} `{Clock X} `{Browsers X}.

Lemma list_remove_not_in (b : handle) (l : list handle) :
  NoDup l -> b ∉ list_remove b l.
Proof.
  induction 1 as [|y l Hy Hnd IH]; cbn [list_remove].
  - apply not_elem_of_nil.
  - case_bool_decide as E.
    + subst. assumption.
    + intros [->|Hin]%elem_of_cons; [congruence | contradiction].
Qed.

Lemma list_remove_other (b b' : handle) (l : list handle) :
  b' <> b -> (b' ∈ list_remove b l <-> b' ∈ l).
Proof.
  intros Hne. induction l as [|y l IH]; cbn [list_remove]; [reflexivity|].
  case_bool_decide as E.
  - subst. rewrite elem_of_cons. split; [auto | intros [?|?]; [congruence | assumption]].
  - rewrite !elem_of_cons, IH. reflexivity.
Qed.

Lemma list_remove_nodup (b : handle) (l : list handle) :
  NoDup l -> NoDup (list_remove b l).
Proof.
  induction 1 as [|y l Hy Hnd IH]; cbn [list_remove]; [constructor|].
  case_bool_decide as E; [assumption|].
  constructor; [|assumption].
  rewrite list_remove_other by congruence. assumption.
Qed.

Lemma list_remove_length (b : handle) (l : list handle) :
  (length (list_remove b l) <= length l)%nat.
Proof.
  induction l as [|y l IH]; cbn [list_remove length]; [lia|].
  case_bool_decide; cbn [length]; lia.
Qed.

Lemma remove_browser_run (b : handle) (self : PerformanceOptimizer) (x : X) :
  exists x', _remove_browser_from_pool b (self, x) = (Ok tt, (removed b self, x')).
Proof.
  unfold _remove_browser_from_pool, bind, update_self, modify, try_except, on_world, ret.
  cbn [fst snd].
  destruct (browser_quit b x) as [[[]|e] x']; eexists; reflexivity.
Qed.

Lemma probe_run (b : handle) (self : PerformanceOptimizer) (x : X) :
  exists alive x',
    try_except (on_world (browser_current_url b) ;;; ret true) (fun _ => ret false)
      (self, x) = (Ok alive, (self, x')).
Proof.
  unfold try_except, bind, on_world, ret. cbn [fst snd].
  destruct (browser_current_url b x) as [[v|e] x']; do 2 eexists; reflexivity.
Qed.

Lemma removed_inv thr self c b :
  PoolInv thr self c -> b ∈ _browser_pool self -> PoolInv thr (removed b self) c.
Proof.
  intros [Ht Hnd Hsg Hfr Htr Hre Hun] Hin. unfold removed.
  rewrite bool_decide_eq_true_2 by assumption.
  constructor; cbn.
  - assumption.
  - apply list_remove_nodup; assumption.
  - pose proof (list_remove_length b (_browser_pool self)). lia.
  - intros b' Hb'. destruct (decide (b' = b)) as [->|Hne].
    + apply Hfr; assumption.
    + apply Hfr. apply list_remove_other in Hb'; assumption.
  - intros b' Hb'. destruct (decide (b' = b)) as [->|Hne].
    + exfalso. revert Hb'. apply list_remove_not_in; assumption.
    + apply list_remove_other in Hb'; [|assumption].
      destruct (Htr b' Hb') as (k & Hk & Hc & Hle).
      exists k. rewrite lookup_delete_ne by congruence. auto.
  - intros b' Hb'. destruct (decide (b' = b)) as [->|Hne].
    + destruct (Htr b Hin) as (k & Hk & Hc & Hle). lia.
    + apply Hre. rewrite list_remove_other in Hb'; assumption.
  - assumption.
Qed.

Lemma removed_worn_out self t b b' :
  b' <> b -> worn_out (removed b self) t b' = worn_out self t b'.
Proof.
  intros Hne. unfold worn_out, removed. cbn.
  rewrite !lookup_delete_ne by congruence. reflexivity.
Qed.

Lemma bump_inv_reuse thr self c b k :
  PoolInv thr self c -> b ∈ _browser_pool self ->
  _browser_usage_count self !! b = Some k -> k < thr ->
  PoolInv thr
    (with_pool (_browser_pool self) (<[b := k + 1]> (_browser_usage_count self))
       (_browser_creation_time self) self)
    (bump c (Ok b)).
Proof.
  intros [Ht Hnd Hsg Hfr Htr Hre Hun] Hin Hk Hlt.
  constructor; cbn; try assumption.
  - intros b' Hb'. unfold bump, returns.
    destruct (Nat.eqb_spec b' b) as [->|Hne].
    + exists (k + 1). rewrite lookup_insert_eq.
      destruct (Htr b Hin) as (k' & Hk' & Hc & Hle).
      assert (k' = k) by congruence. subst. split; [reflexivity|]. lia.
    + rewrite lookup_insert_ne by congruence. apply Htr; assumption.
  - intros b' Hb'. unfold bump, returns.
    destruct (Nat.eqb_spec b' b) as [->|Hne]; [contradiction | apply Hre; assumption].
  - intros b' Hb'. unfold bump, returns.
    destruct (Nat.eqb_spec b' b) as [->|Hne]; [|apply Hun; assumption].
    specialize (Hfr b Hin). lia.
Qed.

Lemma reusable_scan_inv (thr : Z) (t : Q) (snapshot : list handle) :
  forall (self : PerformanceOptimizer) (x : X) (c : handle -> nat),
    PoolInv thr self c -> NoDup snapshot ->
    (forall b, b ∈ snapshot -> b ∈ _browser_pool self) ->
    exists res self' x',
      reusable_scan snapshot t (self, x) = (Ok res, (self', x'))
      /\ next_browser_id self' = next_browser_id self
      /\ match res with
         | Some b => PoolInv thr self' (bump c (Ok b)) /\ b ∈ snapshot
                     /\ worn_out self t b = false
         | None => PoolInv thr self' c
                   /\ forall b, b ∈ _browser_pool self' ->
                                b ∈ _browser_pool self /\ b ∉ snapshot
         end.
Proof.
  induction snapshot as [|b rest IH]; intros self x c Hinv Hnd Hsub; cbn [reusable_scan].
  - exists None, self, x. split; [reflexivity|]. split; [reflexivity|].
    split; [assumption|]. intros b Hb. split; [assumption | apply not_elem_of_nil].
  - apply NoDup_cons in Hnd as [Hb Hnd].
    assert (b ∈ _browser_pool self) as Hin by (apply Hsub; left).
    assert (forall b', b' ∈ rest -> b' ∈ _browser_pool (removed b self)) as Hsub'.
    { intros b' Hb'. unfold removed. cbn.
      rewrite bool_decide_eq_true_2 by assumption.
      apply list_remove_other; [intros ->; contradiction|].
      apply Hsub. right. assumption. }
    assert (forall x1, exists res self' x',
      (_remove_browser_from_pool b ;;; reusable_scan rest t) (self, x1)
        = (Ok res, (self', x'))
      /\ next_browser_id self' = next_browser_id self
      /\ match res with
         | Some b0 => PoolInv thr self' (bump c (Ok b0)) /\ b0 ∈ b :: rest
                      /\ worn_out self t b0 = false
         | None => PoolInv thr self' c
                   /\ forall b0, b0 ∈ _browser_pool self' ->
                                 b0 ∈ _browser_pool self /\ b0 ∉ b :: rest
         end) as Hskip.
    { intros x1. unfold bind at 1.
      destruct (remove_browser_run b self x1) as [x2 ->].
      destruct (IH (removed b self) x2 c (removed_inv _ _ _ _ Hinv Hin) Hnd Hsub')
        as (res & self' & x' & Hrun & Hid & Hres).
      exists res, self', x'. split; [assumption|]. split; [assumption|].
      destruct res as [b0|].
      - destruct Hres as (Hi & Hb0 & Hw). split; [assumption|].
        split; [right; assumption|].
        rewrite <- Hw. symmetry. apply removed_worn_out. intros ->. contradiction.
      - destruct Hres as (Hi & Hpool). split; [assumption|].
        intros b0 Hb0. destruct (Hpool b0 Hb0) as [Hr Hn].
        unfold removed in Hr. cbn in Hr.
        rewrite bool_decide_eq_true_2 in Hr by assumption.
        destruct (decide (b0 = b)) as [->|Hne].
        + exfalso. revert Hr. apply list_remove_not_in. apply Hinv.
        + apply list_remove_other in Hr; [|assumption].
          split; [assumption|]. intros [->|?]%elem_of_cons; contradiction. }
    unfold bind at 1.
    destruct (probe_run b self x) as (alive & x1 & ->).
    destruct alive; cbn [negb]; [|apply Hskip].
    unfold bind at 1. unfold on_self at 1. cbn [fst id].
    destruct (Hinv.(inv_tracked _ _ _) b Hin) as (k & Hk & Hc & Hle).
    rewrite Hk. cbn [default].
    pose proof (Hinv.(inv_threshold _ _ _)) as Hthr.
    match goal with |- context [if ?cond then _ else _] => destruct cond eqn:Hworn end.
    { apply Hskip. }
    apply orb_false_iff in Hworn as [Hu Ha]. apply Z.leb_gt in Hu. unfold id in Hu.
    unfold bind, update_self, modify, ret. cbn [fst snd].
    do 3 eexists. split; [reflexivity|]. cbn. split; [reflexivity|].
    split; [apply bump_inv_reuse; try assumption; lia|].
    split; [left|].
    unfold worn_out. rewrite Hk. cbn [default from_option]. unfold id.
    apply orb_false_iff. split; [apply Z.leb_gt; lia | assumption].
Qed.

Lemma with_metrics_inv thr self c m :
  PoolInv thr self c -> PoolInv thr (with_metrics m self) c.
Proof. intros [Ht Hnd Hsg Hfr Htr Hre Hun]. constructor; assumption. Qed.

Lemma skipped_id_inv thr self c :
  PoolInv thr self c -> PoolInv thr (with_next_id (S (next_browser_id self)) self) c.
Proof.
  intros [Ht Hnd Hsg Hfr Htr Hre Hun]. constructor; cbn; try assumption.
  - intros b Hb. specialize (Hfr b Hb). lia.
  - intros b Hb. apply Hun. lia.
Qed.

Lemma created_inv thr self c t :
  0 <= thr -> PoolInv thr self c -> _browser_pool self = [] ->
  PoolInv thr
    (with_pool (_browser_pool self ++ [next_browser_id self])
       (<[next_browser_id self := 0]> (_browser_usage_count self))
       (<[next_browser_id self := t]> (_browser_creation_time self))
       (with_next_id (S (next_browser_id self)) self))
    (bump c (Ok (next_browser_id self))).
Proof.
  intros Hthr [Ht Hnd Hsg Hfr Htr Hre Hun] Hempty.
  assert (next_browser_id self ∉ _browser_pool self) as Hnew.
  { intros Hin. specialize (Hfr _ Hin). lia. }
  constructor; cbn.
  - assumption.
  - apply NoDup_app. split; [assumption|]. split; [|apply NoDup_singleton].
    intros b Hb ->%list_elem_of_singleton. contradiction.
  - rewrite Hempty. cbn. lia.
  - intros b [Hb| ->%list_elem_of_singleton]%elem_of_app; [specialize (Hfr b Hb)|]; lia.
  - intros b Hb. unfold bump, returns.
    destruct (Nat.eqb_spec b (next_browser_id self)) as [->|Hne].
    + exists 0. rewrite lookup_insert_eq. rewrite (Hun _ (Nat.le_refl _)).
      split; [reflexivity|]. lia.
    + rewrite lookup_insert_ne by congruence. apply Htr.
      apply elem_of_app in Hb as [Hb| ->%list_elem_of_singleton];
        [assumption | congruence].
  - intros b Hb. unfold bump, returns.
    destruct (Nat.eqb_spec b (next_browser_id self)) as [->|Hne].
    + exfalso. apply Hb. apply elem_of_app. right. apply list_elem_of_singleton. reflexivity.
    + apply Hre. intros Hin. apply Hb. apply elem_of_app. left. assumption.
  - intros b Hb. unfold bump, returns.
    destruct (Nat.eqb_spec b (next_browser_id self)) as [->|Hne]; [lia|].
    apply Hun. lia.
Qed.

Lemma get_optimized_browser_inv (thr : Z) (u : string) (self : PerformanceOptimizer)
    (x : X) (c : handle -> nat) :
  0 <= thr -> PoolInv thr self c ->
  exists r self' x',
    get_optimized_browser u (self, x) = (r, (self', x'))
    /\ PoolInv thr self' (bump c r)
    /\ (forall b, r = Ok b -> b ∈ _browser_pool self ->
        worn_out self (fst (time_time x)) b = false)
    /\ (forall b, r = Ok b -> b ∉ _browser_pool self ->
        b = next_browser_id self /\ _browser_pool self' = [b])
    /\ (forall e, r = Raise e -> _browser_pool self' = []).
Proof.
  intros Hthr Hinv.
  unfold get_optimized_browser. unfold bind at 1. unfold update_self at 1, modify.
  cbn [fst snd].
  unfold bind at 1. unfold _get_reusable_browser. unfold bind at 1.
  unfold pool_time, on_world. cbn [fst snd].
  destruct (time_time x) as [t x1]. cbn [fst snd].
  unfold bind at 1. unfold on_self at 1. cbn [fst snd id].
  set (self0 := with_metrics (bump_total_requests (_metrics self)) self).
  destruct (reusable_scan_inv thr t (_browser_pool self0) self0 x1 c)
    as (res & self1 & x2 & Hrun & Hid & Hres);
    [apply with_metrics_inv; assumption | apply Hinv | auto |].
  rewrite Hrun. destruct res as [b|].
  - destruct Hres as (Hi & Hb & Hw).
    unfold bind, update_self, modify, ret. cbn [fst snd].
    do 3 eexists. split; [reflexivity|].
    split; [apply with_metrics_inv; assumption|].
    split; [intros b' Hb' _; inversion Hb'; subst; exact Hw|].
    split; [|discriminate].
    intros b' Hb' Hn. inversion Hb'; subst. contradiction.
  - destruct Hres as (Hres & Hpool).
    assert (_browser_pool self1 = []) as Hempty.
    { destruct (_browser_pool self1) as [|b0 l] eqn:E; [reflexivity|].
      destruct (Hpool b0 ltac:(left)) as [Hi Hn]. contradiction. }
    unfold bind at 1. unfold _create_optimized_browser.
    unfold bind at 1. unfold on_self at 1. cbn [fst snd id].
    unfold bind at 1. unfold update_self at 1, modify. cbn [fst snd].
    unfold try_except, bind at 1, on_world. cbn [fst snd].
    destruct (chrome_start (next_browser_id self1) u x2) as [[[]|e] x3].
    + unfold ret at 1. unfold bind at 1. unfold update_self at 1, modify. cbn [fst snd].
      unfold bind at 1. cbn [fst snd].
      destruct (time_time x3) as [t' x4]. cbn [fst snd].
      unfold bind, update_self, modify, ret. cbn [fst snd].
      do 3 eexists. split; [reflexivity|].
      split.
      { apply (created_inv thr _ c t' Hthr) in Hres; [|assumption].
        destruct Hres as [Ht Hnd Hsg Hfr Htr Hre Hun].
        constructor; assumption. }
      split.
      { intros b Hb Hin. inversion Hb; subst.
        pose proof (Hinv.(inv_fresh _ _ _) _ Hin) as Hlt.
        rewrite Hid in Hlt. cbn in Hlt. lia. }
      split; [|discriminate].
      intros b Hb _. inversion Hb; subst. rewrite Hid. split; [reflexivity|].
      cbn. rewrite Hempty. reflexivity.
    + unfold raise. do 3 eexists. split; [reflexivity|].
      split; [apply skipped_id_inv in Hres; exact Hres|].
      split; [intros b Hb; discriminate|].
      split; [intros b Hb; discriminate|].
      intros e' _. cbn. exact Hempty.
Qed.

Lemma acquire_n_inv (thr : Z) (u : string) (n : nat) :
  0 <= thr ->
  forall (self : PerformanceOptimizer) (x : X) (c : handle -> nat),
    PoolInv thr self c ->
    exists rs self' x',
      acquire_n u n (self, x) = (rs, (self', x'))
      /\ PoolInv thr self' (fun b => (c b + count_returns b rs)%nat).
Proof.
  intros Hthr. induction n as [|n IH]; intros self x c Hinv; cbn [acquire_n].
  - exists [], self, x. split; [reflexivity|].
    destruct Hinv as [Ht Hnd Hsg Hfr Htr Hre Hun].
    constructor; try assumption.
    + intros b Hb. destruct (Htr b Hb) as (k & ? & ? & ?). exists k.
      unfold count_returns. cbn. rewrite Nat.add_0_r. auto.
    + intros b Hb. unfold count_returns. cbn. rewrite Nat.add_0_r. auto.
    + intros b Hb. unfold count_returns. cbn. rewrite Nat.add_0_r. auto.
  - destruct (get_optimized_browser_inv thr u self x c Hthr Hinv)
      as (r & self1 & x1 & -> & Hinv1 & _ & _ & _).
    destruct (IH self1 x1 _ Hinv1) as (rs & self2 & x2 & -> & Hinv2).
    exists (r :: rs), self2, x2. split; [reflexivity|].
    assert (forall b, (bump c r b + count_returns b rs
                       = c b + count_returns b (r :: rs))%nat) as Heq.
    { intros b. unfold bump, count_returns. cbn [List.filter].
      destruct (returns b r); cbn [length]; lia. }
    destruct Hinv2 as [Ht Hnd Hsg Hfr Htr Hre Hun].
    constructor; try assumption.
    + intros b Hb. rewrite <- Heq. apply Htr; assumption.
    + intros b Hb. rewrite <- Heq. apply Hre; assumption.
    + intros b Hb. rewrite <- Heq. apply Hun; assumption.
Qed.

Lemma inv_bound thr self c b :
  PoolInv thr self c -> Z.of_nat (c b) <= thr + 1.
Proof.
  intros Hinv. destruct (decide (b ∈ _browser_pool self)) as [Hin|Hout].
  - destruct (Hinv.(inv_tracked _ _ _) b Hin) as (k & _ & Hc & Hle). lia.
  - apply Hinv.(inv_retired _ _ _). assumption.
Qed.

(** C7, amended.  For every acquisition sequence from an empty pool with a
    restart threshold of at least 0: no handle is returned by more than
    restartThreshold + 1 acquisitions, the one that created it and
    restartThreshold reuses; a pooled handle's usage count is the number of
    acquisitions that returned it minus 1; and a pooled handle whose usage
    count has reached restartThreshold or whose age has reached the maximum
    age is not returned by the next acquire: it is evicted, and the handle
    returned, if any, is a newly created one, then alone in the pool. *)
Theorem pool_retires_worn_out_handles (u : string) (self : PerformanceOptimizer) (x : X) (n : nat) :
  0 <= _browser_restart_threshold self ->
  _browser_pool self = [] ->
  let rs := fst (acquire_n u n (self, x)) in
  let s := snd (acquire_n u n (self, x)) in
  (forall b, Z.of_nat (count_returns b rs) <= _browser_restart_threshold self + 1)
  /\ (forall b, b ∈ _browser_pool (fst s) ->
        _browser_usage_count (fst s) !! b = Some (Z.of_nat (count_returns b rs) - 1))
  /\ (forall b, b ∈ _browser_pool (fst s) ->
        worn_out (fst s) (fst (time_time (snd s))) b = true ->
        let next := get_optimized_browser u s in
        fst next <> Ok b
        /\ (b ∉ _browser_pool (fst (snd next)))
        /\ (forall b', fst next = Ok b' ->
              b' = next_browser_id (fst s) /\ _browser_pool (fst (snd next)) = [b'])).
Proof.
  intros Hthr Hempty rs s. subst rs s.
  assert (PoolInv (_browser_restart_threshold self) self (fun _ => O)) as Hinv0.
  { constructor; rewrite ?Hempty.
    - reflexivity.
    - constructor.
    - cbn. lia.
    - intros b Hb. apply elem_of_nil in Hb. contradiction.
    - intros b Hb. apply elem_of_nil in Hb. contradiction.
    - intros b _. cbn. lia.
    - reflexivity. }
  destruct (acquire_n_inv _ u n Hthr self x _ Hinv0) as (rs & self' & x' & -> & Hinv).
  cbn [fst snd]. split; [|split].
  - intros b. apply (inv_bound _ _ _ b) in Hinv. cbn in Hinv. exact Hinv.
  - intros b Hin.
    destruct (Hinv.(inv_tracked _ _ _) b Hin) as (k & Hk & Hc & _).
    cbn in Hc. rewrite Hk. f_equal. lia.
  - intros b Hin Hworn.
    destruct (get_optimized_browser_inv _ u self' x' _ Hthr Hinv)
      as (r & self2 & x2 & Hrun & Hinv2 & Hw & Hnew & Hfail).
    cbn zeta. rewrite Hrun. cbn [fst snd].
    assert (_browser_pool self' = [b]) as Hpool.
    { pose proof (Hinv.(inv_single _ _ _)) as Hlen.
      destruct (_browser_pool self') as [|b0 [|b1 l]]; cbn in Hlen; try lia.
      - apply elem_of_nil in Hin. contradiction.
      - apply list_elem_of_singleton in Hin. subst. reflexivity. }
    assert (r <> Ok b) as Hne.
    { intros ->. specialize (Hw b eq_refl Hin). congruence. }
    split; [assumption|].
    destruct r as [b'|e].
    + assert (b' ∉ _browser_pool self') as Hout.
      { rewrite Hpool. intros ->%list_elem_of_singleton. congruence. }
      destruct (Hnew b' eq_refl Hout) as [Hid Hp]. split.
      * rewrite Hp. intros ->%list_elem_of_singleton. congruence.
      * intros b'' Hb''. inversion Hb''; subst. split; [reflexivity | assumption].
    + rewrite (Hfail e eq_refl). split; [apply not_elem_of_nil | discriminate].
Qed.
End pool_acquisitions.

(** C7, as the claim words it, fails: with the default threshold of 50,
    after 50 acquisitions have returned the same handle the next acquire
    returns it once more; it is the 52nd that returns a new one. *)
Lemma handle_returned_after_threshold_acquisitions :
  fst (acquire_n "http://example.com" 50
         (PerformanceOptimizer_init 3, TestWorld.start []))
  = repeat (Ok O) 50
  /\ fst (get_optimized_browser "http://example.com"
            (snd (acquire_n "http://example.com" 50
                    (PerformanceOptimizer_init 3, TestWorld.start []))))
     = Ok O
  /\ fst (get_optimized_browser "http://example.com"
            (snd (acquire_n "http://example.com" 51
                    (PerformanceOptimizer_init 3, TestWorld.start []))))
     = Ok 1%nat.
Proof. repeat split; vm_compute; reflexivity. Qed.

Lemma pool_retires_worn_out_handles_witness :
  (forall b,
     Z.of_nat (count_returns b
                 (fst (acquire_n "http://example.com" 3
                         (PerformanceOptimizer_init 3, TestWorld.start []))))
     <= 50 + 1)
  /\ (forall b,
        b ∈ _browser_pool
              (fst (snd (acquire_n "http://example.com" 3
                           (PerformanceOptimizer_init 3, TestWorld.start [])))) ->
        _browser_usage_count
          (fst (snd (acquire_n "http://example.com" 3
                       (PerformanceOptimizer_init 3, TestWorld.start [])))) !! b
        = Some (Z.of_nat (count_returns b
                            (fst (acquire_n "http://example.com" 3
                                    (PerformanceOptimizer_init 3, TestWorld.start []))))
                - 1)).
Proof.
  destruct (pool_retires_worn_out_handles (X := TestWorld.t) "http://example.com"
              (PerformanceOptimizer_init 3) (TestWorld.start []) 3
              ltac:(cbn; lia) eq_refl) as (H1 & H2 & _).
  split; [exact H1 | exact H2].
Defined.

(* ===================================================================== *)
(** * Further properties of the code                                      *)
(* ===================================================================== *)

(** ** Strings *)

Lemma length_app_str (a b : string) :
  String.length (a +:+ b) = (String.length a + String.length b)%nat.
Proof. induction a as [|c a IH]; simpl; [reflexivity | rewrite IH; reflexivity]. Qed.

Lemma take_str_length (n : nat) (s : string) :
  String.length (take_str n s) = Nat.min n (String.length s).
Proof.
  unfold take_str. revert s. induction n as [|n IH]; intros [|c s]; cbn; try reflexivity.
  rewrite IH. reflexivity.
Qed.

Lemma prefix_app (p r : string) : String.prefix p (p +:+ r) = true.
Proof.
  induction p as [|c p IH]; simpl.
  - destruct r; reflexivity.
  - destruct (ascii_dec c c); [assumption | congruence].
Qed.

Lemma prefix_app_weaken (p a b : string) :
  String.prefix p a = true -> String.prefix p (a +:+ b) = true.
Proof.
  revert a. induction p as [|c p IH]; intros a Hp.
  - destruct (a +:+ b); reflexivity.
  - destruct a as [|d a]; simpl in *; [discriminate|].
    destruct (ascii_dec c d); [apply IH; assumption | discriminate].
Qed.

Lemma prefix_shorter (a b m : string) :
  String.prefix (a +:+ b) m = true -> String.prefix a m = true.
Proof.
  revert m. induction a as [|c a IH]; intros m Hp.
  - destruct m; reflexivity.
  - destruct m as [|d m]; simpl in *; [discriminate|].
    destruct (ascii_dec c d); [apply IH; assumption | discriminate].
Qed.

Lemma contains_shorter (a b m : string) :
  contains (a +:+ b) m = true -> contains a m = true.
Proof.
  induction m as [|d m IH]; cbn [contains]; intros Hc.
  - apply orb_true_iff in Hc as [Hc|Hc]; [|discriminate].
    apply prefix_shorter in Hc. rewrite Hc. reflexivity.
  - apply orb_true_iff in Hc as [Hc|Hc].
    + apply prefix_shorter in Hc. rewrite Hc. reflexivity.
    + rewrite (IH Hc). apply orb_true_r.
Qed.

Lemma contains_app_l (p a b : string) :
  contains p a = true -> contains p (a +:+ b) = true.
Proof.
  induction a as [|d a IH]; cbn [contains]; intros Hc.
  - apply orb_true_iff in Hc as [Hc|Hc]; [|discriminate].
    destruct p; [|simpl in Hc; discriminate].
    simpl. destruct b; reflexivity.
  - apply orb_true_iff in Hc as [Hc|Hc].
    + apply (prefix_app_weaken _ _ b) in Hc. simpl in *. rewrite Hc. reflexivity.
    + simpl. fold (contains p (a +:+ b)).  rewrite (IH Hc). apply orb_true_r.
Qed.

Lemma lower_app (a b : string) : lower (a +:+ b) = lower a +:+ lower b.
Proof. induction a as [|c a IH]; simpl; [reflexivity | rewrite IH; reflexivity]. Qed.


(** ** The failure classifier *)

(** [categorize_error] never raises.  When a rule matches it leaves the
    handler as it was; when none does it appends exactly one warning, about
    the exception's type name and lowered message. *)
Theorem categorize_error_logs_unknown_only (e : Exception) (u : string) (h : ErrorHandler) :
  categorize_error e u h
  = (Ok (category_of e),
     if bool_decide (category_of e = UNKNOWN_ERROR)
     then {| logger := logger h ++ [LogUnknownType (exc_type_name e) (lower (exc_str e))];
             non_retryable_patterns := non_retryable_patterns h |}
     else h).
Proof.
  rewrite category_of_unfold. unfold categorize_error. cbn zeta.
  destruct (_is_dns_error _ _); [reflexivity|].
  destruct (_is_ssl_error _ _); [reflexivity|].
  destruct (_is_timeout_error _ _); [reflexivity|].
  destruct (_is_browser_error _ _); [reflexivity|].
  destruct (_is_http_error _ _); [reflexivity|].
  destruct (_is_parse_error _ _); [reflexivity|].
  destruct (_is_network_error _ _); reflexivity.
Qed.

Lemma format_error_for_output_length (c : ErrorCategory) (m : string)
    (d : option ErrorDetails) :
  len (format_error_for_output c m d) <= 200.
Proof.
  unfold format_error_for_output.
  match goal with |- context [if 200 <? len ?f then _ else _] => set (full := f) end.
  destruct (200 <? len full) eqn:E.
  - unfold len. rewrite length_app_str, take_str_length.
    change (String.length "...") with 3%nat. lia.
  - apply Z.ltb_ge in E. assumption.
Qed.


(** The DNS rule is tried first and one of its phrases is "hostname": an
    exception whose message speaks of a certificate whose
    "hostname doesn't match", a phrase of the SSL rule, is classified as a
    DNS error whatever its class, and the handler is left as it was. *)
Theorem hostname_mismatch_classified_as_dns (e : Exception) (u : string) (h : ErrorHandler) :
  contains "hostname doesn't match" (lower (exc_str e)) = true ->
  categorize_error e u h = (Ok DNS_ERROR, h).
Proof.
  intros Hc.
  change "hostname doesn't match"%string with ("hostname" +:+ " doesn't match")%string in Hc.
  apply contains_shorter in Hc.
  unfold categorize_error. cbn zeta.
  replace (_is_dns_error e (lower (exc_str e))) with true; [reflexivity|].
  symmetry. unfold _is_dns_error, any_in, dns_indicators. cbn [existsb].
  rewrite Hc. rewrite !orb_true_r. reflexivity.
Qed.

Lemma hostname_mismatch_classified_as_dns_witness :
  categorize_error mismatch "https://example.com" ErrorHandler_init
  = (Ok DNS_ERROR, ErrorHandler_init).
Proof.
  apply (hostname_mismatch_classified_as_dns mismatch). vm_compute. reflexivity.
Defined.

(** ** The history of a run *)

Lemma retried_records_snoc (cfg : RetryConfig) (l : list RetryAttempt)
    (errs : list Exception) (a : RetryAttempt) (e : Exception) :
  retried_records cfg l errs ->
  attempt_number a = Z.of_nat (length l) + 1 ->
  attempt_error_category a = category_of e ->
  attempt_error_message a = exc_str e ->
  delay_before_attempt a = policy_delay cfg (attempt_number a) ->
  retryable cfg (category_of e) ->
  retried_records cfg (l ++ [a]) (errs ++ [e]).
Proof.
  intros (Hn & Hm & Hc & Hd & Hr) Ha Hcat Hmsg Hdel Hre.
  unfold retried_records. rewrite !map_app, length_app. cbn [map length].
  rewrite Nat.add_1_r, seq_S, map_app. cbn [map].
  rewrite Hn, Hm, Hc, Hd, Ha, Hcat, Hmsg, Hdel, Ha.
  repeat split; try reflexivity.
  - do 2 f_equal. lia.
  - rewrite <- Hn. reflexivity.
  - apply Forall_app. split; [assumption|]. constructor; [assumption | constructor].
Qed.

Lemma sum_delays_snoc (l : list RetryAttempt) (a : RetryAttempt) :
  sum_delays (l ++ [a]) = (sum_delays l + delay_before_attempt a)%Q.
Proof. unfold sum_delays. rewrite fold_left_app. reflexivity. Qed.

Lemma should_retry_gives_up (cfg : RetryConfig) (hs : gmap string RetryHistory)
    (c : ErrorCategory) (attempt : Z) :
  should_retry {| config := cfg; retry_histories := hs |} c attempt = false ->
  attempt < max_attempts cfg -> non_retryable cfg c.
Proof.
  unfold should_retry, non_retryable. cbn [config]. intros Hs Hlt.
  destruct (_ <=? _) eqn:E; [apply Z.leb_le in E; lia|].
  case_bool_decide; [left; assumption | right; assumption].
Qed.

Lemma should_retry_retries (cfg : RetryConfig) (hs : gmap string RetryHistory)
    (c : ErrorCategory) (attempt : Z) :
  should_retry {| config := cfg; retry_histories := hs |} c attempt = true ->
  attempt < max_attempts cfg /\ retryable cfg c.
Proof.
  unfold should_retry, retryable. cbn [config]. intros Hs.
  destruct (_ <=? _) eqn:E; [discriminate|]. apply Z.leb_gt in E.
  case_bool_decide; [discriminate|]. auto.
Qed.

Section history_of_a_run.
Context {X A : Type} `{Clock X}.
Variable func : RetryManager -> Py (ErrorHandler * X) A.

Lemma retry_loop_history (cfg : RetryConfig) (key : string) :
  forall (remaining : nat) (attempt : Z) (history : RetryHistory)
         (last_exception : option Exception) (hs : gmap string RetryHistory)
         (w : ErrorHandler * X) (errs0 : list Exception),
    1 <= attempt -> (1 <= remaining)%nat ->
    attempt + Z.of_nat remaining = max_attempts cfg + 1 ->
    Z.of_nat (length (attempts history)) = attempt - 1 ->
    success history = false -> final_error history = None ->
    retried_records cfg (attempts history) errs0 ->
    total_retry_time history = sum_delays (attempts history) ->
    Forall (raised_by func) errs0 ->
    exists r s' h errs,
      retry_loop func remaining attempt key history last_exception
        ({| config := cfg; retry_histories := hs |}, w) = (r, s')
      /\ config (fst s') = cfg
      /\ (forall k, k <> key -> retry_histories (fst s') !! k = hs !! k)
      /\ retry_histories (fst s') !! key = Some h
      /\ history_url h = history_url history
      /\ total_retry_time h = sum_delays (attempts h)
      /\ attempt <= total_attempts h <= max_attempts cfg
      /\ Forall (raised_by func) errs
      /\ run_outcome func cfg r h errs.
Proof.
  induction remaining as [|remaining IH];
    intros attempt history last_exception hs w errs0 Ha Hrem Hsum Hlen Hsucc Hfin Hrec
      Htime Hraised; [lia|].
  cbn [retry_loop].
  unfold bind, try_except, store, modify, get, call_func.
  cbn [fst snd config retry_histories].
  match goal with |- context [func ?r w] =>
    destruct (func r w) as [[v|e] [eh1 x1]] eqn:Hf end; cbn [fst snd].
  - (* success *)
    unfold ret. exists (Ok v). eexists. eexists. exists errs0.
    split; [reflexivity|]. cbn [fst snd config retry_histories].
    split; [reflexivity|].
    split; [intros k Hk; rewrite !lookup_insert_ne by congruence; reflexivity|].
    split; [apply lookup_insert_eq|].
    cbn [history_url total_retry_time attempts total_attempts success final_error
         set_success set_total_attempts run_outcome].
    split; [reflexivity|]. split; [assumption|]. split; [lia|]. split; [assumption|].
    split; [reflexivity|]. split; [assumption|]. split; [assumption|].
    split; [lia | eauto].
  - (* failure *)
    unfold on_handler, zoom. cbn [fst snd].
    destruct (categorize_error_run e key eh1) as [eh2 ->].
    match goal with |- context [log_error ?a ?b ?c ?d ?h] =>
      destruct (log_error_run a b c d h) as [eh3 ->] end.
    unfold now. cbn [fst snd].
    destruct (time_time x1) as [t x2].
    cbn [fst snd config retry_histories].
    assert (raised_by func e) as He by (repeat eexists; exact Hf).
    match goal with |- context [negb ?b] => destruct b eqn:Hsr end; cbn [negb].
    + (* retried *)
      apply should_retry_retries in Hsr as [Hlt Hretry].
      destruct (max_attempts cfg <=? attempt) eqn:E; [apply Z.leb_le in E; lia|].
      unfold bind, lift_res.
      rewrite get_backoff_delay_from_one by assumption. cbn [config].
      fold (policy_delay cfg attempt).
      unfold store, modify, sleep. cbn [fst snd config retry_histories].
      match goal with
      | |- context [retry_loop func remaining (attempt + 1) key ?h' ?l _] =>
          assert (forall hs' w', exists r s' h errs,
                    retry_loop func remaining (attempt + 1) key h' l
                      ({| config := cfg; retry_histories := hs' |}, w') = (r, s')
                    /\ config (fst s') = cfg
                    /\ (forall k, k <> key -> retry_histories (fst s') !! k = hs' !! k)
                    /\ retry_histories (fst s') !! key = Some h
                    /\ history_url h = history_url h'
                    /\ total_retry_time h = sum_delays (attempts h)
                    /\ attempt + 1 <= total_attempts h <= max_attempts cfg
                    /\ Forall (raised_by func) errs
                    /\ run_outcome func cfg r h errs) as Hnext
      end.
      { intros hs' w'. apply (IH _ _ _ _ _ (errs0 ++ [e])); try lia.
        - cbn [attempts add_attempt set_total_attempts]. rewrite length_app. cbn [length]. lia.
        - cbn. assumption.
        - cbn. assumption.
        - cbn [attempts add_attempt set_total_attempts].
          apply retried_records_snoc; try assumption; try reflexivity.
          cbn [attempt_number set_delay]. lia.
        - cbn [attempts add_attempt set_total_attempts total_retry_time].
          rewrite sum_delays_snoc, Htime. reflexivity.
        - apply Forall_app. split; [assumption|]. constructor; [assumption | constructor]. }
      destruct (Qlt_le_dec 0 (policy_delay cfg attempt)); unfold modify, ret;
        cbn [fst snd config retry_histories];
        match goal with
        | |- context [retry_loop func remaining (attempt + 1) key _ _
                        ({| config := cfg; retry_histories := ?hs' |}, ?w')] =>
            destruct (Hnext hs' w')
              as (r & s' & h & errs & Hrun & Hcfg & Hfr & Hlk & Hurl & Ht & Hb & Hra & Hout)
        end;
        rewrite Hrun; exists r, s', h, errs; (split; [reflexivity|]);
        (split; [assumption|]);
        (split; [intros k Hk; rewrite (Hfr k Hk), !lookup_insert_ne by congruence;
                 reflexivity|]);
        (split; [assumption|]); (split; [exact Hurl|]); (split; [assumption|]);
        (split; [lia|]); (split; assumption).
    + (* given up *)
      unfold bind, store, modify, after_loop, raise.
      cbn [fst snd config retry_histories].
      exists (Raise e). eexists. eexists. exists (errs0 ++ [e]).
      split; [reflexivity|]. cbn [fst snd config retry_histories].
      split; [reflexivity|].
      split; [intros k Hk; rewrite !lookup_insert_ne by congruence; reflexivity|].
      split; [apply lookup_insert_eq|].
      cbn [history_url total_retry_time attempts total_attempts success final_error
           set_final_error add_attempt set_total_attempts run_outcome
           delay_before_attempt].
      split; [reflexivity|].
      split; [rewrite sum_delays_snoc, Htime; reflexivity|].
      split; [lia|].
      split; [apply Forall_app; split; [assumption|]; constructor; [assumption | constructor]|].
      split; [assumption|]. split; [reflexivity|].
      split; [do 3 eexists; split; [reflexivity|]; split; [reflexivity|];
              split; [eassumption|]; repeat split|].
      split; [rewrite length_app; cbn [length]; lia|].
      intros Hlt. eapply should_retry_gives_up; eassumption.
Qed.
End history_of_a_run.

Section history_theorems.
Context {X A : Type} `{Clock X}.
Variable func : RetryManager -> Py (ErrorHandler * X) A.

Lemma execute_with_retry_history (arg0 : option string) (rm : RetryManager)
    (w : ErrorHandler * X) :
  1 <= max_attempts (config rm) ->
  exists r s' h errs,
    execute_with_retry func arg0 (rm, w) = (r, s')
    /\ config (fst s') = config rm
    /\ (forall k, k <> key_of arg0 ->
          retry_histories (fst s') !! k = retry_histories rm !! k)
    /\ retry_histories (fst s') !! key_of arg0 = Some h
    /\ history_url h = key_of arg0
    /\ total_retry_time h = sum_delays (attempts h)
    /\ 1 <= total_attempts h <= max_attempts (config rm)
    /\ Forall (raised_by func) errs
    /\ run_outcome func (config rm) r h errs.
Proof.
  intros Hmax. unfold execute_with_retry. fold (key_of arg0).
  destruct rm as [cfg hs]. unfold bind, store, modify, get.
  cbn [fst snd config retry_histories] in *.
  destruct (retry_loop_history func cfg (key_of arg0) (Z.to_nat (max_attempts cfg)) 1
              (RetryHistory_init (key_of arg0)) None
              (<[key_of arg0 := RetryHistory_init (key_of arg0)]> hs) w [])
    as (r & s' & h & errs & Hrun & Hcfg & Hfr & Hlk & Hurl & Ht & Hb & Hra & Hout);
    try lia; try reflexivity.
  { repeat split; constructor. }
  { constructor. }
  rewrite Hrun. exists r, s', h, errs. split; [reflexivity|].
  split; [assumption|].
  split; [intros k Hk; rewrite (Hfr k Hk), lookup_insert_ne by congruence; reflexivity|].
  repeat (split; [assumption|]). assumption.
Qed.

(** After a run under a limit of at least 1, the history filed under the
    operation's key is a faithful log: it bears the key; its records are
    numbered 1, 2, ...; it is marked successful exactly when the run
    returned a value; it holds one record per failed attempt, that is
    [total_attempts - 1] records after a success and [total_attempts]
    after a failure; the recorded delays are the policy's delays for
    attempts 1 to [total_attempts - 1], followed by a zero for the failure
    that ended a failed run; and [total_retry_time] is their sum. *)
Theorem retry_history_is_faithful_log (arg0 : option string) (rm : RetryManager)
    (w : ErrorHandler * X) :
  1 <= max_attempts (config rm) ->
  exists r s' h,
    execute_with_retry func arg0 (rm, w) = (r, s')
    /\ retry_histories (fst s') !! key_of arg0 = Some h
    /\ history_url h = key_of arg0
    /\ map attempt_number (attempts h) = map Z.of_nat (seq 1 (length (attempts h)))
    /\ (success h = true <-> exists v, r = Ok v)
    /\ Z.of_nat (length (attempts h))
       = (if success h then total_attempts h - 1 else total_attempts h)
    /\ map delay_before_attempt (attempts h)
       = map (fun k => policy_delay (config rm) (Z.of_nat k))
             (seq 1 (Z.to_nat (total_attempts h) - 1))
         ++ (if success h then [] else [0%Q])
    /\ total_retry_time h = sum_delays (attempts h).
Proof.
  intros Hmax.
  destruct (execute_with_retry_history arg0 rm w Hmax)
    as (r & s' & h & errs & Hrun & Hcfg & Hfr & Hlk & Hurl & Ht & Hb & Hra & Hout).
  exists r, s', h. split; [assumption|]. split; [assumption|]. split; [assumption|].
  destruct r as [v|e]; cbn [run_outcome] in Hout.
  - destruct Hout as (Hs & Hf & (Hn & Hm & Hc & Hd & Hr) & Htot & Hv).
    rewrite Hs. split; [assumption|]. split; [split; eauto|]. split; [lia|].
    split; [|assumption].
    rewrite Hd, Hn, app_nil_r, map_map.
    replace (Z.to_nat (total_attempts h) - 1)%nat with (length (attempts h)) by lia.
    reflexivity.
  - destruct Hout as (Hs & Hf & (l & a & errs' & Hl & He & (Hn & Hm & Hc & Hd & Hr)
                                 & (Fn & Fc & Fm & Fd)) & Htot & Hgave).
    rewrite Hs. rewrite Hl in *. rewrite length_app in *. cbn [length] in *.
    split.
    { rewrite map_app, Nat.add_1_r, seq_S, map_app, Hn. cbn [map].
      rewrite Fn, Htot. do 2 f_equal. lia. }
    split; [split; [discriminate | intros [v Hv]; discriminate]|].
    split; [lia|]. split; [|assumption].
    rewrite map_app, Hd, Hn, map_map. cbn [map]. rewrite Fd.
    replace (Z.to_nat (total_attempts h) - 1)%nat with (length l) by lia.
    reflexivity.
Qed.

(** The failure that a run surfaces is the one the operation raised last:
    it is described by the last record and by [final_error]; every earlier
    record is that of a retryable failure of the operation; and the run
    stopped short of the attempt limit only because that last failure is
    not retryable.  A value that a run returns was returned by the
    operation, after retryable failures only. *)
Theorem surfaced_failure_is_last_recorded (arg0 : option string) (rm : RetryManager)
    (w : ErrorHandler * X) :
  1 <= max_attempts (config rm) ->
  exists r s' h errs,
    execute_with_retry func arg0 (rm, w) = (r, s')
    /\ retry_histories (fst s') !! key_of arg0 = Some h
    /\ Forall (raised_by func) errs
    /\ map attempt_error_category (attempts h) = map category_of errs
    /\ map attempt_error_message (attempts h) = map exc_str errs
    /\ match r with
       | Ok v =>
           (exists rm' w0 w1, func rm' w0 = (Ok v, w1))
           /\ Forall (fun e => retryable (config rm) (category_of e)) errs
           /\ final_error h = None
       | Raise e =>
           (exists errs', errs = errs' ++ [e]
              /\ Forall (fun e' => retryable (config rm) (category_of e')) errs')
           /\ final_error h
              = Some (ErrorCategory_value (category_of e) +:+ ": " +:+ exc_str e)%string
           /\ (total_attempts h < max_attempts (config rm) ->
               non_retryable (config rm) (category_of e))
       end.
Proof.
  intros Hmax.
  destruct (execute_with_retry_history arg0 rm w Hmax)
    as (r & s' & h & errs & Hrun & Hcfg & Hfr & Hlk & Hurl & Ht & Hb & Hra & Hout).
  exists r, s', h, errs. split; [assumption|]. split; [assumption|].
  split; [assumption|].
  destruct r as [v|e]; cbn [run_outcome] in Hout.
  - destruct Hout as (Hs & Hf & (Hn & Hm & Hc & Hd & Hr) & Htot & Hv).
    repeat (split; [assumption|]). assumption.
  - destruct Hout as (Hs & Hf & (l & a & errs' & Hl & He & (Hn & Hm & Hc & Hd & Hr)
                                 & (Fn & Fc & Fm & Fd)) & Htot & Hgave).
    subst errs. rewrite Hl, !map_app, Hc, Hm. cbn [map]. rewrite Fc, Fm.
    split; [reflexivity|]. split; [reflexivity|].
    split; [eauto|]. split; assumption.
Qed.

(** A run writes the history of its own key and nothing else: the
    configuration and the histories filed under other keys are as before,
    and what was filed under its key before the run is replaced, not
    extended. *)
Theorem execute_with_retry_touches_own_history (arg0 : option string)
    (rm : RetryManager) (w : ErrorHandler * X) :
  exists r s' h,
    execute_with_retry func arg0 (rm, w) = (r, s')
    /\ config (fst s') = config rm
    /\ (forall k, k <> key_of arg0 ->
          retry_histories (fst s') !! k = retry_histories rm !! k)
    /\ retry_histories (fst s') !! key_of arg0 = Some h
    /\ Z.of_nat (length (attempts h)) <= total_attempts h
    /\ total_attempts h <= Z.max 0 (max_attempts (config rm)).
Proof.
  destruct (Z_le_gt_dec (max_attempts (config rm)) 0) as [Hle|Hgt].
  - unfold execute_with_retry. fold (key_of arg0).
    destruct rm as [cfg hs]. unfold bind, store, modify, get.
    cbn [fst snd config retry_histories] in *.
    replace (Z.to_nat (max_attempts cfg)) with O by lia.
    cbn [retry_loop]. unfold after_loop, raise.
    do 3 eexists. split; [reflexivity|]. cbn [fst snd config retry_histories].
    split; [reflexivity|].
    split; [intros k Hk; rewrite lookup_insert_ne by congruence; reflexivity|].
    split; [apply lookup_insert_eq|]. cbn. lia.
  - destruct (execute_with_retry_history arg0 rm w ltac:(lia))
      as (r & s' & h & errs & Hrun & Hcfg & Hfr & Hlk & Hurl & Ht & Hb & Hra & Hout).
    exists r, s', h. repeat (split; [assumption|]).
    destruct r as [v|e]; cbn [run_outcome] in Hout.
    + destruct Hout as (_ & _ & _ & Htot & _). lia.
    + destruct Hout as (_ & _ & _ & Htot & _). lia.
Qed.
End history_theorems.

Lemma invoke_result {X A : Type} (op : nat -> RetryManager -> Py (ErrorHandler * X) A)
    (rm : RetryManager) (w w' : ErrorHandler * Counted X) (r : Res A) :
  invoke op rm w = (r, w') ->
  fst (op (snd (snd w)) rm (fst w, fst (snd w))) = r.
Proof.
  unfold invoke. destruct (op _ _ _) as [r0 s0]. intros Hr. inversion Hr. reflexivity.
Qed.

Section exhaustion.
Context {X A : Type} `{Clock X}.
Variable op : nat -> RetryManager -> Py (ErrorHandler * X) A.

(** When every invocation of the operation fails with a retryable failure,
    a run under a limit of at least 1 invokes it exactly [max_attempts]
    times and then raises one of its failures; the history holds
    [max_attempts] records, and the delays are those of the policy for
    attempts 1 to [max_attempts - 1], with none after the last attempt. *)
Theorem retries_exhausted_at_limit (arg0 : option string) (rm : RetryManager)
    (eh : ErrorHandler) (x : X) :
  1 <= max_attempts (config rm) ->
  (forall k rm' w, exists e,
     fst (op k rm' w) = Raise e /\ retryable (config rm) (category_of e)) ->
  exists e s' h,
    execute_with_retry (invoke op) arg0 (rm, (eh, (x, O))) = (Raise e, s')
    /\ Z.of_nat (invocations s') = max_attempts (config rm)
    /\ (exists k rm' w, fst (op k rm' w) = Raise e)
    /\ retry_histories (fst s') !! key_of arg0 = Some h
    /\ success h = false
    /\ total_attempts h = max_attempts (config rm)
    /\ Z.of_nat (length (attempts h)) = max_attempts (config rm)
    /\ map delay_before_attempt (attempts h)
       = map (fun k => policy_delay (config rm) (Z.of_nat k))
             (seq 1 (Z.to_nat (max_attempts (config rm)) - 1)) ++ [0%Q].
Proof.
  intros Hmax Hfail.
  destruct (execute_with_retry_history (invoke op) arg0 rm (eh, (x, O)) Hmax)
    as (r & s' & h & errs & Hrun & Hcfg & Hfr & Hlk & Hurl & Ht & Hb & Hra & Hout).
  assert (total_attempts h = Z.of_nat (invocations s')) as Hinv.
  { revert Hrun Hlk. unfold execute_with_retry. fold (key_of arg0).
    destruct rm as [cfg hs]. unfold bind, store, modify, get.
    cbn [fst snd config retry_histories].
    destruct (retry_loop_counts op cfg (key_of arg0) (Z.to_nat (max_attempts cfg)) 1
                (RetryHistory_init (key_of arg0)) None
                (<[key_of arg0 := RetryHistory_init (key_of arg0)]> hs) eh x O)
      as (r1 & s1 & h1 & Hrun1 & Hlk1 & Htot1);
      [reflexivity | reflexivity | apply lookup_insert_eq |].
    rewrite Hrun1. intros Heq Hlk. inversion Heq; subst. congruence. }
  destruct r as [v|e]; cbn [run_outcome] in Hout.
  - exfalso. destruct Hout as (_ & _ & _ & _ & (rm' & w0 & w1 & Hv)).
    apply invoke_result in Hv.
    destruct (Hfail (snd (snd w0)) rm' (fst w0, fst (snd w0))) as (e & He & _).
    congruence.
  - destruct Hout as (Hs & Hf & (l & a & errs' & Hl & He & (Hn & Hm & Hc & Hd & Hr)
                                 & (Fn & Fc & Fm & Fd)) & Htot & Hgave).
    assert (exists k rm' w, fst (op k rm' w) = Raise e) as Hop.
    { subst errs. apply Forall_app in Hra as [_ Hra]. inversion Hra as [|? ? Hre _]; subst.
      destruct Hre as (rm' & w0 & w1 & Hre). apply invoke_result in Hre. eauto. }
    assert (total_attempts h = max_attempts (config rm)) as Hfull.
    { destruct (Z_lt_ge_dec (total_attempts h) (max_attempts (config rm))) as [Hlt|Hge];
        [|lia].
      exfalso. destruct Hop as (k & rm' & w0 & Hk).
      destruct (Hfail k rm' w0) as (e' & He' & [Hnotin Hsr]).
      assert (e' = e) by congruence. subst e'.
      destruct (Hgave Hlt) as [Hin|Hno]; [contradiction | congruence]. }
    exists e, s', h. split; [assumption|]. split; [lia|]. split; [assumption|].
    split; [assumption|]. split; [assumption|]. split; [assumption|]. split; [lia|].
    rewrite Hl, map_app, Hd, Hn, map_map. cbn [map]. rewrite Fd.
    rewrite Hl, length_app in Htot. cbn [length] in Htot.
    replace (Z.to_nat (max_attempts (config rm)) - 1)%nat with (length l) by lia.
    reflexivity.
Qed.

(** Under an attempt limit of 0 or less the operation is never invoked:
    the run files an empty history, raises a [RuntimeError] about the
    retry logic and leaves the handler and the world alone. *)
Theorem no_attempt_without_budget (arg0 : option string) (rm : RetryManager)
    (eh : ErrorHandler) (x : X) (n0 : nat) :
  max_attempts (config rm) <= 0 ->
  execute_with_retry (invoke op) arg0 (rm, (eh, (x, n0)))
  = (Raise (mk_exception "RuntimeError" [RuntimeError]
              ("Unexpected error in retry logic for " +:+ key_of arg0)),
     ({| config := config rm;
         retry_histories :=
           <[key_of arg0 := RetryHistory_init (key_of arg0)]> (retry_histories rm) |},
      (eh, (x, n0)))).
Proof.
  intros Hmax. unfold execute_with_retry. fold (key_of arg0).
  unfold bind, store, modify, get. cbn [fst snd config retry_histories].
  replace (Z.to_nat (max_attempts (config rm))) with O by lia.
  reflexivity.
Qed.
End exhaustion.

Lemma retryable_not_non_retryable (cfg : RetryConfig) (c : ErrorCategory) :
  retryable cfg c -> non_retryable cfg c -> False.
Proof. intros [Hnot Hsr] [Hin|Hno]; [contradiction | congruence]. Qed.

Section summary.
Context {X A : Type} `{Clock X}.
Variable func : RetryManager -> Py (ErrorHandler * X) A.
Variable format_1f : Q -> string.

(** When the operation can only fail, and only with failures that are not
    retryable, a run makes one attempt and raises; the history is marked
    as failed, yet [format_retry_summary] reports the key with
    "Success on first attempt", because it looks at the number of attempts
    before it looks at the outcome. *)
Theorem single_failed_attempt_summarized_as_success (arg0 : option string)
    (rm : RetryManager) (w : ErrorHandler * X) :
  1 <= max_attempts (config rm) ->
  (forall rm' w0 r w1, func rm' w0 = (r, w1) ->
     exists e, r = Raise e /\ non_retryable (config rm) (category_of e)) ->
  exists e s' h,
    execute_with_retry func arg0 (rm, w) = (Raise e, s')
    /\ retry_histories (fst s') !! key_of arg0 = Some h
    /\ success h = false
    /\ total_attempts h = 1
    /\ format_retry_summary format_1f (fst s') (key_of arg0)
       = (key_of arg0 +:+ ": Success on first attempt")%string.
Proof.
  intros Hmax Hfail.
  destruct (execute_with_retry_history func arg0 rm w Hmax)
    as (r & s' & h & errs & Hrun & Hcfg & Hfr & Hlk & Hurl & Ht & Hb & Hra & Hout).
  destruct r as [v|e]; cbn [run_outcome] in Hout.
  { exfalso. destruct Hout as (_ & _ & _ & _ & (rm' & w0 & w1 & Hv)).
    destruct (Hfail _ _ _ _ Hv) as (e & He & _). discriminate. }
  destruct Hout as (Hs & Hf & (l & a & errs' & Hl & He & (Hn & Hm & Hc & Hd & Hr) & Hfin)
                    & Htot & Hgave).
  assert (errs' = []) as ->.
  { destruct errs' as [|e' errs']; [reflexivity|]. exfalso.
    subst errs. apply Forall_app in Hra as [Hra _].
    inversion Hra as [|? ? (rm' & w0 & w1 & Hre) _]; subst.
    inversion Hr as [|? ? Hre' _]; subst.
    destruct (Hfail _ _ _ _ Hre) as (e0 & He0 & Hnr). inversion He0; subst e0.
    exact (retryable_not_non_retryable _ _ Hre' Hnr). }
  assert (l = []) as -> by (destruct l; [reflexivity | discriminate]).
  rewrite Hl in Htot. cbn in Htot.
  exists e, s', h. split; [assumption|]. split; [assumption|]. split; [assumption|].
  split; [assumption|].
  unfold format_retry_summary. rewrite Hlk, Htot. reflexivity.
Qed.
End summary.

(** ** Maintenance of the pool *)

Section pool_maintenance_inv.
Context {X : Type} `{Clock X} `{Browsers X}.

Lemma removed_inv_any thr self c b :
  PoolInv thr self c -> PoolInv thr (removed b self) c.
Proof.
  intros Hinv. destruct (decide (b ∈ _browser_pool self)) as [Hin|Hout].
  - apply removed_inv; assumption.
  - destruct Hinv as [Ht Hnd Hsg Hfr Htr Hre Hun]. unfold removed.
    rewrite bool_decide_eq_false_2 by assumption.
    constructor; cbn; try assumption.
    intros b' Hb'. destruct (Htr b' Hb') as (k & Hk & Hc & Hle).
    exists k. rewrite lookup_delete_ne by (intros ->; contradiction). auto.
Qed.

Lemma removed_pool (b b' : handle) (self : PerformanceOptimizer) :
  NoDup (_browser_pool self) ->
  (b' ∈ _browser_pool (removed b self) <-> b' ∈ _browser_pool self /\ b' <> b).
Proof.
  intros Hnd. unfold removed. cbn.
  case_bool_decide as Hin.
  - destruct (decide (b' = b)) as [->|Hne].
    + split; [intros Hb; exfalso; revert Hb; apply list_remove_not_in; assumption|].
      intros [_ ?]; congruence.
    + rewrite list_remove_other by assumption. tauto.
  - split; [intros Hb; split; [assumption | intros ->; contradiction] | tauto].
Qed.

Lemma remove_each_inv (thr : Z) (l : list handle) :
  forall (self : PerformanceOptimizer) (x : X) (c : handle -> nat),
    PoolInv thr self c ->
    exists self' x',
      remove_each l (self, x) = (Ok tt, (self', x'))
      /\ PoolInv thr self' c
      /\ _metrics self' = _metrics self
      /\ next_browser_id self' = next_browser_id self
      /\ _browser_max_age self' = _browser_max_age self
      /\ (forall b, b ∈ _browser_pool self' <-> b ∈ _browser_pool self /\ b ∉ l)
      /\ (forall b, b ∉ l ->
            _browser_usage_count self' !! b = _browser_usage_count self !! b
            /\ _browser_creation_time self' !! b = _browser_creation_time self !! b).
Proof.
  induction l as [|b l IH]; intros self x c Hinv; cbn [remove_each].
  - exists self, x. split; [reflexivity|]. split; [assumption|].
    split; [reflexivity|]. split; [reflexivity|]. split; [reflexivity|].
    split; [intros b; rewrite elem_of_nil; tauto | auto].
  - unfold bind. destruct (remove_browser_run b self x) as [x1 ->].
    destruct (IH (removed b self) x1 c (removed_inv_any _ _ _ _ Hinv))
      as (self' & x' & -> & Hinv' & Hm & Hid & Hage & Hpool & Hmaps).
    exists self', x'. split; [reflexivity|]. split; [assumption|].
    split; [rewrite Hm; reflexivity|]. split; [rewrite Hid; reflexivity|].
    split; [rewrite Hage; reflexivity|].
    split.
    + intros b'. rewrite Hpool, removed_pool by apply Hinv.
      rewrite not_elem_of_cons. tauto.
    + intros b' [Hne Hb']%not_elem_of_cons.
      destruct (Hmaps b' Hb') as [-> ->]. unfold removed. cbn.
      rewrite !lookup_delete_ne by congruence. auto.
Qed.

Lemma restart_each_inv (thr : Z) (l : list handle) :
  forall (self : PerformanceOptimizer) (x : X) (c : handle -> nat),
    PoolInv thr self c ->
    exists self' x',
      restart_each l (self, x) = (Ok tt, (self', x'))
      /\ PoolInv thr self' c
      /\ browsers_restarted (_metrics self')
         = browsers_restarted (_metrics self) + Z.of_nat (length l)
      /\ next_browser_id self' = next_browser_id self
      /\ _browser_max_age self' = _browser_max_age self
      /\ (forall b, b ∈ _browser_pool self' <-> b ∈ _browser_pool self /\ b ∉ l)
      /\ (forall b, b ∉ l ->
            _browser_usage_count self' !! b = _browser_usage_count self !! b
            /\ _browser_creation_time self' !! b = _browser_creation_time self !! b).
Proof.
  induction l as [|b l IH]; intros self x c Hinv; cbn [restart_each].
  - exists self, x. split; [reflexivity|]. split; [assumption|].
    split; [cbn; lia|]. split; [reflexivity|]. split; [reflexivity|].
    split; [intros b; rewrite elem_of_nil; tauto | auto].
  - unfold bind at 1. destruct (remove_browser_run b self x) as [x1 ->].
    unfold bind at 1. unfold update_self at 1, modify. cbn [fst snd].
    destruct (IH (with_metrics (bump_restarted (_metrics (removed b self))) (removed b self))
                x1 c (with_metrics_inv _ _ _ _ (removed_inv_any _ _ _ _ Hinv)))
      as (self' & x' & -> & Hinv' & Hm & Hid & Hage & Hpool & Hmaps).
    exists self', x'. split; [reflexivity|]. split; [assumption|].
    split; [rewrite Hm; cbn; lia|]. split; [rewrite Hid; reflexivity|].
    split; [rewrite Hage; reflexivity|].
    split.
    + intros b'. rewrite Hpool. cbn [with_metrics _browser_pool].
      rewrite removed_pool by apply Hinv. rewrite not_elem_of_cons. tauto.
    + intros b' [Hne Hb']%not_elem_of_cons.
      destruct (Hmaps b' Hb') as [-> ->]. unfold removed. cbn.
      rewrite !lookup_delete_ne by congruence. auto.
Qed.

Lemma cleanup_old_browsers_inv (thr : Z) (self : PerformanceOptimizer) (x : X)
    (c : handle -> nat) :
  PoolInv thr self c ->
  exists self' x',
    _cleanup_old_browsers (self, x) = (Ok tt, (self', x'))
    /\ PoolInv thr self' c
    /\ _metrics self' = _metrics self
    /\ next_browser_id self' = next_browser_id self
    /\ _browser_max_age self' = _browser_max_age self
    /\ (forall b, b ∈ _browser_pool self' ->
          b ∈ _browser_pool self
          /\ _browser_usage_count self' !! b = _browser_usage_count self !! b
          /\ _browser_creation_time self' !! b = _browser_creation_time self !! b).
Proof.
  intros Hinv. unfold _cleanup_old_browsers. unfold bind at 1.
  unfold pool_time, on_world. cbn [fst snd].
  destruct (time_time x) as [t x1]. cbn [fst snd].
  unfold bind at 1. unfold on_self at 1. cbn [fst snd id].
  match goal with |- context [remove_each ?l _] =>
    destruct (remove_each_inv thr l self x1 c Hinv)
      as (self' & x' & -> & Hinv' & Hm & Hid & Hage & Hpool & Hmaps) end.
  exists self', x'. repeat (split; [first [reflexivity | assumption]|]).
  intros b Hb. apply Hpool in Hb as [Hin Hout]. split; [assumption|]. apply Hmaps, Hout.
Qed.

Lemma restart_sweep_inv (thr : Z) (self : PerformanceOptimizer) (x : X)
    (c : handle -> nat) :
  PoolInv thr self c ->
  exists self' x' t,
    (current_time <- pool_time ;;
     self <- on_self id ;;
     restart_each
       (filter (fun b => Is_true (worn_out self current_time b)) (_browser_pool self)))%py
      (self, x)
    = (Ok tt, (self', x'))
    /\ PoolInv thr self' c
    /\ next_browser_id self' = next_browser_id self
    /\ (forall b, b ∈ _browser_pool self' ->
          b ∈ _browser_pool self
          /\ _browser_usage_count self' !! b = _browser_usage_count self !! b
          /\ _browser_creation_time self' !! b = _browser_creation_time self !! b
          /\ worn_out self' t b = false).
Proof.
  intros Hinv.
  unfold bind at 1. unfold pool_time, on_world. cbn [fst snd].
  destruct (time_time x) as [t x3]. cbn [fst snd].
  unfold bind at 1. unfold on_self at 1. cbn [fst snd id].
  match goal with |- context [restart_each ?l _] =>
    destruct (restart_each_inv thr l self x3 c Hinv)
      as (self' & x' & -> & Hinv' & Hm & Hid & Hage & Hpool & Hmaps) end.
  exists self', x', t. split; [reflexivity|]. split; [assumption|].
  split; [assumption|].
  intros b Hb. apply Hpool in Hb as [Hin Hout].
  destruct (Hmaps b Hout) as [Hu' Hc'].
  split; [assumption|]. split; [assumption|]. split; [assumption|].
  destruct (worn_out self' t b) eqn:Hw; [|reflexivity].
  exfalso. apply Hout. apply list_elem_of_filter. split; [|assumption].
  apply Is_true_true. rewrite <- Hw. unfold worn_out.
  rewrite Hu', Hc', Hage.
  rewrite (inv_threshold _ _ _ Hinv'), (inv_threshold _ _ _ Hinv). reflexivity.
Qed.

Lemma restart_browser_if_needed_inv (thr : Z) (self : PerformanceOptimizer) (x : X)
    (c : handle -> nat) :
  PoolInv thr self c ->
  exists self' x' t,
    restart_browser_if_needed (self, x) = (Ok tt, (self', x'))
    /\ PoolInv thr self' c
    /\ next_browser_id self' = next_browser_id self
    /\ (forall b, b ∈ _browser_pool self' ->
          b ∈ _browser_pool self
          /\ _browser_usage_count self' !! b = _browser_usage_count self !! b
          /\ _browser_creation_time self' !! b = _browser_creation_time self !! b
          /\ worn_out self' t b = false).
Proof.
  intros Hinv. unfold restart_browser_if_needed.
  unfold bind at 1. unfold on_world. cbn [fst snd].
  destruct (memory_rss x) as [m x1]. cbn [fst snd].
  unfold bind at 1. unfold on_self at 1. cbn [fst snd].
  unfold bind at 1.
  destruct (_ <? _).
  - unfold bind at 1.
    destruct (cleanup_old_browsers_inv thr self x1 c Hinv)
      as (self1 & x2 & -> & Hinv1 & Hm & Hid & Hage & Hpool).
    unfold update_self at 1, modify. cbn [fst snd].
    destruct (restart_sweep_inv thr _ x2 c
                (with_metrics_inv _ _ _ (bump_cleanups (_metrics self1)) Hinv1))
      as (self' & x' & t & Hrun & Hinv' & Hid' & Hpool').
    exists self', x', t. split; [exact Hrun|]. split; [assumption|].
    split; [rewrite Hid'; exact Hid|].
    intros b Hb. destruct (Hpool' b Hb) as (Hin & Hu & Hc & Hw).
    cbn [with_metrics _browser_pool _browser_usage_count _browser_creation_time] in *.
    destruct (Hpool b Hin) as (Hin0 & Hu0 & Hc0).
    split; [assumption|]. split; [congruence|]. split; [congruence | assumption].
  - unfold ret at 1. apply restart_sweep_inv. assumption.
Qed.

Lemma restart_sweep_inv_at (thr : Z) (self : PerformanceOptimizer) (x : X)
    (c : handle -> nat) :
  PoolInv thr self c ->
  exists self' x',
    (current_time <- pool_time ;;
     self <- on_self id ;;
     restart_each
       (filter (fun b => Is_true (worn_out self current_time b)) (_browser_pool self)))%py
      (self, x)
    = (Ok tt, (self', x'))
    /\ PoolInv thr self' c
    /\ next_browser_id self' = next_browser_id self
    /\ _browser_max_age self' = _browser_max_age self
    /\ (forall b, b ∈ _browser_pool self' ->
          b ∈ _browser_pool self
          /\ _browser_usage_count self' !! b = _browser_usage_count self !! b
          /\ _browser_creation_time self' !! b = _browser_creation_time self !! b
          /\ worn_out self' (fst (time_time x)) b = false).
Proof.
  intros Hinv.
  unfold bind at 1. unfold pool_time, on_world. cbn [fst snd].
  destruct (time_time x) as [t x3]. cbn [fst snd].
  unfold bind at 1. unfold on_self at 1. cbn [fst snd id].
  match goal with |- context [restart_each ?l _] =>
    destruct (restart_each_inv thr l self x3 c Hinv)
      as (self' & x' & -> & Hinv' & Hm & Hid & Hage & Hpool & Hmaps) end.
  exists self', x'. split; [reflexivity|]. split; [assumption|].
  split; [assumption|]. split; [assumption|].
  intros b Hb. apply Hpool in Hb as [Hin Hout].
  destruct (Hmaps b Hout) as [Hu' Hc'].
  split; [assumption|]. split; [assumption|]. split; [assumption|].
  destruct (worn_out self' t b) eqn:Hw; [|reflexivity].
  exfalso. apply Hout. apply list_elem_of_filter. split; [|assumption].
  apply Is_true_true. rewrite <- Hw. unfold worn_out.
  rewrite Hu', Hc', Hage.
  rewrite (inv_threshold _ _ _ Hinv'), (inv_threshold _ _ _ Hinv). reflexivity.
Qed.

Lemma restart_browser_if_needed_inv_at (thr : Z) (self : PerformanceOptimizer) (x : X)
    (c : handle -> nat) :
  PoolInv thr self c ->
  exists self' x',
    restart_browser_if_needed (self, x) = (Ok tt, (self', x'))
    /\ PoolInv thr self' c
    /\ next_browser_id self' = next_browser_id self
    /\ _browser_max_age self' = _browser_max_age self
    /\ (forall b, b ∈ _browser_pool self' ->
          b ∈ _browser_pool self
          /\ _browser_usage_count self' !! b = _browser_usage_count self !! b
          /\ _browser_creation_time self' !! b = _browser_creation_time self !! b
          /\ worn_out self' (sweep_time (self, x)) b = false).
Proof.
  intros Hinv. unfold restart_browser_if_needed, sweep_time.
  unfold bind at 1. unfold on_world. cbn [fst snd].
  destruct (memory_rss x) as [m x1]. cbn [fst snd].
  unfold bind at 1. unfold on_self at 1. cbn [fst snd].
  unfold bind at 1. change (id self) with self.
  destruct (_max_memory_threshold self <? m).
  - unfold bind at 1.
    destruct (cleanup_old_browsers_inv thr self x1 c Hinv)
      as (self1 & x2 & -> & Hinv1 & Hm & Hid & Hage & Hpool).
    unfold update_self at 1, modify. cbn [fst snd].
    destruct (restart_sweep_inv_at thr _ x2 c
                (with_metrics_inv _ _ _ (bump_cleanups (_metrics self1)) Hinv1))
      as (self' & x' & Hrun & Hinv' & Hid' & Hage' & Hpool').
    exists self', x'. split; [exact Hrun|]. split; [assumption|].
    split; [rewrite Hid'; exact Hid|].
    split; [rewrite Hage'; exact Hage|].
    intros b Hb. destruct (Hpool' b Hb) as (Hin & Hu & Hc & Hw).
    cbn [with_metrics _browser_pool _browser_usage_count _browser_creation_time] in *.
    destruct (Hpool b Hin) as (Hin0 & Hu0 & Hc0).
    split; [assumption|]. split; [congruence|]. split; [congruence | assumption].
  - unfold ret at 1. apply restart_sweep_inv_at. assumption.
Qed.
Lemma cleanup_resources_inv (thr : Z) (self : PerformanceOptimizer) (x : X)
    (c : handle -> nat) :
  PoolInv thr self c ->
  exists self' x',
    cleanup_resources (self, x) = (Ok tt, (self', x'))
    /\ PoolInv thr self' c
    /\ _browser_pool self' = [].
Proof.
  intros Hinv. unfold cleanup_resources. unfold bind at 1. unfold on_self at 1.
  cbn [fst snd id]. unfold bind at 1.
  destruct (remove_each_inv thr (_browser_pool self) self x c Hinv)
    as (self1 & x1 & -> & Hinv1 & Hm & Hid & Hage & Hpool & Hmaps).
  unfold update_self, modify. cbn [fst snd].
  do 2 eexists. split; [reflexivity|]. split; [|reflexivity].
  assert (_browser_pool self1 = []) as Hempty.
  { destruct (_browser_pool self1) as [|b l] eqn:E; [reflexivity|].
    destruct (proj1 (Hpool b) ltac:(left)). contradiction. }
  destruct Hinv1 as [Ht Hnd Hsg Hfr Htr Hre Hun].
  constructor; cbn; try assumption.
  - constructor.
  - lia.
  - intros b Hb. apply elem_of_nil in Hb. contradiction.
  - intros b Hb. apply elem_of_nil in Hb. contradiction.
  - intros b _. apply Hre. rewrite Hempty. apply not_elem_of_nil.
Qed.
End pool_maintenance_inv.

Lemma PoolInv_empty (self : PerformanceOptimizer) :
  0 <= _browser_restart_threshold self -> _browser_pool self = [] ->
  PoolInv (_browser_restart_threshold self) self (fun _ => O).
Proof.
  intros Hthr Hempty. constructor; rewrite ?Hempty.
  - reflexivity.
  - constructor.
  - cbn. lia.
  - intros b Hb. apply elem_of_nil in Hb. contradiction.
  - intros b Hb. apply elem_of_nil in Hb. contradiction.
  - intros b _. cbn. lia.
  - reflexivity.
Qed.

Lemma PoolInv_ext (thr : Z) (self : PerformanceOptimizer) (c c' : handle -> nat) :
  (forall b, c b = c' b) -> PoolInv thr self c -> PoolInv thr self c'.
Proof.
  intros Heq [Ht Hnd Hsg Hfr Htr Hre Hun]. constructor; try assumption.
  - intros b Hb. rewrite <- Heq. apply Htr; assumption.
  - intros b Hb. rewrite <- Heq. apply Hre; assumption.
  - intros b Hb. rewrite <- Heq. apply Hun; assumption.
Qed.

Section pool_call_sequences.
Context {X : Type} `{Clock X} `{Browsers X}.

Lemma run_calls_inv (thr : Z) (calls : list PoolCall) :
  0 <= thr ->
  forall (self : PerformanceOptimizer) (x : X) (c : handle -> nat),
    PoolInv thr self c ->
    exists rs self' x',
      run_calls calls (self, x) = (rs, (self', x'))
      /\ PoolInv thr self' (fun b => (c b + count_returns b rs)%nat).
Proof.
  intros Hthr. induction calls as [|call calls IH]; intros self x c Hinv; cbn [run_calls].
  - exists [], self, x. split; [reflexivity|].
    apply (PoolInv_ext _ _ c); [|assumption].
    intros b. unfold count_returns. cbn. lia.
  - destruct call as [u| | |].
    + destruct (get_optimized_browser_inv thr u self x c Hthr Hinv)
        as (r & self1 & x1 & -> & Hinv1 & _ & _ & _).
      destruct (IH self1 x1 _ Hinv1) as (rs & self2 & x2 & -> & Hinv2).
      exists (r :: rs), self2, x2. split; [reflexivity|].
      apply (PoolInv_ext _ _ (fun b => (bump c r b + count_returns b rs)%nat));
        [|assumption].
      intros b. unfold bump, count_returns. cbn [List.filter].
      destruct (returns b r); cbn [length]; lia.
    + destruct (restart_browser_if_needed_inv thr self x c Hinv)
        as (self1 & x1 & t & -> & Hinv1 & _). cbn [snd]. apply IH. assumption.
    + destruct (cleanup_old_browsers_inv thr self x c Hinv)
        as (self1 & x1 & -> & Hinv1 & _). cbn [snd]. apply IH. assumption.
    + destruct (cleanup_resources_inv thr self x c Hinv)
        as (self1 & x1 & -> & Hinv1 & _). cbn [snd]. apply IH. assumption.
Qed.

(** In every sequence of acquisitions, restart checks and clean-ups on a
    pool that starts empty, with a restart threshold of at least 0: no
    handle is returned by more than threshold + 1 acquisitions; the pool
    never holds more than one browser; and a pooled browser's usage count
    is the number of acquisitions that returned it minus 1. *)
Theorem pool_calls_keep_usage_bound (calls : list PoolCall)
    (self : PerformanceOptimizer) (x : X) :
  0 <= _browser_restart_threshold self ->
  _browser_pool self = [] ->
  let rs := fst (run_calls calls (self, x)) in
  let s := snd (run_calls calls (self, x)) in
  (forall b, Z.of_nat (count_returns b rs) <= _browser_restart_threshold self + 1)
  /\ (length (_browser_pool (fst s)) <= 1)%nat
  /\ (forall b, b ∈ _browser_pool (fst s) ->
        _browser_usage_count (fst s) !! b = Some (Z.of_nat (count_returns b rs) - 1)).
Proof.
  intros Hthr Hempty rs s. subst rs s.
  destruct (run_calls_inv _ calls Hthr self x _ (PoolInv_empty self Hthr Hempty))
    as (rs & self' & x' & -> & Hinv).
  cbn [fst snd]. split; [|split].
  - intros b. apply (inv_bound _ _ _ b) in Hinv. cbn in Hinv. exact Hinv.
  - apply Hinv.
  - intros b Hin.
    destruct (Hinv.(inv_tracked _ _ _) b Hin) as (k & Hk & Hc & _).
    cbn in Hc. rewrite Hk. f_equal. lia.
Qed.

(** In any state that such a sequence of calls reaches,
    [restart_browser_if_needed] (the process's memory being readable)
    returns normally, removes browsers only, and leaves in the pool no
    browser that is overused or too old at the clock reading of its sweep,
    that is the reading taken after the memory check and the clean-up that
    this check may start: a browser that stays keeps its usage count, which
    is below the restart threshold, and its creation time, and its age at
    that reading is below the maximum age. *)
Theorem restart_leaves_no_worn_out_browser (calls : list PoolCall)
    (self : PerformanceOptimizer) (x : X) :
  0 <= _browser_restart_threshold self ->
  _browser_pool self = [] ->
  let s := snd (run_calls calls (self, x)) in
  exists self' x',
    restart_browser_if_needed s = (Ok tt, (self', x'))
    /\ forall b, b ∈ _browser_pool self' ->
         b ∈ _browser_pool (fst s)
         /\ worn_out self' (sweep_time s) b = false
         /\ (exists k, _browser_usage_count self' !! b = Some k
                       /\ _browser_usage_count (fst s) !! b = Some k
                       /\ k < _browser_restart_threshold self)
         /\ _browser_creation_time self' !! b = _browser_creation_time (fst s) !! b
         /\ (age_at (fst s) (sweep_time s) b < _browser_max_age (fst s))%Q.
Proof.
  intros Hthr Hempty s. subst s.
  destruct (run_calls_inv _ calls Hthr self x _ (PoolInv_empty self Hthr Hempty))
    as (rs & self1 & x1 & -> & Hinv).
  cbn [fst snd].
  destruct (restart_browser_if_needed_inv_at _ self1 x1 _ Hinv)
    as (self' & x' & Hrun & Hinv' & Hid & Hage & Hpool).
  exists self', x'. split; [assumption|].
  intros b Hb. destruct (Hpool b Hb) as (Hin & Hu & Hc & Hw).
  split; [assumption|]. split; [assumption|].
  unfold worn_out in Hw. apply orb_false_iff in Hw as [Hw1 Hw2].
  split; [|split; [assumption|]].
  - destruct (Hinv'.(inv_tracked _ _ _) b Hb) as (k & Hk & _ & _).
    exists k. split; [assumption|]. split; [congruence|].
    rewrite Hk in Hw1. cbn [default from_option] in Hw1.
    apply Z.leb_gt in Hw1. unfold id in Hw1.
    rewrite (inv_threshold _ _ _ Hinv') in Hw1. exact Hw1.
  - unfold age_at. rewrite <- Hc, <- Hage.
    apply Qnot_le_lt. intros Hle. apply Qle_bool_iff in Hle. congruence.
Qed.

(** [cleanup_resources] never raises, whatever the browsers do when they
    are quit; afterwards the pool and both tracking maps are empty and
    every counter is back to 0, while the thresholds are as before. *)
Theorem cleanup_resources_empties_pool (s : PState X) :
  exists x',
    cleanup_resources s
    = (Ok tt,
       (with_metrics PoolMetrics_zero (with_pool [] ∅ ∅ (fst s)), x')).
Proof.
  destruct s as [self x]. unfold cleanup_resources. unfold bind at 1.
  unfold on_self at 1. cbn [fst snd id]. unfold bind at 1.
  assert (forall l (self0 : PerformanceOptimizer) (x0 : X),
            exists self1 x1,
              remove_each l (self0, x0) = (Ok tt, (self1, x1))
              /\ _browser_restart_threshold self1 = _browser_restart_threshold self0
              /\ _max_memory_threshold self1 = _max_memory_threshold self0
              /\ _browser_max_age self1 = _browser_max_age self0
              /\ _max_workers self1 = _max_workers self0
              /\ next_browser_id self1 = next_browser_id self0) as Heach.
  { induction l as [|b l IH]; intros self0 x0; cbn [remove_each].
    - exists self0, x0. repeat split.
    - unfold bind. destruct (remove_browser_run b self0 x0) as [x1 ->].
      destruct (IH (removed b self0) x1) as (self1 & x2 & -> & H1 & H2 & H3 & H4 & H5).
      exists self1, x2. repeat split; assumption. }
  destruct (Heach (_browser_pool self) self x) as (self1 & x1 & -> & H1 & H2 & H3 & H4 & H5).
  unfold update_self, modify. cbn [fst snd]. exists x1. f_equal. f_equal.
  unfold with_metrics, with_pool. cbn. rewrite H1, H2, H3, H4, H5. reflexivity.
Qed.
End pool_call_sequences.

Section pool_metrics.
Context {X : Type} `{Clock X} `{Browsers X}.

Lemma reusable_scan_metrics (t : Q) (snapshot : list handle) :
  forall s : PState X,
    exists res s', reusable_scan snapshot t s = (Ok res, s')
                   /\ _metrics (fst s') = _metrics (fst s).
Proof.
  induction snapshot as [|b rest IH]; intros [self x]; cbn [reusable_scan].
  - do 2 eexists. split; reflexivity.
  - unfold bind at 1. destruct (probe_run b self x) as (alive & x1 & ->).
    assert (forall x1, exists res s',
              (_remove_browser_from_pool b ;;; reusable_scan rest t) (self, x1)
              = (Ok res, s')
              /\ _metrics (fst s') = _metrics self) as Hskip.
    { intros x2. unfold bind at 1. destruct (remove_browser_run b self x2) as [x3 ->].
      destruct (IH (removed b self, x3)) as (res & s' & -> & Hm).
      exists res, s'. split; [reflexivity | exact Hm]. }
    destruct alive; cbn [negb]; [|apply Hskip].
    unfold bind at 1. unfold on_self at 1. cbn [fst snd id].
    match goal with |- context [if ?cond then _ else _] => destruct cond end;
      [apply Hskip|].
    unfold bind, update_self, modify, ret. do 2 eexists. split; reflexivity.
Qed.

Lemma get_optimized_browser_metrics (u : string) (s : PState X) :
  exists r s',
    get_optimized_browser u s = (r, s')
    /\ total_requests (_metrics (fst s')) = total_requests (_metrics (fst s)) + 1
    /\ browsers_created (_metrics (fst s')) + browsers_reused (_metrics (fst s'))
       = browsers_created (_metrics (fst s)) + browsers_reused (_metrics (fst s))
         + Z.of_nat (count_ok [r])
    /\ browsers_restarted (_metrics (fst s')) = browsers_restarted (_metrics (fst s))
    /\ memory_cleanups (_metrics (fst s')) = memory_cleanups (_metrics (fst s)).
Proof.
  destruct s as [self x]. unfold get_optimized_browser.
  unfold bind at 1. unfold update_self at 1, modify. cbn [fst snd].
  unfold bind at 1. unfold _get_reusable_browser. unfold bind at 1.
  unfold pool_time, on_world. cbn [fst snd].
  destruct (time_time x) as [t x1]. cbn [fst snd].
  unfold bind at 1. unfold on_self at 1. cbn [fst snd id].
  match goal with |- context [reusable_scan ?l t ?s0] =>
    destruct (reusable_scan_metrics t l s0) as (res & [self1 x2] & -> & Hm) end.
  cbn [fst snd with_metrics _metrics] in Hm.
  destruct res as [b|].
  - unfold bind, update_self, modify, ret. do 2 eexists. split; [reflexivity|].
    cbn. rewrite Hm. cbn. repeat split; lia.
  - unfold bind at 1. unfold _create_optimized_browser.
    unfold bind at 1. unfold on_self at 1. cbn [fst snd id].
    unfold bind at 1. unfold update_self at 1, modify. cbn [fst snd].
    unfold try_except, bind at 1, on_world. cbn [fst snd].
    destruct (chrome_start (next_browser_id self1) u x2) as [[[]|cause] x3].
    + unfold ret at 1. unfold bind at 1. unfold update_self at 1, modify. cbn [fst snd].
      unfold bind at 1. cbn [fst snd]. destruct (time_time x3) as [t' x4].
      unfold bind, update_self, modify, ret. do 2 eexists. split; [reflexivity|].
      cbn. rewrite Hm. cbn. repeat split; lia.
    + unfold raise. do 2 eexists. split; [reflexivity|].
      cbn. rewrite Hm. cbn. repeat split; lia.
Qed.

(** The pool's counters account for the acquisitions: over any number of
    calls of [get_optimized_browser], [total_requests] grows by the number
    of calls, and [browsers_created] plus [browsers_reused] by the number
    of calls that returned a browser; evictions during acquisition do not
    count as restarts. *)
Theorem pool_metrics_account_for_acquisitions (u : string) (n : nat) (s : PState X) :
  let rs := fst (acquire_n u n s) in
  let s' := snd (acquire_n u n s) in
  length rs = n
  /\ total_requests (_metrics (fst s')) = total_requests (_metrics (fst s)) + Z.of_nat n
  /\ browsers_created (_metrics (fst s')) + browsers_reused (_metrics (fst s'))
     = browsers_created (_metrics (fst s)) + browsers_reused (_metrics (fst s))
       + Z.of_nat (count_ok rs)
  /\ browsers_restarted (_metrics (fst s')) = browsers_restarted (_metrics (fst s))
  /\ memory_cleanups (_metrics (fst s')) = memory_cleanups (_metrics (fst s)).
Proof.
  cbn zeta. revert s. induction n as [|n IH]; intros s; cbn [acquire_n].
  - cbn. repeat split; lia.
  - destruct (get_optimized_browser_metrics u s) as (r & s1 & -> & Ht & Hc & Hr & Hm).
    specialize (IH s1). destruct (acquire_n u n s1) as [rs s2]. cbn [fst snd] in *.
    destruct IH as (Hl & Ht' & Hc' & Hr' & Hm').
    unfold count_ok in *. cbn [List.filter length] in *.
    destruct r; cbn [length] in *; repeat split; lia.
Qed.
End pool_metrics.

Section creation_failure.
Context {X : Type} `{Clock X} `{Browsers X}.

(** The Chrome options being plain settings, whatever
    [get_optimized_browser] raises comes from the [try] block of
    [_create_optimized_browser]: it is a [RuntimeError] whose message is
    "Failed to create optimized browser: " followed by the message of the
    failure caught there.  That message names a browser, so the failure
    classifier files it under DNS, SSL, timeout or browser errors, never
    as HTTP, parse, network or unknown. *)
Theorem browser_creation_failure_is_classified (u : string) (s s' : PState X)
    (e : Exception) :
  get_optimized_browser u s = (Raise e, s') ->
  exc_type_name e = "RuntimeError"
  /\ startswith (exc_str e) "Failed to create optimized browser: " = true
  /\ (exists b cause x x', chrome_start b u x = (Raise cause, x')
        /\ exc_str e = ("Failed to create optimized browser: " +:+ exc_str cause)%string)
  /\ category_of e ∈ [DNS_ERROR; SSL_ERROR; TIMEOUT_ERROR; BROWSER_ERROR].
Proof.
  destruct s as [self x]. unfold get_optimized_browser.
  unfold bind at 1. unfold update_self at 1, modify. cbn [fst snd].
  unfold bind at 1. unfold _get_reusable_browser. unfold bind at 1.
  unfold pool_time, on_world. cbn [fst snd].
  destruct (time_time x) as [t x1]. cbn [fst snd].
  unfold bind at 1. unfold on_self at 1. cbn [fst snd id].
  match goal with |- context [reusable_scan ?l t ?s0] =>
    destruct (reusable_scan_metrics t l s0) as (res & [self1 x2] & Hscan & _) end.
  rewrite Hscan. destruct res as [b|].
  { unfold bind, update_self, modify, ret. discriminate. }
  unfold bind at 1. unfold _create_optimized_browser.
  unfold bind at 1. unfold on_self at 1. cbn [fst snd id].
  unfold bind at 1. unfold update_self at 1, modify. cbn [fst snd].
  unfold try_except, bind at 1, on_world. cbn [fst snd].
  destruct (chrome_start (next_browser_id self1) u x2) as [[[]|cause] x3] eqn:Hstart.
  { unfold ret at 1. unfold bind at 1. unfold update_self at 1, modify. cbn [fst snd].
    unfold bind at 1. cbn [fst snd]. destruct (time_time x3) as [t' x4].
    unfold bind, update_self, modify, ret. discriminate. }
  unfold raise. intros Hr. inversion Hr; subst e s'; clear Hr.
  cbn [mk_exception exc_type_name exc_str].
  split; [reflexivity|]. split; [apply prefix_app|]. split; [do 4 eexists; split; [exact Hstart | reflexivity]|].
  rewrite category_of_unfold. cbn zeta.
  cbn [mk_exception exc_str].
  assert (_is_browser_error
            (mk_exception "RuntimeError" [RuntimeError]
               ("Failed to create optimized browser: " +:+ exc_str cause))
            (lower ("Failed to create optimized browser: " +:+ exc_str cause)) = true) as Hb.
  { unfold _is_browser_error, any_in, browser_indicators. cbn [existsb].
    rewrite lower_app.
    rewrite (contains_app_l "browser" (lower "Failed to create optimized browser: ")
               (lower (exc_str cause))) by (vm_compute; reflexivity).
    rewrite !orb_true_r. reflexivity. }
  destruct (_is_dns_error _ _); [set_solver|].
  destruct (_is_ssl_error _ _); [set_solver|].
  destruct (_is_timeout_error _ _); [set_solver|].
  rewrite Hb. set_solver.
Qed.
End creation_failure.

(** ** The detection pipeline *)

Lemma html_frameworks_nodup (html : string) :
  NoDup (html_frameworks html) /\ html_frameworks html ⊆ framework_names.
Proof.
  unfold html_frameworks, framework_names. cbn zeta.
  destruct (any_in react_patterns _), (any_in vue_patterns _),
    (any_in angular_patterns _), (any_in nextjs_patterns _),
    (any_in nuxtjs_patterns _); cbn [app];
    (split; apply (bool_decide_unpack _); vm_compute; exact I).
Qed.

Section frameworks.
Context {X : Type} `{Clock X} `{Browsers X} `{Web X}.

Lemma i_log_error_run (u : string) (c : ErrorCategory) (m : string)
    (d : option LogDetails) (s : IState X) :
  exists eh', i_handler (log_error u c m d) s = (Ok tt, (eh', snd s)).
Proof.
  unfold i_handler, zoom.
  destruct (log_error_run u c m d (fst s)) as [eh' ->]. eexists. reflexivity.
Qed.

Lemma js_probe_run (drv : handle) (script name : string) (frameworks : list string)
    (s : IState X) :
  exists found s',
    js_probe drv script name frameworks s = (Ok found, s')
    /\ fst (snd s') = fst (snd s)
    /\ (found = frameworks
        \/ (found = frameworks ++ [name] /\ (name ∉ frameworks)
            /\ exists x', execute_script_flag drv script (snd (snd s)) = (Ok true, x'))).
Proof.
  unfold js_probe, try_except, bind, i_world, ret. cbn [fst snd].
  destruct (execute_script_flag drv script (snd (snd s))) as [[found|e] x'] eqn:Hs.
  - destruct found; cbn [andb].
    + case_bool_decide as Hin; cbn [negb].
      * do 2 eexists. split; [reflexivity|]. cbn. auto.
      * do 2 eexists. split; [reflexivity|]. cbn. split; [reflexivity|].
        right. eauto.
    + do 2 eexists. split; [reflexivity|]. cbn. auto.
  - unfold bind.
    match goal with |- context [i_handler (log_error ?a ?b ?c ?d) ?st] =>
      destruct (i_log_error_run a b c d st) as [eh' ->] end.
    do 2 eexists. split; [reflexivity|]. cbn. auto.
Qed.

Lemma probe_keeps (name : string) (base frameworks found : list string) :
  name ∈ framework_names ->
  (exists extra, frameworks = base ++ extra) -> NoDup frameworks ->
  frameworks ⊆ framework_names ->
  (found = frameworks \/ (found = frameworks ++ [name] /\ (name ∉ frameworks))) ->
  (exists extra, found = base ++ extra) /\ NoDup found /\ found ⊆ framework_names.
Proof.
  intros Hname [extra ->] Hnd Hsub [->|[-> Hnew]].
  - eauto.
  - split; [exists (extra ++ [name]); rewrite app_assoc; reflexivity|].
    split; [|intros y [Hy| ->%list_elem_of_singleton]%elem_of_app; auto].
    apply NoDup_app. split; [assumption|]. split; [|apply NoDup_singleton].
    intros y Hy ->%list_elem_of_singleton. contradiction.
Qed.

Lemma detect_frameworks_run (html : string) (drv : handle) (s : IState X) :
  exists found s',
    _detect_frameworks html drv s = (Ok found, s')
    /\ fst (snd s') = fst (snd s)
    /\ (exists extra, found = html_frameworks html ++ extra)
    /\ NoDup found
    /\ found ⊆ framework_names.
Proof.
  destruct (html_frameworks_nodup html) as [Hnd0 Hsub0].
  assert (exists extra, html_frameworks html = html_frameworks html ++ extra) as Hp0
    by (exists []; rewrite app_nil_r; reflexivity).
  unfold _detect_frameworks. cbn zeta.
  unfold bind at 1.
  destruct (js_probe_run drv "has_react" "React" (html_frameworks html) s)
    as (f1 & s1 & -> & Hd1 & Hc1).
  destruct (probe_keeps "React" (html_frameworks html) _ f1 ltac:(apply (bool_decide_unpack _); vm_compute; exact I) Hp0 Hnd0 Hsub0)
    as (Hp1 & Hnd1 & Hsub1); [tauto|].
  unfold bind at 1.
  destruct (js_probe_run drv "has_angular" "Angular" f1 s1) as (f2 & s2 & -> & Hd2 & Hc2).
  destruct (probe_keeps "Angular" (html_frameworks html) _ f2 ltac:(apply (bool_decide_unpack _); vm_compute; exact I) Hp1 Hnd1 Hsub1)
    as (Hp2 & Hnd2 & Hsub2); [tauto|].
  unfold bind at 1.
  destruct (js_probe_run drv "has_vue" "Vue" f2 s2) as (f3 & s3 & -> & Hd3 & Hc3).
  destruct (probe_keeps "Vue" (html_frameworks html) _ f3 ltac:(apply (bool_decide_unpack _); vm_compute; exact I) Hp2 Hnd2 Hsub2)
    as (Hp3 & Hnd3 & Hsub3); [tauto|].
  unfold bind at 1.
  destruct (js_probe_run drv "has_nextjs" "Next.js" f3 s3) as (f4 & s4 & -> & Hd4 & Hc4).
  destruct (probe_keeps "Next.js" (html_frameworks html) _ f4 ltac:(apply (bool_decide_unpack _); vm_compute; exact I) Hp3 Hnd3 Hsub3)
    as (Hp4 & Hnd4 & Hsub4); [tauto|].
  unfold bind at 1.
  destruct (js_probe_run drv "has_nuxtjs" "Nuxt.js" f4 s4) as (f5 & s5 & -> & Hd5 & Hc5).
  destruct (probe_keeps "Nuxt.js" (html_frameworks html) _ f5 ltac:(apply (bool_decide_unpack _); vm_compute; exact I) Hp4 Hnd4 Hsub4)
    as (Hp5 & Hnd5 & Hsub5); [tauto|].
  unfold ret. exists f5, s5. split; [reflexivity|].
  split; [congruence|]. auto.
Qed.
(** [_detect_frameworks] never raises, whatever the runtime probes do.  The
    list it returns starts with the frameworks found in the HTML, has no
    duplicates and holds only the five known names; and the detector's own
    attributes are left as they were. *)
Theorem detect_frameworks_sound (html : string) (drv : handle) (s : IState X) :
  exists found s',
    _detect_frameworks html drv s = (Ok found, s')
    /\ fst (snd s') = fst (snd s)
    /\ (exists extra, found = html_frameworks html ++ extra)
    /\ NoDup found
    /\ found ⊆ framework_names.
Proof. apply detect_frameworks_run. Qed.
End frameworks.

Section dynamic_content.
Context {X : Type} `{Clock X} `{Browsers X} `{Web X}.

Lemma analyze_dynamic_content_run (drv : handle) (s : IState X) :
  exists dyn mc s',
    _analyze_dynamic_content drv s = (Ok (dyn, mc), s')
    /\ fst (snd s') = fst (snd s)
    /\ (5 < mc -> dyn = true)
    /\ ((fst s' = fst s
         /\ exists h0 h1 t0 t1 x0 x1 x2 x3 x4 x5 x6 x7,
              execute_script_text drv "outerHTML" x0 = (Ok h0, x1)
              /\ execute_script_text drv "textContent" x2 = (Ok t0, x3)
              /\ execute_script_text drv "outerHTML" x4 = (Ok h1, x5)
              /\ execute_script_text drv "textContent" x6 = (Ok t1, x7)
              /\ dyn = negb (len h1 =? len h0) || negb (len t1 =? len t0) || (5 <? mc))
        \/ (dyn = false /\ mc = 0
            /\ exists e,
                 logger (fst s')
                 = logger (fst s)
                   ++ [LogError ERROR "Error occurred: " "dynamic_content_analysis"
                         BROWSER_ERROR
                         ("Dynamic content analysis failed: " +:+ exc_str e)])).
Proof.
  destruct s as [eh [d x]].
  assert (forall e (st : IState X), fst st = eh -> fst (snd st) = d ->
    exists dyn mc s',
      (i_handler (log_error "dynamic_content_analysis" BROWSER_ERROR
                    ("Dynamic content analysis failed: " +:+ exc_str e) None) ;;;
       ret (false, 0)) st = (Ok (dyn, mc), s')
      /\ fst (snd s') = d
      /\ (5 < mc -> dyn = true)
      /\ ((fst s' = eh /\ False)
          \/ (dyn = false /\ mc = 0
              /\ exists e,
                   logger (fst s')
                   = logger eh
                     ++ [LogError ERROR "Error occurred: " "dynamic_content_analysis"
                           BROWSER_ERROR
                           ("Dynamic content analysis failed: " +:+ exc_str e)])))
    as Hfail.
  { intros e [eh0 [d0 x0]] Heh Hd. cbn [fst snd] in *. subst.
    unfold bind, i_handler, zoom, log_error, emit, modify, ret. cbn.
    do 3 eexists. split; [reflexivity|]. cbn. split; [reflexivity|].
    split; [lia|]. right. split; [reflexivity|]. split; [reflexivity|].
    exists e. reflexivity. }
  assert (forall e (st : IState X), fst st = eh -> fst (snd st) = d ->
    exists dyn mc s',
      (i_handler (log_error "dynamic_content_analysis" BROWSER_ERROR
                    ("Dynamic content analysis failed: " +:+ exc_str e) None) ;;;
       ret (false, 0)) st = (Ok (dyn, mc), s')
      /\ fst (snd s') = d
      /\ (5 < mc -> dyn = true)
      /\ ((fst s' = eh
           /\ exists h0 h1 t0 t1 x0 x1 x2 x3 x4 x5 x6 x7,
                execute_script_text drv "outerHTML" x0 = (Ok h0, x1)
                /\ execute_script_text drv "textContent" x2 = (Ok t0, x3)
                /\ execute_script_text drv "outerHTML" x4 = (Ok h1, x5)
                /\ execute_script_text drv "textContent" x6 = (Ok t1, x7)
                /\ dyn = negb (len h1 =? len h0) || negb (len t1 =? len t0) || (5 <? mc))
          \/ (dyn = false /\ mc = 0
              /\ exists e,
                   logger (fst s')
                   = logger eh
                     ++ [LogError ERROR "Error occurred: " "dynamic_content_analysis"
                           BROWSER_ERROR
                           ("Dynamic content analysis failed: " +:+ exc_str e)])))
    as Hfail'.
  { intros e st Heh Hd. destruct (Hfail e st Heh Hd) as (dyn & mc & s' & Hr & Hdd & Hm & Hc).
    exists dyn, mc, s'. split; [assumption|]. split; [assumption|]. split; [assumption|].
    destruct Hc as [[_ []]|Hc]; right; assumption. }
  clear Hfail.
  unfold _analyze_dynamic_content, try_except. cbn [fst snd].
  unfold bind at 1. unfold i_world at 1. cbn [fst snd].
  destruct (execute_script_flag drv "install_mutation_observer" x) as [[b0|e] x1];
    [|apply Hfail'; reflexivity].
  unfold bind at 1. unfold i_world at 1. cbn [fst snd].
  destruct (execute_script_text drv "outerHTML" x1) as [[h0|e] x2] eqn:E1;
    [|apply Hfail'; reflexivity].
  unfold bind at 1. unfold i_world at 1. cbn [fst snd].
  destruct (execute_script_text drv "textContent" x2) as [[t0|e] x3] eqn:E2;
    [|apply Hfail'; reflexivity].
  unfold bind at 1. unfold i_sleep at 1, modify. cbn [fst snd].
  unfold bind at 1. unfold i_world at 1. cbn [fst snd].
  destruct (execute_script_text drv "outerHTML" (time_sleep 1 x3)) as [[h1|e] x4] eqn:E3;
    [|apply Hfail'; reflexivity].
  unfold bind at 1. unfold i_world at 1. cbn [fst snd].
  destruct (execute_script_text drv "textContent" x4) as [[t1|e] x5] eqn:E4;
    [|apply Hfail'; reflexivity].
  unfold bind at 1. unfold i_world at 1. cbn [fst snd].
  destruct (execute_script_count drv "mutationCount" x5) as [[mc|e] x6];
    [|apply Hfail'; reflexivity].
  unfold bind at 1. unfold i_world at 1. cbn [fst snd].
  destruct (execute_script_flag drv "disconnect_mutation_observer" x6) as [[b1|e] x7];
    [|apply Hfail'; reflexivity].
  unfold ret. do 3 eexists. split; [reflexivity|]. cbn [fst snd].
  split; [reflexivity|].
  assert ((negb (len h1 =? len h0) || negb (len t1 =? len t0) || (5 <? mc)
           || (100 <? Z.abs (len t1 - len t0)))
          = (negb (len h1 =? len h0) || negb (len t1 =? len t0) || (5 <? mc))) as Heq.
  { destruct (100 <? Z.abs (len t1 - len t0)) eqn:E; [|apply orb_false_r].
    apply Z.ltb_lt in E.
    destruct (len t1 =? len t0) eqn:E'; [apply Z.eqb_eq in E'; lia|].
    destruct (len h1 =? len h0), (5 <? mc); reflexivity. }
  split.
  - intros Hmc. apply Z.ltb_lt in Hmc. rewrite Hmc. rewrite orb_true_r. reflexivity.
  - left. split; [reflexivity|].
    exists h0, h1, t0, t1. do 8 eexists.
    split; [exact E1|]. split; [exact E2|]. split; [exact E3|]. split; [exact E4|].
    exact Heq.
Qed.
(** [_analyze_dynamic_content] never raises, and what it returns is fixed by
    the answers of its own scripts, asked in its own order from the world
    it is called in.  Either every script answers: then the handler and the
    detector are left as they were, the mutation count is the one read, and
    content counts as dynamic exactly when the HTML read after the pause
    differs in length from the HTML read before it, or the text does, or
    more than 5 mutations were counted (the test on a size change of more
    than 100 adds nothing).  Or a script raises: then the answer is
    [(False, 0)], one error is logged under the browser category with the
    text of that exception, and the detector is left as it was. *)
Theorem analyze_dynamic_content_total (drv : handle) (s : IState X) :
  (exists h0 t0 h1 t1 mc x',
     probe_answers drv (snd (snd s)) h0 t0 h1 t1 mc x'
     /\ _analyze_dynamic_content drv s
        = (Ok (negb (len h1 =? len h0) || negb (len t1 =? len t0) || (5 <? mc), mc),
           (fst s, (fst (snd s), x'))))
  \/ (exists e x',
        probe_fails drv (snd (snd s)) e x'
        /\ _analyze_dynamic_content drv s
           = (Ok (false, 0),
              ({| logger := logger (fst s)
                            ++ [LogError ERROR "Error occurred: " "dynamic_content_analysis"
                                  BROWSER_ERROR
                                  ("Dynamic content analysis failed: " +:+ exc_str e)];
                  non_retryable_patterns := non_retryable_patterns (fst s) |},
               (fst (snd s), x')))).
Proof.
  destruct s as [eh [d x]]. cbn [fst snd].
  remember (_analyze_dynamic_content drv (eh, (d, x))) as r eqn:Hr.
  unfold _analyze_dynamic_content, try_except in Hr.
  unfold bind at 1 in Hr. unfold i_world at 1 in Hr. cbn [fst snd] in Hr.
  destruct (execute_script_flag drv "install_mutation_observer" x) as [[b0|e] x1] eqn:E0.
  2:{ right. exists e, x1. split; [apply fails_install; exact E0 | exact Hr]. }
  unfold bind at 1 in Hr. unfold i_world at 1 in Hr. cbn [fst snd] in Hr.
  destruct (execute_script_text drv "outerHTML" x1) as [[h0|e] x2] eqn:E1.
  2:{ right. exists e, x2. split; [eapply fails_initial_html; eassumption | exact Hr]. }
  unfold bind at 1 in Hr. unfold i_world at 1 in Hr. cbn [fst snd] in Hr.
  destruct (execute_script_text drv "textContent" x2) as [[t0|e] x3] eqn:E2.
  2:{ right. exists e, x3. split; [eapply fails_initial_text; eassumption | exact Hr]. }
  unfold bind at 1 in Hr. unfold i_sleep at 1, modify in Hr. cbn [fst snd] in Hr.
  unfold bind at 1 in Hr. unfold i_world at 1 in Hr. cbn [fst snd] in Hr.
  destruct (execute_script_text drv "outerHTML" (time_sleep 1 x3)) as [[h1|e] x4] eqn:E3.
  2:{ right. exists e, x4. split; [eapply fails_final_html; eassumption | exact Hr]. }
  unfold bind at 1 in Hr. unfold i_world at 1 in Hr. cbn [fst snd] in Hr.
  destruct (execute_script_text drv "textContent" x4) as [[t1|e] x5] eqn:E4.
  2:{ right. exists e, x5. split; [eapply fails_final_text; eassumption | exact Hr]. }
  unfold bind at 1 in Hr. unfold i_world at 1 in Hr. cbn [fst snd] in Hr.
  destruct (execute_script_count drv "mutationCount" x5) as [[mc|e] x6] eqn:E5.
  2:{ right. exists e, x6. split; [eapply fails_count; eassumption | exact Hr]. }
  unfold bind at 1 in Hr. unfold i_world at 1 in Hr. cbn [fst snd] in Hr.
  destruct (execute_script_flag drv "disconnect_mutation_observer" x6) as [[b1|e] x7] eqn:E6.
  2:{ right. exists e, x7. split; [eapply fails_disconnect; eassumption | exact Hr]. }
  left. exists h0, t0, h1, t1, mc, x7.
  split; [eapply probe_answered; eassumption|].
  rewrite Hr. unfold ret. do 3 f_equal.
  destruct (100 <? Z.abs (len t1 - len t0)) eqn:E; [|apply orb_false_r].
  apply Z.ltb_lt in E.
  destruct (len t1 =? len t0) eqn:E'; [apply Z.eqb_eq in E'; lia|].
  destruct (len h1 =? len h0), (5 <? mc); reflexivity.
Qed.
End dynamic_content.

Lemma any_modern_nonempty (fws : list string) :
  any_modern fws = true -> nonempty fws = true.
Proof. destruct fws; [discriminate | reflexivity]. Qed.

(** The weighted score is a number between 0.0 and 1.0, whatever the
    evidence. *)
Theorem weighted_score_in_unit_interval (m : DetectionMetrics) (fws : list string)
    (dyn : bool) (mc : Z) :
  (0.0 <=? _calculate_weighted_score m fws dyn mc)%float = true
  /\ (_calculate_weighted_score m fws dyn mc <=? 1.0)%float = true.
Proof.
  unfold _calculate_weighted_score. cbn zeta.
  destruct (nonempty fws), (any_modern fws), (2000 <? content_size_difference m),
    (1000 <? content_size_difference m), (500 <? content_size_difference m), dyn,
    (20 <? mc), (10 <? mc), (5 <? mc), (nonempty (framework_indicators m));
    split; vm_compute; reflexivity.
Qed.

Section verdicts.
Context {X : Type} `{Clock X} `{Browsers X} `{Web X}.

(** The structural comparison of the two documents: the size difference
    is the length of the rendered document minus that of the fetched one,
    whether or not the parser fails; the indicators reported are patterns
    of the fixed list that occur in the lowered rendered document; and a
    document compared with itself shows no difference and no dynamic
    content. *)
Theorem compare_content_facts (http_content browser_content : string) :
  content_size_difference (_compare_content (X := X) http_content browser_content)
  = len browser_content - len http_content
  /\ (forall p, p ∈ framework_indicators
                      (_compare_content (X := X) http_content browser_content) ->
        p ∈ framework_patterns /\ contains p (lower browser_content) = true)
  /\ content_size_difference (_compare_content (X := X) http_content http_content) = 0
  /\ dynamic_content_detected (_compare_content (X := X) http_content http_content)
     = false.
Proof.
  unfold _compare_content. cbn zeta.
  split; [|split; [|split]].
  - destruct (soup_counts http_content) as [[? ?]|?],
      (soup_counts browser_content) as [[? ?]|?]; reflexivity.
  - destruct (soup_counts http_content) as [[? ?]|?],
      (soup_counts browser_content) as [[? ?]|?];
      cbn [framework_indicators DetectionMetrics_init]; intros p Hp;
      try (apply elem_of_nil in Hp; contradiction).
    apply list_elem_of_In, filter_In in Hp as [Hin Hc].
    split; [apply list_elem_of_In; assumption | assumption].
  - destruct (soup_counts http_content) as [[? ?]|?]; cbn; lia.
  - destruct (soup_counts http_content) as [[e sc]|?]; cbn; [|reflexivity].
    apply orb_false_iff. split; apply Z.ltb_ge; lia.
Qed.

Lemma classify_pipeline_run (html_requests html_selenium : string)
    (frameworks : list string) (drv : handle) (s : IState X) :
  exists dyn mc s',
    _analyze_dynamic_content drv s = (Ok (dyn, mc), s')
    /\ fst (snd s') = fst (snd s)
    /\ _classify_rendering_type
         (fun a b => ret (_compare_content a b)) _analyze_dynamic_content
         html_requests html_selenium frameworks drv s
       = (Ok (let metrics := _compare_content (X := X) html_requests html_selenium in
              let csr_score :=
                _calculate_weighted_score metrics frameworks dyn mc in
              if (CSR_THRESHOLD <=? csr_score)%float
              then RenderingType_value CLIENT_SIDE_RENDERED
              else if (csr_score <=? SSR_THRESHOLD)%float
              then RenderingType_value SERVER_SIDE_RENDERED
              else RenderingType_value
                     (tie_break frameworks (content_size_difference metrics) mc)),
          s').
Proof.
  destruct (analyze_dynamic_content_run drv s) as (dyn & mc & s' & Hrun & Hd & _).
  exists dyn, mc, s'. split; [assumption|]. split; [assumption|].
  unfold _classify_rendering_type, try_except. unfold bind at 1. unfold ret at 1.
  unfold bind at 1. rewrite Hrun. cbn [fst snd]. cbn zeta.
  unfold _calculate_weighted_score at 1 2. cbn [content_size_difference framework_indicators set_dynamic].
  fold (_calculate_weighted_score (_compare_content (X := X) html_requests html_selenium)
          frameworks dyn mc).
  unfold tie_break, ret.
  destruct (CSR_THRESHOLD <=? _)%float; [reflexivity|].
  destruct (_ <=? SSR_THRESHOLD)%float; [reflexivity|].
  destruct (any_modern frameworks); [reflexivity|].
  destruct (1000 <? _); [reflexivity|].
  destruct (15 <? mc); reflexivity.
Qed.

(** Whenever one of React, Vue, Next.js or Nuxt.js is among the detected
    frameworks, the pipeline's classification is client-side rendered,
    whatever the documents and the runtime probe say. *)
Theorem modern_framework_means_client_side (html_requests html_selenium : string)
    (frameworks : list string) (drv : handle) (s : IState X) :
  any_modern frameworks = true ->
  exists s',
    _classify_rendering_type
      (fun a b => ret (_compare_content a b)) _analyze_dynamic_content
      html_requests html_selenium frameworks drv s
    = (Ok (RenderingType_value CLIENT_SIDE_RENDERED), s').
Proof.
  intros Hm.
  destruct (classify_pipeline_run html_requests html_selenium frameworks drv s)
    as (dyn & mc & s' & _ & _ & ->).
  exists s'. f_equal. f_equal. cbn zeta.
  unfold tie_break. rewrite Hm.
  destruct (CSR_THRESHOLD <=? _)%float eqn:E1; [reflexivity|].
  destruct (_ <=? SSR_THRESHOLD)%float eqn:E2; [|reflexivity].
  exfalso. revert E2. unfold _calculate_weighted_score. cbn zeta.
  rewrite Hm, (any_modern_nonempty _ Hm).
  set (m := _compare_content html_requests html_selenium).
  destruct (2000 <? content_size_difference m), (1000 <? content_size_difference m),
    (500 <? content_size_difference m), dyn, (20 <? mc), (10 <? mc), (5 <? mc),
    (nonempty (framework_indicators m)); vm_compute; discriminate.
Qed.
End verdicts.

Section result_shapes.
Context {X : Type} `{Clock X} `{Browsers X} `{Web X}.

Lemma classify_pipeline_verdict (html_requests html_selenium : string)
    (frameworks : list string) (drv : handle) (s : IState X) :
  exists v s',
    _classify_rendering_type
      (fun a b => ret (_compare_content a b)) _analyze_dynamic_content
      html_requests html_selenium frameworks drv s = (Ok v, s')
    /\ (v = RenderingType_value SERVER_SIDE_RENDERED
        \/ v = RenderingType_value CLIENT_SIDE_RENDERED).
Proof.
  destruct (classify_pipeline_run html_requests html_selenium frameworks drv s)
    as (dyn & mc & s' & _ & _ & ->).
  do 2 eexists. split; [reflexivity|]. cbn zeta.
  destruct (CSR_THRESHOLD <=? _)%float; [right; reflexivity|].
  destruct (_ <=? SSR_THRESHOLD)%float; [left; reflexivity|].
  destruct (tie_break _ _ _) eqn:E; [left; reflexivity | right; reflexivity |].
  unfold tie_break in E.
  repeat match type of E with
         | (if ?b then _ else _) = _ => destruct b
         end; discriminate.
Qed.

Lemma internal_ok_full (u : string) (start_time : Q) (rm : RetryManager)
    (w w' : IState X) (r : ProcessingResult) :
  _detect_rendering_type_internal u start_time rm w = (Ok r, w') ->
  success_shape u r /\ retry_count r = 0.
Proof.
  unfold _detect_rendering_type_internal. cbn zeta.
  unfold bind at 1. destruct (i_world (requests_get u) w) as [[resp|e] w1]; [|discriminate].
  destruct (400 <=? status_code resp) eqn:Hcode; [discriminate|].
  apply Z.leb_gt in Hcode.
  unfold bind at 1. destruct (get_webdriver u w1) as [[drv|e] w2]; [|discriminate].
  unfold bind at 1.
  destruct (i_world (driver_load drv (resp_url resp)) w2) as [[html|e] w3]; [|discriminate].
  unfold bind at 1. unfold try_except at 1.
  destruct (detect_frameworks_run html drv w3) as (fws & w4 & -> & _ & _ & Hnd & Hsub).
  unfold bind at 1.
  destruct (classify_pipeline_verdict (resp_text resp) html fws drv w4)
    as (v & w5 & -> & Hv).
  unfold bind at 1. destruct (i_time w5) as [[t|e] w6]; [|discriminate].
  unfold bind at 1. destruct (i_isoformat w6) as [[ts|e] w7]; [|discriminate].
  unfold ret. intros Hr. inversion Hr; subst r w'. clear Hr.
  unfold success_shape.
  cbn [status url final_url rendering_type error_category error_message
       http_status_code frameworks retry_count ProcessingStatus_value].
  split; [|reflexivity].
  split; [reflexivity|]. split; [reflexivity|]. split; [eauto|].
  split; [exact Hv|].
  split; [reflexivity|]. split; [reflexivity|].
  split; [eauto|]. split; assumption.
Qed.
End result_shapes.

Section entry_point.
Context {X : Type} `{Clock X} `{Browsers X} `{Web X}.

Lemma override_max_retries_run (max_retries : option Z) (text : string)
    (rm : RetryManager) (w : IState X) :
  exists rm2,
    override_max_retries max_retries text (rm, w) = (Ok tt, (rm2, w))
    /\ max_attempts (config rm2) = effective_max_attempts max_retries rm
    /\ (non_retryable_errors (config rm2) = non_retryable_errors (config rm)
        \/ non_retryable_errors (config rm2) = [DNS_ERROR; SSL_ERROR]).
Proof.
  unfold override_max_retries, bind, get. cbn [fst].
  destruct max_retries as [n|]; cbn [effective_max_attempts].
  - destruct (n =? max_attempts (config rm)) eqn:E; cbn [negb].
    + eexists. split; [reflexivity|]. apply Z.eqb_eq in E. split; [congruence | auto].
    + eexists. split; [reflexivity|]. split; [reflexivity | right; reflexivity].
  - eexists. split; [reflexivity|]. auto.
Qed.

(** Whatever it is given, [detect_rendering_type] returns a result of one
    of two shapes.  A success, only for an input that passes validation:
    the verdict is server-side or client-side rendered, there is no error
    category or message, the HTTP status is below 400, the frameworks are
    distinct known names, and [url] is the input with the protocol added.
    Or a failure: the verdict is not-accessible, a category and a message
    of at most 200 characters are present, there are no frameworks, and
    [url] is the input as given; [final_url] is then the input with the
    protocol added when it passed validation, the input itself otherwise. *)
Theorem detect_result_has_one_of_two_shapes (u : PyVal) (max_retries : option Z)
    (s : DState X) :
  exists r s',
    detect_rendering_type u max_retries s = (Ok r, s')
    /\ ((valid_url u = true /\ success_shape (with_protocol (str_of u)) r)
        \/ (failure_shape u r
            /\ final_url r = (if valid_url u then PyStr (with_protocol (str_of u)) else u))).
Proof.
  destruct s as [rm [eh [d x]]].
  unfold detect_rendering_type. unfold bind at 1. rewrite d_time_run.
  unfold valid_url.
  destruct (truthy u && is_str u) eqn:Hv.
  - replace (negb (truthy u) || negb (is_str u)) with false
      by (destruct (truthy u), (is_str u); auto; discriminate).
    set (text := with_protocol (str_of u)).
    unfold bind at 1.
    destruct (override_max_retries_run max_retries text rm (eh, (d, snd (time_time x))))
      as (rm2 & -> & _ & _).
    unfold detect_with_retry, try_except. unfold bind at 1.
    destruct (execute_with_retry_bounds
                (_detect_rendering_type_internal text (fst (time_time x)))
                (Some text) rm2 (eh, (d, snd (time_time x))))
      as (r0 & [rm1 [eh1 [d1 x1]]] & h & Hrun & Hcfg & Hlk & Hnn & Hb & Hok).
    cbn [key_of fst] in *. rewrite Hrun.
    destruct r0 as [result|e].
    + destruct (Hok result eq_refl) as (rm' & w0 & w1 & Hint).
      apply internal_ok_full in Hint as [Hshape _].
      unfold bind, get. cbn [fst snd].
      match goal with |- context [update_metrics ?r true _] =>
        destruct (update_metrics_run r true rm1 eh1 d1 x1) as [d2 ->] end.
      destruct (d_restart_run rm1 eh1 d2 x1) as (d3 & x3 & ->).
      unfold ret. do 2 eexists. split; [reflexivity|].
      left. split; [reflexivity|]. exact Hshape.
    + unfold bind at 1.
      destruct (d_categorize_run e text rm1 eh1 d1 x1) as [eh2 ->].
      unfold bind, get. cbn [fst snd].
      rewrite d_time_run, d_isoformat_run.
      match goal with |- context [update_metrics ?r false (?a, (?b, (?c, ?dd)))] =>
        destruct (update_metrics_run r false a b c dd) as [d2 ->] end.
      unfold ret. do 2 eexists. split; [reflexivity|].
      right. unfold failure_shape.
      cbn [status url final_url rendering_type error_category error_message frameworks].
      split; [|reflexivity].
      split; [reflexivity|]. split; [reflexivity|]. split; [reflexivity|].
      split; [eauto|]. split; [|reflexivity].
      eexists. split; [reflexivity|]. apply format_error_for_output_length.
  - replace (negb (truthy u) || negb (is_str u)) with true
      by (destruct (truthy u), (is_str u); auto; discriminate).
    unfold bind. rewrite d_time_run, d_isoformat_run. unfold ret.
    do 2 eexists. split; [reflexivity|].
    right. unfold failure_shape.
    cbn [status url final_url rendering_type error_category error_message frameworks].
    split; [|reflexivity].
    split; [reflexivity|]. split; [reflexivity|]. split; [reflexivity|].
    split; [eauto|]. split; [|reflexivity].
    eexists. split; [reflexivity|]. vm_compute. discriminate.
Qed.
End entry_point.

Section http_failures.
Context {X : Type} `{Clock X} `{Browsers X} `{Web X}.

Lemma internal_http_failure (text : string) (start_time : Q) (rm : RetryManager)
    (w w' : IState X) (r : Res ProcessingResult) :
  (forall x, exists resp x',
     requests_get text x = (Ok resp, x')
     /\ 400 <= status_code resp < 600
     /\ category_of (http_error resp) = HTTP_ERROR) ->
  _detect_rendering_type_internal text start_time rm w = (r, w') ->
  exists resp, r = Raise (http_error resp)
               /\ 400 <= status_code resp < 600
               /\ category_of (http_error resp) = HTTP_ERROR.
Proof.
  intros Hdown. unfold _detect_rendering_type_internal. cbn zeta.
  unfold bind at 1. unfold i_world at 1.
  destruct (Hdown (snd (snd w))) as (resp & x' & -> & Hcode & Hcat).
  destruct (400 <=? status_code resp) eqn:E; [|apply Z.leb_gt in E; lia].
  unfold raise. intros Hr. inversion Hr. eauto.
Qed.

(** A server that answers every request with a 4xx or 5xx status, the
    failure being classified as an HTTP error, is asked again until the
    attempt limit is reached, client errors such as 404 included: the
    result is a failure of category HTTPError whose retry count is the
    limit minus 1.  The status code is not reported: such a response
    counts as false, so [get_error_details] leaves it out. *)
Theorem http_error_status_is_retried (u : PyVal) (max_retries : option Z)
    (s : DState X) :
  valid_url u = true ->
  1 <= effective_max_attempts max_retries (fst s) ->
  retryable (config (fst s)) HTTP_ERROR ->
  (forall x, exists resp x',
     requests_get (with_protocol (str_of u)) x = (Ok resp, x')
     /\ 400 <= status_code resp < 600
     /\ category_of (http_error resp) = HTTP_ERROR) ->
  exists r s' h,
    detect_rendering_type u max_retries s = (Ok r, s')
    /\ status r = ProcessingStatus_value FAILED
    /\ error_category r = Some (ErrorCategory_value HTTP_ERROR)
    /\ retry_histories (fst s') !! with_protocol (str_of u) = Some h
    /\ total_attempts h = effective_max_attempts max_retries (fst s)
    /\ retry_count r = effective_max_attempts max_retries (fst s) - 1
    /\ http_status_code r = None.
Proof.
  intros Hv Hmax Hretry Hdown.
  destruct s as [rm [eh [d x]]]. cbn [fst] in *.
  unfold detect_rendering_type. unfold bind at 1. rewrite d_time_run.
  unfold valid_url in Hv.
  replace (negb (truthy u) || negb (is_str u)) with false
    by (destruct (truthy u), (is_str u); auto; discriminate).
  set (text := with_protocol (str_of u)) in *.
  unfold bind at 1.
  destruct (override_max_retries_run max_retries text rm (eh, (d, snd (time_time x))))
    as (rm2 & -> & Hmax2 & Hlist).
  assert (retryable (config rm2) HTTP_ERROR) as Hretry2.
  { destruct Hretry as [Hnot Hsr]. split; [|assumption].
    destruct Hlist as [->| ->]; [assumption|].
    apply not_in_default_non_retryable; discriminate. }
  rewrite <- Hmax2 in *.
  unfold detect_with_retry, try_except. unfold bind at 1.
  destruct (execute_with_retry_history
              (_detect_rendering_type_internal text (fst (time_time x)))
              (Some text) rm2 (eh, (d, snd (time_time x))) Hmax)
    as (r0 & [rm1 [eh1 [d1 x1]]] & h & errs & Hrun & Hcfg & Hfr & Hlk & Hurl & Ht & Hb
        & Hra & Hout).
  cbn [key_of fst] in *. rewrite Hrun.
  destruct r0 as [result|e]; cbn [run_outcome] in Hout.
  { exfalso. destruct Hout as (_ & _ & _ & _ & (rm' & w0 & w1 & Hint)).
    destruct (internal_http_failure _ _ _ _ _ _ Hdown Hint) as (resp & Hr & _).
    discriminate. }
  destruct Hout as (Hs & Hf & (l & a & errs' & Hl & He & _ & _) & Htot & Hgave).
  assert (exists resp, e = http_error resp /\ 400 <= status_code resp < 600
                       /\ category_of (http_error resp) = HTTP_ERROR)
    as (resp & -> & Hcode & Hcat).
  { subst errs. apply Forall_app in Hra as [_ Hra]. inversion Hra as [|? ? Hre _]; subst.
    destruct Hre as (rm' & w0 & w1 & Hint).
    destruct (internal_http_failure _ _ _ _ _ _ Hdown Hint) as (resp & Hr & Hc).
    inversion Hr. eauto. }
  assert (total_attempts h = max_attempts (config rm2)) as Hfull.
  { destruct (Z_lt_ge_dec (total_attempts h) (max_attempts (config rm2))) as [Hlt|Hge];
      [|lia].
    exfalso. destruct Hretry2 as [Hnot Hsr]. rewrite Hcat in Hgave.
    destruct (Hgave Hlt) as [Hin|Hno]; [contradiction | congruence]. }
  unfold bind at 1.
  destruct (d_categorize_run (http_error resp) text rm1 eh1 d1 x1) as [eh2 ->].
  unfold bind, get. cbn [fst snd]. unfold get_retry_history. rewrite Hlk.
  cbn [retry_count_of].
  rewrite d_time_run, d_isoformat_run.
  match goal with |- context [update_metrics ?r false (?a, (?b, (?c, ?dd)))] =>
    destruct (update_metrics_run r false a b c dd) as [d2 ->] end.
  unfold ret. do 2 eexists. exists h. split; [reflexivity|].
  cbn [fst status error_category retry_count http_status_code retry_histories].
  rewrite Hcat. split; [reflexivity|]. split; [reflexivity|].
  split; [assumption|]. split; [assumption|]. split; [lia|].
  unfold get_error_details, http_error, Response_ok.
  cbn [details_http_status_code exc_response].
  destruct Hcode as [Hlo Hhi]. apply Z.leb_le in Hlo. apply Z.ltb_lt in Hhi.
  rewrite Hlo, Hhi. reflexivity.
Qed.
End http_failures.

Section metrics_frame.
Context {X : Type} `{Clock X} `{Browsers X} `{Web X}.

Lemma i_world_metrics {B} (f : X -> Res B * X) (w : IState X) :
  metrics_of (snd (i_world f w)) = metrics_of w.
Proof. unfold i_world, metrics_of. destruct (f _). reflexivity. Qed.

Lemma i_handler_metrics {B} (m : Py ErrorHandler B) (w : IState X) :
  metrics_of (snd (i_handler m w)) = metrics_of w.
Proof. unfold i_handler, zoom, metrics_of. destruct (m _). reflexivity. Qed.

Lemma i_pool_metrics {B} (m : Py (PState X) B) (w : IState X) :
  metrics_of (snd (i_pool m w)) = metrics_of w.
Proof. unfold i_pool, metrics_of. cbn zeta. destruct (m _). reflexivity. Qed.

Lemma get_webdriver_metrics (u : string) (w : IState X) :
  metrics_of (snd (get_webdriver u w)) = metrics_of w.
Proof.
  unfold get_webdriver, try_except. unfold bind at 1.
  pose proof (i_pool_metrics (get_optimized_browser u) w) as Hp.
  destruct (i_pool (get_optimized_browser u) w) as [[drv|e] w1]; cbn [snd] in Hp.
  - unfold bind at 1. unfold load_cookies, try_except.
    pose proof (i_world_metrics (cookies_io drv u) w1) as Hc.
    destruct (i_world (cookies_io drv u) w1) as [[[]|e] w2]; cbn [snd] in Hc.
    + unfold bind, i_detector, modify, ret. cbn. unfold metrics_of in *. cbn. congruence.
    + match goal with |- context [i_handler ?m w2] =>
        pose proof (i_handler_metrics m w2) as Hl;
        destruct (i_log_error_run u PARSE_ERROR ("Cookie load failed: " +:+ exc_str e)
                    None w2) as [eh' Hrun] end.
      rewrite Hrun in *. cbn [snd] in Hl.
      unfold bind, i_detector, modify, ret. cbn. unfold metrics_of in *. cbn in *.
      congruence.
  - unfold bind at 1.
    pose proof (i_handler_metrics (categorize_error e u) w1) as Hk.
    destruct (i_handler (categorize_error e u) w1) as [[c|e'] w2]; cbn [snd] in Hk.
    + unfold bind at 1.
      match goal with |- context [i_handler ?m w2] =>
        pose proof (i_handler_metrics m w2) as Hl; destruct (i_handler m w2) as [[[]|e'] w3]
      end; cbn [snd] in *; unfold raise; cbn [snd]; congruence.
    + cbn [snd]. congruence.
Qed.

Lemma internal_metrics (u : string) (start_time : Q) (rm : RetryManager) (w : IState X) :
  metrics_of (snd (_detect_rendering_type_internal u start_time rm w)) = metrics_of w.
Proof.
  unfold _detect_rendering_type_internal. cbn zeta.
  unfold bind at 1. pose proof (i_world_metrics (requests_get u) w) as H0'.
  destruct (i_world (requests_get u) w) as [[resp|e] w1]; cbn [snd] in H0'; [|exact H0'].
  destruct (400 <=? status_code resp); [exact H0'|].
  unfold bind at 1. pose proof (get_webdriver_metrics u w1) as H1'.
  destruct (get_webdriver u w1) as [[drv|e] w2]; cbn [snd] in H1'; [|cbn [snd]; congruence].
  unfold bind at 1. pose proof (i_world_metrics (driver_load drv (resp_url resp)) w2) as H2'.
  destruct (i_world (driver_load drv (resp_url resp)) w2) as [[html|e] w3];
    cbn [snd] in H2'; [|cbn [snd]; congruence].
  unfold bind at 1. unfold try_except at 1.
  destruct (detect_frameworks_run html drv w3) as (fws & w4 & -> & Hd4 & _).
  unfold bind at 1.
  destruct (classify_pipeline_run (resp_text resp) html fws drv w4)
    as (dyn & mc & w5 & _ & Hd5 & ->).
  unfold bind at 1. pose proof (i_world_metrics
    (fun x => let '(t, x') := time_time x in (Ok t, x')) w5) as H6'.
  fold (i_time (X := X)) in H6'.
  destruct (i_time w5) as [[t|e] w6]; cbn [snd] in H6'; [|cbn [snd]; unfold metrics_of in *; congruence].
  unfold bind at 1. pose proof (i_world_metrics
    (fun x => let '(t, x') := datetime_now_isoformat x in (Ok t, x')) w6) as H7'.
  fold (i_isoformat (X := X)) in H7'.
  destruct (i_isoformat w6) as [[ts|e] w7]; cbn [snd] in H7';
    unfold ret; cbn [snd]; unfold metrics_of in *; congruence.
Qed.
End metrics_frame.

Section observation.
Context {X A M : Type} `{Clock X}.
Variable func : RetryManager -> Py (ErrorHandler * X) A.
Variable obs : X -> M.
Hypothesis func_keeps : forall rm w, obs (snd (snd (func rm w))) = obs (snd w).
Hypothesis time_keeps : forall x, obs (snd (time_time x)) = obs x.
Hypothesis sleep_keeps : forall d x, obs (time_sleep d x) = obs x.

Lemma retry_loop_keeps (key : string) :
  forall (remaining : nat) (attempt : Z) (history : RetryHistory)
         (last_exception : option Exception) (s : RState X),
    obs (snd (snd (snd (retry_loop func remaining attempt key history last_exception s))))
    = obs (snd (snd s)).
Proof.
  induction remaining as [|remaining IH]; intros attempt history last_exception s.
  - cbn [retry_loop]. unfold after_loop, raise. destruct last_exception; reflexivity.
  - destruct s as [rm [eh x]]. cbn [retry_loop].
    unfold bind, try_except, store, modify, get, call_func.
    cbn [fst snd config retry_histories].
    match goal with |- context [func ?r (eh, x)] =>
      pose proof (func_keeps r (eh, x)) as Hf;
      destruct (func r (eh, x)) as [[v|e] [eh1 x1]] end; cbn [fst snd] in *.
    + unfold ret. cbn [snd]. exact Hf.
    + unfold on_handler, zoom. cbn [fst snd].
      destruct (categorize_error_run e key eh1) as [eh2 ->].
      match goal with |- context [log_error ?a ?b ?c ?d ?h] =>
        destruct (log_error_run a b c d h) as [eh3 ->] end.
      unfold now. cbn [fst snd].
      pose proof (time_keeps x1) as Ht.
      destruct (time_time x1) as [t x2]. cbn [fst snd] in *.
      match goal with |- context [negb ?b] => destruct b end; cbn [negb].
      2:{ unfold bind, store, modify, after_loop, raise. cbn [fst snd]. rewrite Ht. exact Hf. }
      cbn [config].
      destruct (max_attempts (config rm) <=? attempt).
      { unfold bind, store, modify, after_loop, raise. cbn [fst snd].
        rewrite Ht. exact Hf. }
      unfold bind, lift_res.
      destruct (get_backoff_delay _ attempt) as [d|e'];
        [|cbn [snd]; rewrite Ht; exact Hf].
      unfold store, modify, sleep. cbn [fst snd config retry_histories].
      destruct (Qlt_le_dec 0 d); unfold modify, ret; cbn [fst snd];
        rewrite IH; cbn [fst snd]; rewrite ?sleep_keeps, Ht; exact Hf.
Qed.

Lemma execute_with_retry_keeps (arg0 : option string) (s : RState X) :
  obs (snd (snd (snd (execute_with_retry func arg0 s)))) = obs (snd (snd s)).
Proof.
  unfold execute_with_retry. unfold bind, store, modify, get. cbn [fst snd].
  rewrite retry_loop_keeps. reflexivity.
Qed.
End observation.

Section request_counters.
Context {X : Type} `{Clock X} `{Browsers X} `{Web X}.

Lemma detector_clock_keeps_metrics (dx : Detector * X) :
  performance_metrics (fst (snd (time_time dx))) = performance_metrics (fst dx).
Proof. cbn [time_time Clock_detector]. destruct (time_time (snd dx)). reflexivity. Qed.

Lemma detect_with_retry_metrics (u : PyVal) (text : string) (start_time : Q)
    (s : DState X) :
  exists r s',
    detect_with_retry u text start_time s = (Ok r, s')
    /\ metrics_of (snd s')
       = _update_performance_metrics r
           (String.eqb (status r) (ProcessingStatus_value SUCCESS)) (metrics_of (snd s)).
Proof.
  destruct s as [rm w].
  unfold detect_with_retry, try_except. unfold bind at 1.
  pose proof (execute_with_retry_keeps
                (_detect_rendering_type_internal text start_time)
                (fun dx : Detector * X => performance_metrics (fst dx))
                (fun rm' w' => internal_metrics text start_time rm' w')
                detector_clock_keeps_metrics
                (fun d dx => eq_refl) (Some text) (rm, w)) as Hkeep.
  destruct (execute_with_retry_bounds (_detect_rendering_type_internal text start_time)
              (Some text) rm w)
    as (r0 & [rm1 [eh1 [d1 x1]]] & h & Hrun & Hcfg & Hlk & Hnn & Hb & Hok).
  rewrite Hrun in *. cbn [fst snd] in Hkeep.
  destruct r0 as [result|e].
  - destruct (Hok result eq_refl) as (rm' & w0 & w1 & Hint).
    apply internal_ok_shape in Hint as [Hst _].
    unfold bind, get. cbn [fst snd].
    unfold update_metrics, d_inner, i_detector, modify. cbn [fst snd].
    unfold i_pool. cbn [fst snd performance_optimizer performance_metrics driver].
    destruct (restart_browser_if_needed_ok (performance_optimizer d1, x1)) as [[p x'] ->].
    unfold ret. do 2 eexists. split; [reflexivity|].
    unfold metrics_of. cbn [fst snd performance_metrics status set_retry_count].
    rewrite Hst, <- Hkeep. reflexivity.
  - unfold bind at 1.
    destruct (d_categorize_run e text rm1 eh1 d1 x1) as [eh2 ->].
    unfold bind, get. cbn [fst snd].
    rewrite d_time_run, d_isoformat_run.
    unfold update_metrics, d_inner, i_detector, modify, ret. cbn [fst snd].
    do 2 eexists. split; [reflexivity|].
    unfold metrics_of. cbn [fst snd performance_metrics status].
    rewrite <- Hkeep. reflexivity.
Qed.

(** The detector's request counters count the inputs that pass
    validation, each exactly once: a call of [detect_rendering_type] on
    such an input applies [_update_performance_metrics] once, with the
    result it returns, as a success exactly when that result's status is
    success; a call on an input that fails validation leaves the counters
    as they were. *)
Theorem detect_counts_validated_inputs (u : PyVal) (max_retries : option Z)
    (s : DState X) :
  exists r s',
    detect_rendering_type u max_retries s = (Ok r, s')
    /\ metrics_of (snd s')
       = (if valid_url u
          then _update_performance_metrics r
                 (String.eqb (status r) (ProcessingStatus_value SUCCESS))
                 (metrics_of (snd s))
          else metrics_of (snd s))
    /\ pm_total_requests (metrics_of (snd s'))
       = pm_total_requests (metrics_of (snd s)) + (if valid_url u then 1 else 0)
    /\ pm_successful_requests (metrics_of (snd s'))
       + pm_failed_requests (metrics_of (snd s'))
       = pm_successful_requests (metrics_of (snd s))
         + pm_failed_requests (metrics_of (snd s)) + (if valid_url u then 1 else 0).
Proof.
  destruct s as [rm [eh [d x]]].
  unfold detect_rendering_type. unfold bind at 1. rewrite d_time_run.
  unfold valid_url.
  destruct (truthy u && is_str u) eqn:Hv.
  - replace (negb (truthy u) || negb (is_str u)) with false
      by (destruct (truthy u), (is_str u); auto; discriminate).
    unfold bind at 1.
    destruct (override_max_retries_run max_retries (with_protocol (str_of u)) rm
                (eh, (d, snd (time_time x)))) as (rm2 & -> & _ & _).
    destruct (detect_with_retry_metrics u (with_protocol (str_of u)) (fst (time_time x))
                (rm2, (eh, (d, snd (time_time x))))) as (r & s' & -> & Hm).
    exists r, s'. split; [reflexivity|]. rewrite Hm.
    unfold metrics_of. cbn [fst snd].
    split; [reflexivity|].
    unfold _update_performance_metrics.
    cbn [pm_total_requests pm_successful_requests pm_failed_requests].
    split; [reflexivity|].
    destruct (String.eqb _ _); lia.
  - replace (negb (truthy u) || negb (is_str u)) with true
      by (destruct (truthy u), (is_str u); auto; discriminate).
    unfold bind. rewrite d_time_run, d_isoformat_run. unfold ret.
    do 2 eexists. split; [reflexivity|].
    unfold metrics_of. cbn [fst snd]. repeat split; lia.
Qed.
End request_counters.

(** The entry point's normalisation of a URL text is idempotent, and what
    it yields always starts with a protocol. *)
Theorem with_protocol_idempotent (text : string) :
  with_protocol (with_protocol text) = with_protocol text
  /\ (startswith (with_protocol text) "http://"
      || startswith (with_protocol text) "https://") = true.
Proof.
  unfold with_protocol.
  destruct (startswith text "http://" || startswith text "https://") eqn:E; cbn [negb].
  - rewrite E. cbn [negb]. split; reflexivity.
  - assert (startswith ("http://" +:+ text) "http://" = true) as Hp
      by (unfold startswith; apply prefix_app).
    rewrite Hp. cbn [orb negb]. split; reflexivity.
Qed.

(** ** Statistics and time-outs *)

Lemma stats_of_snoc (results : list ProcessingResult) (r : ProcessingResult) :
  stats_of (results ++ [r]) = add_result r (stats_of results).
Proof. unfold stats_of. rewrite fold_left_app. reflexivity. Qed.

Lemma count_successes_snoc (results : list ProcessingResult) (r : ProcessingResult) :
  count_successes (results ++ [r])
  = (count_successes results
     + if String.eqb (status r) (ProcessingStatus_value SUCCESS) then 1 else 0)%nat.
Proof.
  unfold count_successes. rewrite List.filter_app, length_app. cbn [List.filter].
  destruct (String.eqb _ _); reflexivity.
Qed.

Lemma count_failed_as_snoc (c : string) (results : list ProcessingResult)
    (r : ProcessingResult) :
  count_failed_as c (results ++ [r])
  = (count_failed_as c results
     + if negb (String.eqb (status r) (ProcessingStatus_value SUCCESS))
          && bool_decide (error_category r = Some c) then 1 else 0)%nat.
Proof.
  unfold count_failed_as. rewrite List.filter_app, length_app. cbn [List.filter].
  destruct (_ && _); reflexivity.
Qed.

(** After [add_result] has been called on each of a list of results,
    starting from fresh statistics: [processed_urls] is the number of
    results, [successful_urls] the number of those whose status is
    success, and the two outcome counters add up to [processed_urls]; the
    three verdict counters together never exceed [successful_urls]; every
    non-empty category is filed in [error_breakdown] with the number of
    failed results that carry it; and the success rate lies between 0 and
    100. *)
Theorem processing_stats_count_results (results : list ProcessingResult) :
  let stats := stats_of results in
  processed_urls stats = Z.of_nat (length results)
  /\ successful_urls stats = Z.of_nat (count_successes results)
  /\ successful_urls stats + failed_urls stats = processed_urls stats
  /\ 0 <= failed_urls stats
  /\ 0 <= ssr_count stats /\ 0 <= csr_count stats /\ 0 <= not_accessible_count stats
  /\ ssr_count stats + csr_count stats + not_accessible_count stats
     <= successful_urls stats
  /\ (forall c, c <> ""%string ->
        default 0 (error_breakdown stats !! c) = Z.of_nat (count_failed_as c results))
  /\ (0 <= get_success_rate stats)%Q /\ (get_success_rate stats <= 100)%Q.
Proof.
  cbn zeta.
  assert (processed_urls (stats_of results) = Z.of_nat (length results)
          /\ successful_urls (stats_of results) = Z.of_nat (count_successes results)
          /\ successful_urls (stats_of results) + failed_urls (stats_of results)
             = processed_urls (stats_of results)
          /\ 0 <= failed_urls (stats_of results)
          /\ 0 <= ssr_count (stats_of results) /\ 0 <= csr_count (stats_of results)
          /\ 0 <= not_accessible_count (stats_of results)
          /\ ssr_count (stats_of results) + csr_count (stats_of results)
             + not_accessible_count (stats_of results)
             <= successful_urls (stats_of results)
          /\ (forall c, c <> ""%string ->
                default 0 (error_breakdown (stats_of results) !! c)
                = Z.of_nat (count_failed_as c results))) as Hcounts.
  { induction results as [|r results IH] using rev_ind.
    - cbn. repeat split; lia.
    - destruct IH as (Hp & Hs & Hsum & Hf & H1 & H2 & H3 & Hle & Heb).
      rewrite stats_of_snoc, length_app, count_successes_snoc. cbn [length].
      unfold add_result. cbn zeta.
      destruct (String.eqb (status r) (ProcessingStatus_value SUCCESS)) eqn:Est;
        cbn [processed_urls successful_urls failed_urls ssr_count csr_count
             not_accessible_count error_breakdown].
      + split; [lia|]. split; [lia|]. split; [lia|]. split; [lia|].
        destruct (String.eqb (rendering_type r) (RenderingType_value SERVER_SIDE_RENDERED)),
          (String.eqb (rendering_type r) (RenderingType_value CLIENT_SIDE_RENDERED)),
          (String.eqb (rendering_type r) (RenderingType_value NOT_ACCESSIBLE));
          (split; [lia|]); (split; [lia|]); (split; [lia|]); (split; [lia|]);
          intros c Hc; rewrite count_failed_as_snoc, Est; cbn [negb andb];
          rewrite Nat.add_0_r; apply Heb; assumption.
      + split; [lia|]. split; [lia|]. split; [lia|]. split; [lia|].
        split; [lia|]. split; [lia|]. split; [lia|]. split; [lia|].
        intros c Hc. rewrite count_failed_as_snoc, Est. cbn [negb andb].
        destruct (error_category r) as [c'|].
        * destruct (String.eqb c' "") eqn:Ec'; cbn [negb].
          { apply String.eqb_eq in Ec'. subst c'.
            rewrite bool_decide_eq_false_2 by congruence.
            rewrite Nat.add_0_r. apply Heb; assumption. }
          destruct (decide (c' = c)) as [->|Hne].
          { rewrite lookup_insert_eq, bool_decide_eq_true_2 by reflexivity.
            cbn [default from_option]. unfold id. rewrite Heb by assumption. lia. }
          rewrite lookup_insert_ne by assumption.
          rewrite bool_decide_eq_false_2 by congruence.
          rewrite Nat.add_0_r. apply Heb; assumption.
        * rewrite bool_decide_eq_false_2 by discriminate.
          rewrite Nat.add_0_r. apply Heb; assumption. }
  destruct Hcounts as (Hp & Hs & Hsum & Hf & H1 & H2 & H3 & Hle & Heb).
  repeat (split; [assumption|]).
  unfold get_success_rate.
  destruct (processed_urls (stats_of results) =? 0) eqn:E.
  - split; discriminate.
  - apply Z.eqb_neq in E.
    assert (0 < processed_urls (stats_of results)) as Hpos by lia.
    assert (0 <= successful_urls (stats_of results)
            <= processed_urls (stats_of results)) as Hb by lia.
    set (s := successful_urls (stats_of results)) in *.
    set (p := processed_urls (stats_of results)) in *.
    assert (0 < inject_Z p)%Q as Hq
      by (change 0%Q with (inject_Z 0); rewrite <- Zlt_Qlt; lia).
    split.
    + apply Qmult_le_0_compat; [|discriminate].
      apply Qle_shift_div_l; [assumption|]. rewrite Qmult_0_l.
      change 0%Q with (inject_Z 0). rewrite <- Zle_Qle. lia.
    + apply Qle_trans with (1 * 100)%Q; [|discriminate].
      apply Qmult_le_compat_r; [|discriminate].
      apply Qle_shift_div_r; [assumption|]. rewrite Qmult_1_l.
      rewrite <- Zle_Qle. lia.
Qed.

(** For results of the two shapes that [detect_rendering_type] returns:
    every success is counted as server-side or as client-side rendered,
    the failures are exactly the results whose verdict is not-accessible,
    and [not_accessible_count], which [add_result] only touches for a
    success, stays at 0. *)
Theorem detector_results_never_count_not_accessible (results : list ProcessingResult) :
  Forall (fun r => (exists text, success_shape text r) \/ (exists u, failure_shape u r))
         results ->
  let stats := stats_of results in
  not_accessible_count stats = 0
  /\ ssr_count stats + csr_count stats = successful_urls stats
  /\ failed_urls stats = Z.of_nat (count_not_accessible results).
Proof.
  cbn zeta. induction results as [|r results IH] using rev_ind; intros Hall.
  - cbn. repeat split; lia.
  - apply Forall_app in Hall as [Hall Hr]. inversion Hr as [|? ? Hshape _]; subst.
    destruct (IH Hall) as (Hna & Hsum & Hf).
    rewrite stats_of_snoc. unfold count_not_accessible in *.
    rewrite List.filter_app, length_app. cbn [List.filter].
    match goal with |- context [length (List.filter ?f results)] =>
      set (n := length (List.filter f results)) in * end.
    unfold add_result. cbn zeta.
    destruct Hshape as [[text (Hst & _ & _ & Hv & _)]|[u (Hst & _ & Hv & _)]];
      rewrite Hst.
    + change (String.eqb (ProcessingStatus_value SUCCESS) (ProcessingStatus_value SUCCESS))
        with true. cbn iota.
      cbn [not_accessible_count ssr_count csr_count successful_urls failed_urls].
      destruct Hv as [-> | ->]; cbn; lia.
    + change (String.eqb (ProcessingStatus_value FAILED) (ProcessingStatus_value SUCCESS))
        with false. cbn iota.
      cbn [not_accessible_count ssr_count csr_count successful_urls failed_urls].
      rewrite Hv. cbn. lia.
Qed.

Lemma py_int_scaled (b attempt : Z) :
  0 <= b -> 1 <= attempt ->
  py_int (inject_Z b * (1 + inject_Z (attempt - 1) * (1 # 2)))%Q = b * (attempt + 1) / 2.
Proof.
  intros Hb Ha. unfold py_int. cbn.
  rewrite Z.quot_div_nonneg by nia. f_equal. lia.
Qed.

Section timeouts.
Variable urlparse_netloc : string -> Res string.

Lemma site_timeouts_nonneg (timeouts : TimeoutConfig) (u : string) :
  0 <= http_request timeouts -> 0 <= browser_load timeouts ->
  0 <= javascript_wait timeouts ->
  0 <= timeout_http_request (get_intelligent_timeout urlparse_netloc timeouts u 1)
  /\ 0 <= timeout_browser_load (get_intelligent_timeout urlparse_netloc timeouts u 1)
  /\ 0 <= timeout_javascript_wait (get_intelligent_timeout urlparse_netloc timeouts u 1).
Proof.
  intros Hh Hb Hj. unfold get_intelligent_timeout. cbn zeta.
  change (1 <? 1) with false. cbn iota.
  destruct (urlparse_netloc u) as [netloc|e]; [|cbn; lia].
  destruct (any_in slow_sites (lower netloc)), (any_in fast_sites (lower netloc));
    cbn; lia.
Qed.

Lemma get_intelligent_timeout_scaled (timeouts : TimeoutConfig) (u : string)
    (attempt : Z) :
  0 <= http_request timeouts -> 0 <= browser_load timeouts ->
  0 <= javascript_wait timeouts -> 1 <= attempt ->
  let first := get_intelligent_timeout urlparse_netloc timeouts u 1 in
  get_intelligent_timeout urlparse_netloc timeouts u attempt
  = {| timeout_http_request := timeout_http_request first * (attempt + 1) / 2;
       timeout_browser_load := timeout_browser_load first * (attempt + 1) / 2;
       timeout_javascript_wait := timeout_javascript_wait first * (attempt + 1) / 2 |}.
Proof.
  intros Hh Hb Hj Ha. cbn zeta.
  destruct (site_timeouts_nonneg timeouts u Hh Hb Hj) as (H1 & H2 & H3).
  revert H1 H2 H3. unfold get_intelligent_timeout. cbn zeta.
  change (1 <? 1) with false. cbn iota.
  match goal with |- context [timeout_http_request ?b] => set (base := b) end.
  intros H1 H2 H3.
  destruct (1 <? attempt) eqn:E.
  - rewrite !py_int_scaled by assumption. reflexivity.
  - apply Z.ltb_ge in E. assert (attempt = 1) as -> by lia.
    change (1 + 1) with 2. rewrite !Z.div_mul by discriminate.
    destruct base; reflexivity.
Qed.

Lemma get_intelligent_timeout_first (timeouts : TimeoutConfig) (u : string)
    (attempt : Z) :
  attempt <= 1 ->
  get_intelligent_timeout urlparse_netloc timeouts u attempt
  = get_intelligent_timeout urlparse_netloc timeouts u 1.
Proof.
  intros Ha. unfold get_intelligent_timeout. cbn zeta.
  change (1 <? 1) with false.
  destruct (1 <? attempt) eqn:E; [apply Z.ltb_lt in E; lia | reflexivity].
Qed.

(** With configured time-outs of at least 0: up to the first attempt the
    time-outs are the configured ones adjusted for the site; from then on
    each of them is the adjusted value times (attempt + 1), halved and
    rounded down, that is half as much again per retry; so no time-out
    ever decreases as the attempt number grows. *)
Theorem intelligent_timeouts_grow_with_attempts (timeouts : TimeoutConfig)
    (u : string) (a b : Z) :
  0 <= http_request timeouts -> 0 <= browser_load timeouts ->
  0 <= javascript_wait timeouts -> a <= b ->
  let first := get_intelligent_timeout urlparse_netloc timeouts u 1 in
  let at_a := get_intelligent_timeout urlparse_netloc timeouts u a in
  let at_b := get_intelligent_timeout urlparse_netloc timeouts u b in
  (a <= 1 -> at_a = first)
  /\ (1 <= a ->
      at_a = {| timeout_http_request := timeout_http_request first * (a + 1) / 2;
                timeout_browser_load := timeout_browser_load first * (a + 1) / 2;
                timeout_javascript_wait := timeout_javascript_wait first * (a + 1) / 2 |})
  /\ timeout_http_request at_a <= timeout_http_request at_b
  /\ timeout_browser_load at_a <= timeout_browser_load at_b
  /\ timeout_javascript_wait at_a <= timeout_javascript_wait at_b.
Proof.
  intros Hh Hb Hj Hab. cbn zeta.
  split; [apply get_intelligent_timeout_first|].
  split; [intros Ha; apply get_intelligent_timeout_scaled; assumption|].
  destruct (site_timeouts_nonneg timeouts u Hh Hb Hj) as (H1 & H2 & H3).
  assert (forall v k, 0 <= v -> 1 <= k -> v <= v * (k + 1) / 2) as Hup.
  { intros v k Hv Hk. apply Z.div_le_lower_bound; nia. }
  assert (forall v j k, 0 <= v -> j <= k -> v * (j + 1) / 2 <= v * (k + 1) / 2) as Hmono.
  { intros v j k Hv Hjk. apply Z.div_le_mono; nia. }
  destruct (Z_le_gt_dec a 1) as [Ha|Ha], (Z_le_gt_dec b 1) as [Hb1|Hb1].
  - rewrite (get_intelligent_timeout_first timeouts u a Ha),
      (get_intelligent_timeout_first timeouts u b Hb1). lia.
  - rewrite (get_intelligent_timeout_first timeouts u a Ha),
      (get_intelligent_timeout_scaled timeouts u b) by (assumption || lia).
    cbn. repeat split; apply Hup; (assumption || lia).
  - lia.
  - rewrite (get_intelligent_timeout_scaled timeouts u a),
      (get_intelligent_timeout_scaled timeouts u b) by (assumption || lia).
    cbn. repeat split; apply Hmono; (assumption || lia).
Qed.
End timeouts.

(** ** The theorems above at concrete inputs *)

Lemma retry_history_is_faithful_log_witness :
  exists r s' h,
    execute_with_retry (invoke TestWorld.flaky) (Some "http://example.com")
      (RetryManager_init RetryConfig_default,
       (ErrorHandler_init, (TestWorld.start [], O))) = (r, s')
    /\ retry_histories (fst s') !! "http://example.com" = Some h
    /\ history_url h = "http://example.com"
    /\ map attempt_number (attempts h) = map Z.of_nat (seq 1 (length (attempts h)))
    /\ (success h = true <-> exists v, r = Ok v)
    /\ Z.of_nat (length (attempts h))
       = (if success h then total_attempts h - 1 else total_attempts h)
    /\ map delay_before_attempt (attempts h)
       = map (fun k => policy_delay RetryConfig_default (Z.of_nat k))
             (seq 1 (Z.to_nat (total_attempts h) - 1))
         ++ (if success h then [] else [0%Q])
    /\ total_retry_time h = sum_delays (attempts h).
Proof.
  exact (retry_history_is_faithful_log (invoke TestWorld.flaky)
           (Some "http://example.com") (RetryManager_init RetryConfig_default)
           (ErrorHandler_init, (TestWorld.start [], O)) ltac:(cbn; lia)).
Defined.

Lemma surfaced_failure_is_last_recorded_witness :
  exists r s' h errs,
    execute_with_retry (invoke TestWorld.unresolvable) (Some "http://example.com")
      (RetryManager_init RetryConfig_default,
       (ErrorHandler_init, (TestWorld.start [], O))) = (r, s')
    /\ retry_histories (fst s') !! "http://example.com" = Some h
    /\ Forall (raised_by (invoke TestWorld.unresolvable)) errs
    /\ map attempt_error_category (attempts h) = map category_of errs
    /\ map attempt_error_message (attempts h) = map exc_str errs.
Proof.
  destruct (surfaced_failure_is_last_recorded (invoke TestWorld.unresolvable)
              (Some "http://example.com") (RetryManager_init RetryConfig_default)
              (ErrorHandler_init, (TestWorld.start [], O)) ltac:(cbn; lia))
    as (r & s' & h & errs & Hrun & Hlk & Hra & Hc & Hm & _).
  exists r, s', h, errs. repeat split; assumption.
Defined.

Lemma retries_exhausted_at_limit_witness :
  exists e s' h,
    execute_with_retry (invoke refusing) (Some "http://example.com")
      (RetryManager_init RetryConfig_default,
       (ErrorHandler_init, (TestWorld.start [], O))) = (Raise e, s')
    /\ Z.of_nat (invocations s') = 3
    /\ retry_histories (fst s') !! "http://example.com" = Some h
    /\ total_attempts h = 3
    /\ map delay_before_attempt (attempts h)
       = map (fun k => policy_delay RetryConfig_default (Z.of_nat k)) (seq 1 2) ++ [0%Q].
Proof.
  destruct (retries_exhausted_at_limit refusing (Some "http://example.com")
              (RetryManager_init RetryConfig_default) ErrorHandler_init
              (TestWorld.start []) ltac:(cbn; lia))
    as (e & s' & h & Hrun & Hinv & _ & Hlk & _ & Htot & _ & Hd).
  - intros k rm' w. exists TestWorld.refused. split; [reflexivity|].
    split; [apply not_in_default_non_retryable; vm_compute; discriminate|].
    vm_compute. reflexivity.
  - exists e, s', h. repeat split; assumption.
Defined.

Lemma no_attempt_without_budget_witness :
  execute_with_retry (invoke TestWorld.flaky) (Some "http://example.com")
    (RetryManager_init
       {| max_attempts := 0; backoff_base := 1%Q; backoff_multiplier := 2%Q;
          non_retryable_errors := [DNS_ERROR; SSL_ERROR] |},
     (ErrorHandler_init, (TestWorld.start [], O)))
  = (Raise (mk_exception "RuntimeError" [RuntimeError]
              "Unexpected error in retry logic for http://example.com"),
     ({| config :=
           {| max_attempts := 0; backoff_base := 1%Q; backoff_multiplier := 2%Q;
              non_retryable_errors := [DNS_ERROR; SSL_ERROR] |};
         retry_histories :=
           <["http://example.com" := RetryHistory_init "http://example.com"]> ∅ |},
      (ErrorHandler_init, (TestWorld.start [], O)))).
Proof.
  exact (no_attempt_without_budget TestWorld.flaky (Some "http://example.com")
           (RetryManager_init
              {| max_attempts := 0; backoff_base := 1%Q; backoff_multiplier := 2%Q;
                 non_retryable_errors := [DNS_ERROR; SSL_ERROR] |})
           ErrorHandler_init (TestWorld.start []) O ltac:(cbn; lia)).
Defined.

Lemma single_failed_attempt_summarized_as_success_witness :
  exists e s' h,
    execute_with_retry lost (Some "http://example.com")
      (RetryManager_init RetryConfig_default, (ErrorHandler_init, TestWorld.start []))
    = (Raise e, s')
    /\ retry_histories (fst s') !! "http://example.com" = Some h
    /\ success h = false
    /\ total_attempts h = 1
    /\ format_retry_summary (fun _ => "0.0") (fst s') "http://example.com"
       = "http://example.com: Success on first attempt".
Proof.
  apply (single_failed_attempt_summarized_as_success lost (fun _ => "0.0"%string)
           (Some "http://example.com") (RetryManager_init RetryConfig_default)
           (ErrorHandler_init, TestWorld.start [])).
  - cbn. lia.
  - intros rm' w0 r w1 Hr. inversion Hr. exists TestWorld.unresolved.
    split; [reflexivity|]. left. vm_compute. constructor.
Defined.

Lemma browser_creation_failure_is_classified_witness :
  category_of
    (mk_exception "RuntimeError" [RuntimeError]
       "Failed to create optimized browser: chrome not reachable")
  ∈ [DNS_ERROR; SSL_ERROR; TIMEOUT_ERROR; BROWSER_ERROR].
Proof.
  refine (proj2 (proj2 (proj2
            (browser_creation_failure_is_classified (X := TestWorld.t)
               "http://example.com" (PerformanceOptimizer_init 3, broken_chrome) _
               (mk_exception "RuntimeError" [RuntimeError]
                  "Failed to create optimized browser: chrome not reachable") _)))).
  vm_compute. reflexivity.
Defined.

Lemma modern_framework_means_client_side_witness :
  exists s',
    _classify_rendering_type
      (fun a b => ret (_compare_content (X := TestWorld.t) a b))
      _analyze_dynamic_content
      "<html></html>" "<html><div id=root></div></html>" ["React"] O
      (snd (TestWorld.detector 3 (TestWorld.start [])))
    = (Ok (RenderingType_value CLIENT_SIDE_RENDERED), s').
Proof.
  apply (modern_framework_means_client_side (X := TestWorld.t)). reflexivity.
Defined.

#[local] Existing Instances
  Outage.outage_clock_ops Outage.outage_browser_ops Outage.outage_web_ops.

Lemma http_error_status_is_retried_witness :
  exists r s' h,
    detect_rendering_type (PyStr "example.com") None (Outage.site_down 3) = (Ok r, s')
    /\ status r = ProcessingStatus_value FAILED
    /\ error_category r = Some (ErrorCategory_value HTTP_ERROR)
    /\ retry_histories (fst s') !! "http://example.com" = Some h
    /\ total_attempts h = 3
    /\ retry_count r = 2
    /\ http_status_code r = None.
Proof.
  apply (http_error_status_is_retried (X := Outage.world) (PyStr "example.com") None
           (Outage.site_down 3)).
  - reflexivity.
  - cbn. lia.
  - split; [apply not_in_default_non_retryable; discriminate | reflexivity].
  - intros x. exists (Outage.not_found "http://example.com"), x.
    split; [reflexivity|]. split; [cbn; lia|]. vm_compute. reflexivity.
Defined.

Lemma pool_calls_keep_usage_bound_witness :
  (forall b,
     Z.of_nat (count_returns b
                 (fst (run_calls
                         [call_get_optimized_browser "http://example.com";
                          call_restart_browser_if_needed;
                          call_get_optimized_browser "http://example.com";
                          call_cleanup_resources;
                          call_get_optimized_browser "http://example.com"]
                         (PerformanceOptimizer_init 3, TestWorld.start []))))
     <= 50 + 1)
  /\ (length (_browser_pool
                (fst (snd (run_calls
                             [call_get_optimized_browser "http://example.com";
                              call_restart_browser_if_needed;
                              call_get_optimized_browser "http://example.com";
                              call_cleanup_resources;
                              call_get_optimized_browser "http://example.com"]
                             (PerformanceOptimizer_init 3, TestWorld.start [])))))
      <= 1)%nat.
Proof.
  destruct (pool_calls_keep_usage_bound (X := TestWorld.t)
              [call_get_optimized_browser "http://example.com";
               call_restart_browser_if_needed;
               call_get_optimized_browser "http://example.com";
               call_cleanup_resources;
               call_get_optimized_browser "http://example.com"]
              (PerformanceOptimizer_init 3) (TestWorld.start [])
              ltac:(cbn; lia) eq_refl) as (H1 & H2 & _).
  split; [exact H1 | exact H2].
Defined.

Lemma restart_leaves_no_worn_out_browser_witness :
  exists self' x',
    restart_browser_if_needed
      (snd (run_calls [call_get_optimized_browser "http://example.com";
                       call_get_optimized_browser "http://example.com"]
              (PerformanceOptimizer_init 3, TestWorld.start [])))
    = (Ok tt, (self', x'))
    /\ forall b, b ∈ _browser_pool self' ->
         worn_out self'
           (sweep_time
              (snd (run_calls [call_get_optimized_browser "http://example.com";
                               call_get_optimized_browser "http://example.com"]
                      (PerformanceOptimizer_init 3, TestWorld.start [])))) b = false
         /\ (age_at
               (fst (snd (run_calls [call_get_optimized_browser "http://example.com";
                                     call_get_optimized_browser "http://example.com"]
                            (PerformanceOptimizer_init 3, TestWorld.start []))))
               (sweep_time
                  (snd (run_calls [call_get_optimized_browser "http://example.com";
                                   call_get_optimized_browser "http://example.com"]
                          (PerformanceOptimizer_init 3, TestWorld.start [])))) b
             < _browser_max_age
                 (fst (snd (run_calls [call_get_optimized_browser "http://example.com";
                                       call_get_optimized_browser "http://example.com"]
                              (PerformanceOptimizer_init 3, TestWorld.start [])))))%Q.
Proof.
  destruct (restart_leaves_no_worn_out_browser (X := TestWorld.t)
              [call_get_optimized_browser "http://example.com";
               call_get_optimized_browser "http://example.com"]
              (PerformanceOptimizer_init 3) (TestWorld.start [])
              ltac:(cbn; lia) eq_refl) as (self' & x' & Hrun & Hpool).
  exists self', x'. split; [exact Hrun|].
  intros b Hb. destruct (Hpool b Hb) as (_ & Hw & _ & _ & Hage).
  split; [exact Hw | exact Hage].
Defined.

Lemma detector_results_never_count_not_accessible_witness :
  not_accessible_count (stats_of [failed_result; failed_result]) = 0
  /\ ssr_count (stats_of [failed_result; failed_result])
     + csr_count (stats_of [failed_result; failed_result])
     = successful_urls (stats_of [failed_result; failed_result])
  /\ failed_urls (stats_of [failed_result; failed_result])
     = Z.of_nat (count_not_accessible [failed_result; failed_result]).
Proof.
  apply (detector_results_never_count_not_accessible [failed_result; failed_result]).
  assert ((exists text, success_shape text failed_result)
          \/ (exists u, failure_shape u failed_result)) as Hshape.
  { right. exists (PyStr "example.com"). unfold failure_shape, failed_result. cbn.
    split; [reflexivity|]. split; [reflexivity|]. split; [reflexivity|].
    split; [exists NETWORK_ERROR; reflexivity|].
    split; [eexists; split; [reflexivity | vm_compute; discriminate] | reflexivity]. }
  constructor; [exact Hshape|]. constructor; [exact Hshape|]. constructor.
Defined.

Lemma intelligent_timeouts_grow_with_attempts_witness :
  timeout_http_request
    (get_intelligent_timeout (fun _ => Ok "www.github.com") TimeoutConfig_default
       "https://www.github.com/" 1)
  <= timeout_http_request
       (get_intelligent_timeout (fun _ => Ok "www.github.com") TimeoutConfig_default
          "https://www.github.com/" 3).
Proof.
  destruct (intelligent_timeouts_grow_with_attempts (fun _ => Ok "www.github.com"%string)
              TimeoutConfig_default "https://www.github.com/" 1 3
              ltac:(cbn; lia) ltac:(cbn; lia) ltac:(cbn; lia) ltac:(lia))
    as (_ & _ & Hh & _).
  exact Hh.
Defined.
